(** * Parsing_script.py: a shallow embedding of the document parser

    The development follows the layout of [Parsing_script.py]:
    the fragments of the Python runtime the script relies on (exceptions,
    text, codecs, [os.path], [logging]), the data models of the libraries
    it calls ([csv], [xml.etree.ElementTree], [bs4], ...), the eight
    [parse_*] strategies and the dispatcher [parse_document], and then the
    properties of the dispatcher.

    Conventions.
    - A Python [str] holding file content is a list of code points
      ([ustr]); paths and log messages are Rocq strings (paths are taken
      as byte strings, [os.path] is [posixpath]).
    - [bytes] are lists of [Byte.byte].
    - A call either returns or raises ([outcome]); logging and file-system
      accesses are recorded in an explicit state ([Sink]).
    - A library is given by what it does on the content of a file; PyPDF2,
      which logs through [logging], is given with the records it logs. *)

From Stdlib Require Import List String Ascii NArith Arith Bool Lia.
From Stdlib.Strings Require Import Byte.
From Stdlib Require Import DecimalString.
Import ListNotations.

Set Warnings "-abstract-large-number,-register-all".

Local Open Scope string_scope.
Local Open Scope list_scope.

(* ===================================================================== *)
(** ** Exceptions *)
(* ===================================================================== *)

Module Exn.

(** The exception classes that the calls of the script can raise. All of
    them derive from [Exception]; [IOError] is an alias of [OSError]. *)
Inductive cls :=
| Exception
| OSError
| FileNotFoundError
| PermissionError
| IsADirectoryError
| ValueError
| UnicodeDecodeError
| JSONDecodeError
| LookupError
| KeyError
| ImportError
| MemoryError
| SyntaxError
| csv_Error
| ET_ParseError
| PdfReadError
| PackageNotFoundError
| RuntimeError.

Definition cls_eqb (a b : cls) : bool :=
  match a, b with
  | Exception, Exception | OSError, OSError
  | FileNotFoundError, FileNotFoundError | PermissionError, PermissionError
  | IsADirectoryError, IsADirectoryError | ValueError, ValueError
  | UnicodeDecodeError, UnicodeDecodeError | JSONDecodeError, JSONDecodeError
  | LookupError, LookupError | KeyError, KeyError | ImportError, ImportError
  | MemoryError, MemoryError | SyntaxError, SyntaxError
  | csv_Error, csv_Error | ET_ParseError, ET_ParseError
  | PdfReadError, PdfReadError | RuntimeError, RuntimeError
  | PackageNotFoundError, PackageNotFoundError => true
  | _, _ => false
  end.

(** The direct base class ([Exception] is the root of the fragment). *)
Definition base (c : cls) : option cls :=
  match c with
  | Exception => None
  | OSError => Some Exception
  | FileNotFoundError => Some OSError
  | PermissionError => Some OSError
  | IsADirectoryError => Some OSError
  | ValueError => Some Exception
  | UnicodeDecodeError => Some ValueError
  | JSONDecodeError => Some ValueError
  | LookupError => Some Exception
  | KeyError => Some LookupError
  | ImportError => Some Exception
  | MemoryError => Some Exception
  | SyntaxError => Some Exception
  | csv_Error => Some Exception
  | ET_ParseError => Some SyntaxError
  | PdfReadError => Some Exception
  | PackageNotFoundError => Some Exception
  | RuntimeError => Some Exception
  end.

(** [issubclass c d]: walk up the base classes (the hierarchy has depth 3). *)
Fixpoint issubclass_fuel (fuel : nat) (c d : cls) : bool :=
  cls_eqb c d ||
  match fuel with
  | O => false
  | S fuel' =>
      match base c with
      | Some b => issubclass_fuel fuel' b d
      | None => false
      end
  end.

Definition issubclass (c d : cls) : bool := issubclass_fuel 4 c d.

(** An exception instance: its class and [str(e)]. *)
Record t := mk { class_of : cls; str : string }.

Definition isinstance (e : t) (c : cls) : bool := issubclass (class_of e) c.

End Exn.

(** A call returns a value or raises. *)
Inductive outcome (A : Type) :=
| Return (a : A)
| Raise (e : Exn.t).
Arguments Return {A} a.
Arguments Raise {A} e.

(* ===================================================================== *)
(** ** Text *)
(* ===================================================================== *)

(** File content once decoded: a sequence of Unicode code points. *)
Definition ustr := list N.

Definition bytes := list byte.

Module Text.

Definition of_ascii (s : string) : ustr :=
  List.map N_of_ascii (list_ascii_of_string s).

Definition LF : N := 10.
Definition CR : N := 13.

(** [str.isspace] for one character, as used by [str.strip()]. *)
Definition isspace (c : N) : bool :=
  (((9 <=? c) && (c <=? 13)) || ((28 <=? c) && (c <=? 32))
   || (c =? 133) || (c =? 160) || (c =? 5760)
   || ((8192 <=? c) && (c <=? 8202))
   || (c =? 8232) || (c =? 8233) || (c =? 8239) || (c =? 8287)
   || (c =? 12288))%N.

Fixpoint lstrip (s : ustr) : ustr :=
  match s with
  | [] => []
  | c :: r => if isspace c then lstrip r else s
  end.

Definition rstrip (s : ustr) : ustr := rev (lstrip (rev s)).

(** [s.strip()] *)
Definition strip (s : ustr) : ustr := rstrip (lstrip s).

(** [sep.join(parts)] *)
Fixpoint join (sep : ustr) (parts : list ustr) : ustr :=
  match parts with
  | [] => []
  | [p] => p
  | p :: rest => p ++ sep ++ join sep rest
  end.

(** Truthiness of a [str]: non-empty. *)
Definition truthy (s : ustr) : bool :=
  match s with [] => false | _ => true end.

(** Universal newlines ([newline=None] on reading): ["\r\n"] and a lone
    ["\r"] become ["\n"]. *)
Fixpoint universal_newlines (s : ustr) : ustr :=
  match s with
  | [] => []
  | c :: r =>
      if c =? CR then
        match r with
        | d :: r' => if d =? LF then LF :: universal_newlines r'
                     else LF :: universal_newlines r
        | [] => [LF]
        end
      else c :: universal_newlines r
  end%N.

(** Iterating a text file opened with [newline='']: lines end at ["\n"],
    ["\r"] or ["\r\n"], and keep their terminator. *)
Fixpoint lines_keepends_aux (cur : ustr) (s : ustr) : list ustr :=
  match s with
  | [] => match cur with [] => [] | _ => [rev cur] end
  | c :: r =>
      if c =? LF then rev (c :: cur) :: lines_keepends_aux [] r
      else if c =? CR then
        match r with
        | d :: r' =>
            if d =? LF then rev (d :: c :: cur) :: lines_keepends_aux [] r'
            else rev (c :: cur) :: lines_keepends_aux [] r
        | [] => [rev (c :: cur)]
        end
      else lines_keepends_aux (c :: cur) r
  end%N.

Definition lines_keepends (s : ustr) : list ustr := lines_keepends_aux [] s.

(** ASCII lower-casing of a path component. No character outside ASCII
    lower-cases to a letter of a supported extension, so on extensions
    this agrees with [str.lower()]. *)
Definition lower_ascii (c : ascii) : ascii :=
  let n := N_of_ascii c in
  if ((65 <=? n) && (n <=? 90))%N then ascii_of_N (n + 32) else c.

Fixpoint lower (s : string) : string :=
  match s with
  | EmptyString => EmptyString
  | String c r => String (lower_ascii c) (lower r)
  end.

(** [s.endswith(suffix)] *)
Definition endswith (s suffix : string) : bool :=
  let n := String.length s in
  let k := String.length suffix in
  (k <=? n)%nat && String.eqb (substring (n - k) k s) suffix.

(** [str(n)] for a non-negative integer. *)
Definition of_nat (n : nat) : string := NilEmpty.string_of_uint (Nat.to_uint n).

End Text.

(* ===================================================================== *)
(** ** The UTF-8 codec with its error handlers *)
(* ===================================================================== *)

Module Codec.

(** The [errors=] argument of [open]. *)
Inductive errors := strict | ignore | replace.

Inductive encoding := utf_8.

(** A decoded character, or a maximal ill-formed byte range. *)
Inductive piece :=
| Chr (c : N)
| Bad.

Definition is_cont (b : N) : bool := ((128 <=? b) && (b <=? 191))%N.

(** The decoder of CPython ([utf8_decode] with [final=True]): an invalid
    start byte is an error of one byte, an invalid continuation byte ends
    the error range before it, a truncated sequence at the end of the data
    is one error. *)
Fixpoint scan (s : list N) : list piece :=
  match s with
  | [] => []
  | b0 :: r0 =>
    if (b0 <? 128)%N then Chr b0 :: scan r0
    else if (b0 <? 194)%N then Bad :: scan r0
    else if (b0 <? 224)%N then
      match r0 with
      | [] => [Bad]
      | b1 :: r1 =>
          if is_cont b1 then Chr ((b0 - 192) * 64 + (b1 - 128))%N :: scan r1
          else Bad :: scan r0
      end
    else if (b0 <? 240)%N then
      match r0 with
      | [] => [Bad]
      | b1 :: r1 =>
          if negb (is_cont b1)
             || (if (b1 <? 160)%N then (b0 =? 224)%N else (b0 =? 237)%N)
          then Bad :: scan r0
          else
            match r1 with
            | [] => [Bad]
            | b2 :: r2 =>
                if is_cont b2
                then Chr ((b0 - 224) * 4096 + (b1 - 128) * 64 + (b2 - 128))%N
                       :: scan r2
                else Bad :: scan r1
            end
      end
    else if (b0 <? 245)%N then
      match r0 with
      | [] => [Bad]
      | b1 :: r1 =>
          if negb (is_cont b1)
             || (if (b1 <? 144)%N then (b0 =? 240)%N else (b0 =? 244)%N)
          then Bad :: scan r0
          else
            match r1 with
            | [] => [Bad]
            | b2 :: r2 =>
                if negb (is_cont b2) then Bad :: scan r1
                else
                  match r2 with
                  | [] => [Bad]
                  | b3 :: r3 =>
                      if is_cont b3
                      then Chr ((b0 - 240) * 262144 + (b1 - 128) * 4096
                                + (b2 - 128) * 64 + (b3 - 128))%N :: scan r3
                      else Bad :: scan r2
                  end
            end
      end
    else Bad :: scan r0
  end.

Definition is_bad (p : piece) : bool :=
  match p with Bad => true | Chr _ => false end.

Definition REPLACEMENT_CHARACTER : N := 65533.

Definition UnicodeDecodeError : Exn.t :=
  Exn.mk Exn.UnicodeDecodeError "'utf-8' codec can't decode bytes".

(** [data.decode(enc, errors)] *)
Definition decode (enc : encoding) (h : errors) (data : bytes)
  : outcome ustr :=
  let ps := scan (List.map Byte.to_N data) in
  match h with
  | strict =>
      if existsb is_bad ps then Raise UnicodeDecodeError
      else Return (flat_map (fun p => match p with Chr c => [c] | Bad => [] end) ps)
  | ignore =>
      Return (flat_map (fun p => match p with Chr c => [c] | Bad => [] end) ps)
  | replace =>
      Return (List.map (fun p => match p with
                                 | Chr c => c
                                 | Bad => REPLACEMENT_CHARACTER
                                 end) ps)
  end.

(** [sys.getdefaultencoding()]: ['utf-8'] on every Python 3. *)
Definition sys_getdefaultencoding : encoding := utf_8.

End Codec.

(* ===================================================================== *)
(** ** os.path (posixpath) *)
(* ===================================================================== *)

Module OsPath.

(** [p.rfind(c)] as a position counted from 1 (0 when absent), so that
    [rfind1 c p] is Python's [p.rfind(c) + 1]. *)
Fixpoint rfind1_aux (c : ascii) (p : string) (i : nat) (last : nat) : nat :=
  match p with
  | EmptyString => last
  | String a r => rfind1_aux c r (S i) (if Ascii.eqb a c then S i else last)
  end.

Definition rfind1 (c : ascii) (p : string) : nat := rfind1_aux c p 0 0.

(** [os.path.basename]: [i = p.rfind('/') + 1; return p[i:]] *)
Definition basename (p : string) : string :=
  let i := rfind1 "/" p in
  substring i (String.length p - i) p.

(** The loop of [genericpath._splitext] that skips leading dots: is there
    a character other than ['.'] in [p[filenameIndex:dotIndex]]? *)
Fixpoint has_non_dot (p : string) (filenameIndex : nat) (count : nat) : bool :=
  match count with
  | O => false
  | S count' =>
      match get filenameIndex p with
      | Some a =>
          if Ascii.eqb a "." then has_non_dot p (S filenameIndex) count'
          else true
      | None => true
      end
  end.

(** [os.path.splitext] *)
Definition splitext (p : string) : string * string :=
  let sep1 := rfind1 "/" p in (* sepIndex + 1 *)
  let dot1 := rfind1 "." p in (* dotIndex + 1 *)
  if (sep1 <? dot1)%nat then
    let dotIndex := dot1 - 1 in
    if has_non_dot p sep1 (dotIndex - sep1)
    then (substring 0 dotIndex p, substring dotIndex (String.length p - dotIndex) p)
    else (p, "")
  else (p, "").

End OsPath.

(* ===================================================================== *)
(** ** csv.reader with the default dialect *)
(* ===================================================================== *)

Module Csv.

(** The states of the parser of [_csv.c]; the two escape states are left
    out, the default dialect has no escape character. *)
Inductive ParserState :=
| START_RECORD
| START_FIELD
| IN_FIELD
| IN_QUOTED_FIELD
| QUOTE_IN_QUOTED_FIELD
| EAT_CRNL.

Record Reader := mkReader {
  state : ParserState;
  fields : list ustr;   (* the fields of the record being read *)
  field : ustr          (* the field being read *)
}.

Definition delimiter : N := 44.  (* comma *)
Definition quotechar : N := 34.  (* double quote *)
Definition field_limit : N := 131072.

Definition is_newline (c : N) : bool := ((c =? Text.LF) || (c =? Text.CR))%N.

Definition Error (msg : string) : Exn.t := Exn.mk Exn.csv_Error msg.

Definition parse_reset : Reader := mkReader START_RECORD [] [].

Definition set_state (self : Reader) (s : ParserState) : Reader :=
  mkReader s (fields self) (field self).

Definition parse_save_field (self : Reader) : Reader :=
  mkReader (state self) (fields self ++ [field self]) [].

Definition parse_add_char (self : Reader) (c : N) : outcome Reader :=
  if (field_limit <=? N.of_nat (List.length (field self)))%N
  then Raise (Error "field larger than field limit (131072)")
  else Return (mkReader (state self) (fields self) (field self ++ [c])).

Definition add_char_then (self : Reader) (c : N) (s : ParserState)
  : outcome Reader :=
  match parse_add_char self c with
  | Return self' => Return (set_state self' s)
  | Raise e => Raise e
  end.

(** The end of a field at a line end: [c] is [None] at the end of the
    line ([EOL]) and a newline character otherwise. *)
Definition end_of_line (self : Reader) (c : option N) : outcome Reader :=
  Return (set_state (parse_save_field self)
            (match c with None => START_RECORD | Some _ => EAT_CRNL end)).

Definition is_eol_or_newline (c : option N) : bool :=
  match c with None => true | Some ch => is_newline ch end.

(** [case START_FIELD] *)
Definition start_field (self : Reader) (c : option N) : outcome Reader :=
  if is_eol_or_newline c then end_of_line self c
  else match c with
       | None => Return self
       | Some ch =>
           if (ch =? quotechar)%N then Return (set_state self IN_QUOTED_FIELD)
           else if (ch =? delimiter)%N then Return (parse_save_field self)
           else add_char_then self ch IN_FIELD
       end.

(** [parse_process_char] *)
Definition parse_process_char (self : Reader) (c : option N)
  : outcome Reader :=
  match state self with
  | START_RECORD =>
      match c with
      | None => Return self
      | Some ch =>
          if is_newline ch then Return (set_state self EAT_CRNL)
          else start_field (set_state self START_FIELD) c
      end
  | START_FIELD => start_field self c
  | IN_FIELD =>
      if is_eol_or_newline c then end_of_line self c
      else match c with
           | None => Return self
           | Some ch =>
               if (ch =? delimiter)%N
               then Return (set_state (parse_save_field self) START_FIELD)
               else add_char_then self ch IN_FIELD
           end
  | IN_QUOTED_FIELD =>
      match c with
      | None => Return self
      | Some ch =>
          if (ch =? quotechar)%N
          then Return (set_state self QUOTE_IN_QUOTED_FIELD)
          else add_char_then self ch IN_QUOTED_FIELD
      end
  | QUOTE_IN_QUOTED_FIELD =>
      match c with
      | Some ch =>
          if (ch =? quotechar)%N then add_char_then self ch IN_QUOTED_FIELD
          else if (ch =? delimiter)%N
          then Return (set_state (parse_save_field self) START_FIELD)
          else if is_newline ch then end_of_line self c
          else add_char_then self ch IN_FIELD
      | None => end_of_line self c
      end
  | EAT_CRNL =>
      match c with
      | None => Return (set_state self START_RECORD)
      | Some ch =>
          if is_newline ch then Return self
          else Raise (Error "new-line character seen in unquoted field - do you need to open the file in universal-newline mode?")
      end
  end.

(** One line of input: its characters, then [EOL]. *)
Fixpoint process_line (self : Reader) (line : ustr) : outcome Reader :=
  match line with
  | [] => parse_process_char self None
  | c :: r =>
      match parse_process_char self (Some c) with
      | Return self' => process_line self' r
      | Raise e => Raise e
      end
  end.

(** What iterating the reader gives: the records in order, until the
    input is exhausted or a line raises; [line_num] is [reader.line_num]
    at that point. *)
Inductive iteration :=
| StopIteration (line_num : nat)
| Next (row : list ustr) (rest : iteration)
| Failed (e : Exn.t) (line_num : nat).

Definition is_start_record (s : ParserState) : bool :=
  match s with START_RECORD => true | _ => false end.

Definition is_in_quoted_field (s : ParserState) : bool :=
  match s with IN_QUOTED_FIELD => true | _ => false end.

(** [Reader_iternext], repeated: lines are consumed until the parser is
    back in [START_RECORD]; when the input ends inside a record, the
    record read so far is returned. *)
Fixpoint iternext (self : Reader) (line_num : nat) (lines : list ustr)
  : iteration :=
  match lines with
  | [] =>
      if Text.truthy (field self) || is_in_quoted_field (state self)
      then Next (fields (parse_save_field self)) (StopIteration line_num)
      else StopIteration line_num
  | line :: rest =>
      match process_line self line with
      | Raise e => Failed e (S line_num)
      | Return self' =>
          if is_start_record (state self')
          then Next (fields self') (iternext parse_reset (S line_num) rest)
          else iternext self' (S line_num) rest
      end
  end.

(** [csv.reader(f)] over the lines of [f]. *)
Definition reader (lines : list ustr) : iteration :=
  iternext parse_reset 0 lines.



End Csv.

(* ===================================================================== *)
(** ** xml.etree.ElementTree *)
(* ===================================================================== *)

Module ET.

(** An element: [text] is the text between the start tag and the first
    child, [tail] the text between the end tag and the next sibling. *)
Inductive Element :=
| Elem (tag : string) (attrib : list (string * ustr))
       (text : option ustr) (tail : option ustr)
       (children : list Element).

Definition text (e : Element) : option ustr :=
  match e with Elem _ _ t _ _ => t end.

Definition tail (e : Element) : option ustr :=
  match e with Elem _ _ _ t _ => t end.

(** [root.iter()]: the element and its descendants, in document order. *)
Fixpoint iter (e : Element) : list Element :=
  match e with
  | Elem _ _ _ _ children => e :: flat_map iter children
  end.

Definition opt_text (t : option ustr) : list ustr :=
  match t with Some s => [s] | None => [] end.

(** [root.itertext()]: every piece of character data of the document in
    document order, inner text and tails alike. *)
Fixpoint itertext (e : Element) : list ustr :=
  match e with
  | Elem _ _ t _ children =>
      opt_text t
      ++ flat_map (fun c => itertext c ++ opt_text (tail c)) children
  end.

Definition ParseError (msg : string) : Exn.t := Exn.mk Exn.ET_ParseError msg.

End ET.

(* ===================================================================== *)
(** ** bs4 *)
(* ===================================================================== *)

Module Bs4.

(** The classes of the strings of a tree: the text of the document is
    made of [NavigableString] and [CData] objects; the parser builds the
    other classes for comments, declarations, the document type,
    processing instructions, and for what it finds inside [script],
    [style], [template], [rt] and [rp] elements. *)
Inductive string_class :=
| NavigableString
| CData
| ProcessingInstruction
| Comment
| Declaration
| Doctype
| Stylesheet
| Script
| TemplateString
| RubyTextString
| RubyParenthesisString.

Inductive PageElement :=
| Tag (name : string) (contents : list PageElement)
| Str (class : string_class) (s : ustr).

(** [Tag.interesting_string_types] of the soup object: the classes that
    [get_text] keeps, [(NavigableString, CData)]. A string is kept when
    its class is one of the two, not a subclass of them. *)
Definition interesting (class : string_class) : bool :=
  match class with
  | NavigableString | CData => true
  | _ => false
  end.

Definition name_in (names : list string) (n : string) : bool :=
  existsb (String.eqb n) names.

(** [for element in soup(names): element.decompose()]: every tag with one
    of the names is removed with its subtree. *)
Fixpoint decompose_all (names : list string) (e : PageElement)
  : list PageElement :=
  match e with
  | Str _ _ => [e]
  | Tag n cs =>
      if name_in names n then []
      else [Tag n (flat_map (decompose_all names) cs)]
  end.

(** [_all_strings(strip=True)]: the strings of an interesting class in
    document order, stripped, the empty ones dropped. *)
Fixpoint stripped_strings (e : PageElement) : list ustr :=
  match e with
  | Str class s =>
      if interesting class then
        let s' := Text.strip s in
        if Text.truthy s' then [s'] else []
      else []
  | Tag _ cs => flat_map stripped_strings cs
  end.

(** [soup.get_text(separator, strip=True)] *)
Definition get_text (separator : ustr) (soup : list PageElement) : ustr :=
  Text.join separator (flat_map stripped_strings soup).

End Bs4.

(* ===================================================================== *)
(** ** json, pandas *)
(* ===================================================================== *)

Module Json.

(** What [json.load] builds: [None], [bool], [int]/[float], [str], [list],
    [dict] (insertion-ordered). *)
Inductive value :=
| Null
| Bool (b : bool)
| Number (literal : string)
| Str (s : ustr)
| Array (items : list value)
| Object (members : list (ustr * value)).

Definition is_null (v : value) : bool :=
  match v with Null => true | _ => false end.

End Json.

Module Pandas.

Inductive engine := openpyxl | xlrd.

(** A [DataFrame], as far as the parser is concerned: rows of cells. *)
Definition DataFrame := list (list ustr).

End Pandas.

Module PyPDF2.

(** What a call into the library does before it returns or raises: the
    library reports what it recovers from with [logger_warning], that is
    as WARNING records of a logger of its own, which propagate to the
    handler that the script installs on the root logger. *)
Record call (A : Type) := mkCall {
  logged : list string;   (* the messages of these records, oldest first *)
  result : outcome A
}.

Arguments mkCall {A} logged result.
Arguments logged {A} c.
Arguments result {A} c.

(** [reader.pages[page_num].extract_text()] *)
Definition page := call ustr.

(** A call in which the library logs nothing. *)
Definition silent {A} (o : outcome A) : call A := mkCall [] o.

End PyPDF2.

(* ===================================================================== *)
(** ** The environment of a call, logging, and the monad of the script *)
(* ===================================================================== *)

(** [logging]: the root logger is configured at level INFO, so every
    record of the script reaches the handler. *)
Inductive level := INFO | WARNING | ERROR.

Record LogRecord := mkRecord { levelname : level; message : string }.

Inductive newline := newline_None | newline_empty.

Inductive open_mode :=
| text_mode (enc : Codec.encoding) (errors : Codec.errors) (nl : newline)
| binary_mode.

(** The accesses to the file system. *)
Inductive FsCall :=
| os_path_exists (path : string)
| os_path_isfile (path : string)
| io_open (path : string) (mode : open_mode).

(** What a call leaves behind: the records it logged and the accesses it
    made, oldest first. *)
Record Sink := mkSink { log : list LogRecord; calls : list FsCall }.

Definition empty_sink : Sink := mkSink [] [].

Inductive access := Readable | Denied | Faulty.

Record FileNode := mkFile {
  regular : bool;   (* a regular file, as opposed to a device, a FIFO... *)
  acc : access;
  data : bytes
}.

Inductive Entry :=
| Directory
| File (f : FileNode).

(** The environment of a call: the availability flags computed at import
    time, the file system, and the behaviour of the libraries on the
    content of a file. The file system does not change during a call. *)
Record Env := mkEnv {
  HAS_PYPDF2 : bool;
  HAS_DOCX : bool;
  HAS_PANDAS : bool;
  HAS_BS4 : bool;
  fs : string -> option Entry;
  (** [json.loads] *)
  json_loads : ustr -> outcome Json.value;
  (** [ET.parse(path).getroot()] on the bytes of the file *)
  ET_parse : bytes -> outcome ET.Element;
  (** [PyPDF2.PdfReader(f)] and [reader.pages]: what the library logs
      while it reads the structure of the document, and each page with
      what [extract_text()] does on it *)
  PdfReader : bytes -> PyPDF2.call (list PyPDF2.page);
  (** [docx.Document(path).paragraphs]: the text of each paragraph *)
  docx_Document : bytes -> outcome (list ustr);
  (** [pd.read_excel(path, sheet_name=None, engine=engine)] *)
  pd_read_excel : Pandas.engine -> bytes
                  -> outcome (list (string * Pandas.DataFrame));
  (** [BeautifulSoup(markup, 'lxml')]: the top-level nodes of the soup *)
  BeautifulSoup : ustr -> outcome (list Bs4.PageElement)
}.

(** The values [parse_document] may be called with. *)
Inductive pyobj :=
| PyNone
| PyBool (b : bool)
| PyInt (n : N) (negative : bool)
| PyStr (s : string)
| PyBytes (b : bytes)
| PyList (l : list pyobj).

(** The objects a strategy returns on success. Python's [None] is the
    [None] of [option Content]. *)
Inductive Content :=
| Text_ (content : ustr)                                  (* str *)
| Table (rows : list (list ustr))                         (* list of lists *)
| StructuredValue (v : Json.value)                        (* json value *)
| SheetSet (sheets : list (string * Pandas.DataFrame)).  (* dict of frames *)

Module M.

Definition t (A : Type) : Type := Sink -> outcome A * Sink.

Definition ret {A} (a : A) : t A := fun s => (Return a, s).

Definition bind {A B} (m : t A) (k : A -> t B) : t B :=
  fun s =>
    match m s with
    | (Return a, s') => k a s'
    | (Raise e, s') => (Raise e, s')
    end.

Definition raise {A} (e : Exn.t) : t A := fun s => (Raise e, s).

(** A library call whose outcome is known. *)
Definition lift {A} (o : outcome A) : t A := fun s => (o, s).

(** One [except (c1, c2, ...) as e:] clause. *)
Definition clause (A : Type) : Type := list Exn.cls * (Exn.t -> t A).

Definition matches (e : Exn.t) (cs : list Exn.cls) : bool :=
  existsb (Exn.isinstance e) cs.

(** The first clause that matches handles the exception. *)
Fixpoint select {A} (e : Exn.t) (clauses : list (clause A))
  : option (Exn.t -> t A) :=
  match clauses with
  | [] => None
  | (cs, h) :: rest => if matches e cs then Some h else select e rest
  end.

(** [try: body  except ...: ...] *)
Definition try_except {A} (body : t A) (clauses : list (clause A)) : t A :=
  fun s =>
    match body s with
    | (Return a, s') => (Return a, s')
    | (Raise e, s') =>
        match select e clauses with
        | Some h => h e s'
        | None => (Raise e, s')
        end
    end.

Definition emit (l : level) (msg : string) : t unit :=
  fun s => (Return tt, mkSink (log s ++ [mkRecord l msg]) (calls s)).

(** A call into PyPDF2: its WARNING records reach the handler of the
    root logger, whether the call returns or raises. *)
Definition library {A} (c : PyPDF2.call A) : t A :=
  fun s =>
    (PyPDF2.result c,
     mkSink (log s ++ List.map (mkRecord WARNING) (PyPDF2.logged c))
            (calls s)).

Definition touch (c : FsCall) : t unit :=
  fun s => (Return tt, mkSink (log s) (calls s ++ [c])).

End M.

Notation "x <- m ;; k" := (M.bind m (fun x => k))
  (at level 61, m at next level, right associativity).
Notation "m ;; k" := (M.bind m (fun _ => k))
  (at level 61, right associativity).

Definition logging_info (msg : string) : M.t unit := M.emit INFO msg.
Definition logging_warning (msg : string) : M.t unit := M.emit WARNING msg.
Definition logging_error (msg : string) : M.t unit := M.emit ERROR msg.

Definition quoted (p : string) : string := "'" ++ p ++ "'".

Definition FileNotFoundError (p : string) : Exn.t :=
  Exn.mk Exn.FileNotFoundError
    ("[Errno 2] No such file or directory: " ++ quoted p).
Definition IsADirectoryError (p : string) : Exn.t :=
  Exn.mk Exn.IsADirectoryError ("[Errno 21] Is a directory: " ++ quoted p).
Definition PermissionError (p : string) : Exn.t :=
  Exn.mk Exn.PermissionError ("[Errno 13] Permission denied: " ++ quoted p).
Definition EIO : Exn.t := Exn.mk Exn.OSError "[Errno 5] Input/output error".

Section Script.

Variable env : Env.

(** [os.path.exists(path)] *)
Definition os_exists (path : string) : M.t bool :=
  M.touch (os_path_exists path) ;;
  M.ret (match fs env path with Some _ => true | None => false end).

(** [os.path.isfile(path)] *)
Definition os_isfile (path : string) : M.t bool :=
  M.touch (os_path_isfile path) ;;
  M.ret (match fs env path with
         | Some (File f) => regular f
         | _ => false
         end).

(** The bytes that opening [path] for reading and reading it to the end
    gives. *)
Definition read_bytes (path : string) : outcome bytes :=
  match fs env path with
  | None => Raise (FileNotFoundError path)
  | Some Directory => Raise (IsADirectoryError path)
  | Some (File f) =>
      match acc f with
      | Readable => Return (data f)
      | Denied => Raise (PermissionError path)
      | Faulty => Raise EIO
      end
  end.

(** [open(path, 'rb')] read to the end; also how the libraries that are
    given the path read the file. *)
Definition open_rb (path : string) : M.t bytes :=
  M.touch (io_open path binary_mode) ;;
  M.lift (read_bytes path).

(** [open(path, 'r', encoding=enc, errors=errors, newline=nl)] read to
    the end. Decoding is done on the whole content. *)
Definition open_r (path : string) (enc : Codec.encoding)
  (errors : Codec.errors) (nl : newline) : M.t ustr :=
  M.touch (io_open path (text_mode enc errors nl)) ;;
  raw <- M.lift (read_bytes path) ;;
  s <- M.lift (Codec.decode enc errors raw) ;;
  M.ret (match nl with
         | newline_None => Text.universal_newlines s
         | newline_empty => s
         end).

(** *** parse_txt *)
Definition parse_txt (filepath : string) : M.t (option Content) :=
  M.try_except
    (content <-
       M.try_except
         (open_r filepath Codec.utf_8 Codec.strict newline_None)
         [ ([Exn.UnicodeDecodeError], fun _ =>
              logging_warning ("UTF-8 decoding failed for " ++ filepath
                               ++ ". Trying system default encoding.") ;;
              open_r filepath Codec.sys_getdefaultencoding Codec.ignore
                newline_None) ] ;;
     logging_info ("Successfully parsed TXT: " ++ OsPath.basename filepath) ;;
     M.ret (Some (Text_ content)))
    [ ([Exn.FileNotFoundError], fun _ =>
         logging_error ("File not found: " ++ filepath) ;; M.ret None);
      ([Exn.OSError], fun e =>
         logging_error ("IOError reading TXT file " ++ filepath ++ ": "
                        ++ Exn.str e) ;; M.ret None);
      ([Exn.Exception], fun e =>
         logging_error ("Unexpected error parsing TXT file " ++ filepath
                        ++ ": " ++ Exn.str e) ;; M.ret None) ].

(** *** parse_csv *)

(** [for row in reader: rows.append(row)] *)
Fixpoint append_rows (reader : Csv.iteration) (rows : list (list ustr))
  : outcome (list (list ustr)) :=
  match reader with
  | Csv.StopIteration _ => Return rows
  | Csv.Next row rest => append_rows rest (rows ++ [row])
  | Csv.Failed e _ => Raise e
  end.

(** [reader.line_num] once the loop is over. *)
Fixpoint line_num (reader : Csv.iteration) : nat :=
  match reader with
  | Csv.StopIteration n => n
  | Csv.Next _ rest => line_num rest
  | Csv.Failed _ n => n
  end.

(** The clause for [csv.Error] reads [reader.line_num], and [reader] is a
    local of the [try] body; only the loop over the reader raises
    [csv.Error], so the clause is attached to the loop, where [reader] is
    in scope. [csv.Error] and [FileNotFoundError] are unrelated classes,
    so the order of the clauses is kept. *)
Definition parse_csv (filepath : string) : M.t (option Content) :=
  M.try_except
    (f <- open_r filepath Codec.utf_8 Codec.strict newline_empty ;;
     let reader := Csv.reader (Text.lines_keepends f) in
     M.try_except
       (rows <- M.lift (append_rows reader []) ;;
        logging_info ("Successfully parsed CSV: " ++ OsPath.basename filepath
                      ++ " (" ++ Text.of_nat (List.length rows) ++ " rows)") ;;
        M.ret (Some (Table rows)))
       [ ([Exn.csv_Error], fun e =>
            logging_error ("CSV parsing error in file " ++ filepath
                           ++ ", line " ++ Text.of_nat (line_num reader)
                           ++ ": " ++ Exn.str e) ;; M.ret None) ])
    [ ([Exn.FileNotFoundError], fun _ =>
         logging_error ("File not found: " ++ filepath) ;; M.ret None);
      ([Exn.OSError], fun e =>
         logging_error ("IOError reading CSV file " ++ filepath ++ ": "
                        ++ Exn.str e) ;; M.ret None);
      ([Exn.Exception], fun e =>
         logging_error ("Unexpected error parsing CSV file " ++ filepath
                        ++ ": " ++ Exn.str e) ;; M.ret None) ].

(** *** parse_json *)

(** [return data]: a document that is [null] loads as [None]. *)
Definition json_data (v : Json.value) : option Content :=
  if Json.is_null v then None else Some (StructuredValue v).

Definition parse_json (filepath : string) : M.t (option Content) :=
  M.try_except
    (f <- open_r filepath Codec.utf_8 Codec.strict newline_None ;;
     data <- M.lift (json_loads env f) ;;
     logging_info ("Successfully parsed JSON: " ++ OsPath.basename filepath) ;;
     M.ret (json_data data))
    [ ([Exn.FileNotFoundError], fun _ =>
         logging_error ("File not found: " ++ filepath) ;; M.ret None);
      ([Exn.JSONDecodeError], fun e =>
         logging_error ("Invalid JSON format in " ++ filepath ++ ": "
                        ++ Exn.str e) ;; M.ret None);
      ([Exn.OSError], fun e =>
         logging_error ("IOError reading JSON file " ++ filepath ++ ": "
                        ++ Exn.str e) ;; M.ret None);
      ([Exn.Exception], fun e =>
         logging_error ("Unexpected error parsing JSON file " ++ filepath
                        ++ ": " ++ Exn.str e) ;; M.ret None) ].

(** *** parse_xml *)

(** [[elem.text for elem in root.iter() if elem.text]] *)
Definition text_parts (root : ET.Element) : list ustr :=
  flat_map (fun elem =>
              match ET.text elem with
              | Some t => if Text.truthy t then [t] else []
              | None => []
              end) (ET.iter root).

(** [' '.join(part.strip() for part in text_parts if part.strip())] *)
Definition join_stripped (parts : list ustr) : ustr :=
  Text.join (Text.of_ascii " ")
    (List.map Text.strip
       (List.filter (fun part => Text.truthy (Text.strip part)) parts)).

Definition parse_xml (filepath : string) : M.t (option Content) :=
  M.try_except
    (raw <- open_rb filepath ;;
     root <- M.lift (ET_parse env raw) ;;
     let text_content := join_stripped (text_parts root) in
     logging_info ("Successfully parsed XML and extracted text: "
                   ++ OsPath.basename filepath) ;;
     M.ret (Some (Text_ text_content)))
    [ ([Exn.FileNotFoundError], fun _ =>
         logging_error ("File not found: " ++ filepath) ;; M.ret None);
      ([Exn.ET_ParseError], fun e =>
         logging_error ("XML parsing error in " ++ filepath ++ ": "
                        ++ Exn.str e) ;; M.ret None);
      ([Exn.OSError], fun e =>
         logging_error ("IOError reading XML file " ++ filepath ++ ": "
                        ++ Exn.str e) ;; M.ret None);
      ([Exn.Exception], fun e =>
         logging_error ("Unexpected error processing XML file " ++ filepath
                        ++ ": " ++ Exn.str e) ;; M.ret None) ].

(** *** parse_pdf *)

(** The loop over [range(num_pages)]: a page whose extraction raises is
    logged and skipped, a page without text adds nothing. What the
    library logs while it extracts a page is logged before the page is
    either added or skipped. *)
Fixpoint extract_pages (filepath : string) (pages : list PyPDF2.page)
  (page_num : nat) (text_content : ustr) : M.t ustr :=
  match pages with
  | [] => M.ret text_content
  | page :: rest =>
      text_content' <-
        M.try_except
          (page_text <- M.library page ;;
           M.ret (if Text.truthy page_text
                  then text_content ++ page_text ++ [Text.LF]
                  else text_content))
          [ ([Exn.Exception], fun page_error =>
               logging_warning ("Could not extract text from page "
                                ++ Text.of_nat (page_num + 1) ++ " in "
                                ++ filepath ++ ": " ++ Exn.str page_error) ;;
               M.ret text_content) ] ;;
      extract_pages filepath rest (S page_num) text_content'
  end.

Definition parse_pdf (filepath : string) : M.t (option Content) :=
  if negb (HAS_PYPDF2 env) then
    logging_error "PyPDF2 library is required for PDF parsing but not found." ;;
    M.ret None
  else
  M.try_except
    (f <- open_rb filepath ;;
     pages <- M.library (PdfReader env f) ;;
     let num_pages := List.length pages in
     logging_info ("Reading " ++ Text.of_nat num_pages ++ " pages from PDF: "
                   ++ OsPath.basename filepath ++ "...") ;;
     text_content <- extract_pages filepath pages 0 [] ;;
     logging_info ("Finished extracting text from PDF: "
                   ++ OsPath.basename filepath) ;;
     M.ret (Some (Text_ (Text.strip text_content))))
    [ ([Exn.FileNotFoundError], fun _ =>
         logging_error ("File not found: " ++ filepath) ;; M.ret None);
      ([Exn.PdfReadError], fun e =>
         logging_error ("PyPDF2 error reading PDF " ++ filepath ++ ": "
                        ++ Exn.str e) ;; M.ret None);
      ([Exn.OSError], fun e =>
         logging_error ("IOError reading PDF file " ++ filepath ++ ": "
                        ++ Exn.str e) ;; M.ret None);
      ([Exn.Exception], fun e =>
         logging_error ("Unexpected error parsing PDF file " ++ filepath
                        ++ ": " ++ Exn.str e) ;; M.ret None) ].

(** *** parse_docx *)

(** How [docx.Document(path)] reads the file: a path that is not a
    readable package is reported as [PackageNotFoundError]. *)
Definition docx_open (path : string) : M.t bytes :=
  M.touch (io_open path binary_mode) ;;
  M.lift (match fs env path with
          | Some Directory => Raise (FileNotFoundError path)
          | Some (File (mkFile _ Readable raw)) => Return raw
          | _ => Raise (Exn.mk Exn.PackageNotFoundError
                          ("Package not found at " ++ quoted path))
          end).

Definition parse_docx (filepath : string) : M.t (option Content) :=
  if negb (HAS_DOCX env) then
    logging_error "python-docx library is required for DOCX parsing but not found." ;;
    M.ret None
  else
  M.try_except
    (raw <- docx_open filepath ;;
     paragraphs <- M.lift (docx_Document env raw) ;;
     let text_content :=
       Text.join [Text.LF] (List.filter Text.truthy paragraphs) in
     logging_info ("Successfully parsed DOCX: " ++ OsPath.basename filepath) ;;
     M.ret (Some (Text_ text_content)))
    [ ([Exn.FileNotFoundError], fun _ =>
         logging_error ("File not found: " ++ filepath) ;; M.ret None);
      ([Exn.Exception], fun e =>
         logging_error ("Error parsing DOCX file " ++ filepath ++ ": "
                        ++ Exn.str e) ;; M.ret None) ].

(** *** parse_excel *)
Definition parse_excel (filepath : string) : M.t (option Content) :=
  if negb (HAS_PANDAS env) then
    logging_error "pandas, openpyxl, xlrd libraries required for Excel parsing but not found." ;;
    M.ret None
  else
  M.try_except
    (let engine := if Text.endswith (Text.lower filepath) ".xlsx"
                   then Pandas.openpyxl else Pandas.xlrd in
     raw <- open_rb filepath ;;
     excel_data <- M.lift (pd_read_excel env engine raw) ;;
     logging_info ("Successfully parsed Excel: " ++ OsPath.basename filepath
                   ++ " (" ++ Text.of_nat (List.length excel_data)
                   ++ " sheets)") ;;
     M.ret (Some (SheetSet excel_data)))
    [ ([Exn.FileNotFoundError], fun _ =>
         logging_error ("File not found: " ++ filepath) ;; M.ret None);
      ([Exn.KeyError; Exn.ValueError; Exn.ImportError], fun e =>
         logging_error ("Error parsing Excel file " ++ filepath
                        ++ " (check file/libraries): " ++ Exn.str e) ;;
         M.ret None);
      ([Exn.MemoryError], fun _ =>
         logging_error ("MemoryError parsing Excel file " ++ filepath
                        ++ ". File may be too large for pandas.") ;;
         M.ret None);
      ([Exn.Exception], fun e =>
         logging_error ("Unexpected error parsing Excel file " ++ filepath
                        ++ ": " ++ Exn.str e) ;; M.ret None) ].

(** *** parse_html *)
Definition parse_html (filepath : string) : M.t (option Content) :=
  if negb (HAS_BS4 env) then
    logging_error "beautifulsoup4 and lxml libraries required for HTML parsing but not found." ;;
    M.ret None
  else
  M.try_except
    (f <- open_r filepath Codec.utf_8 Codec.strict newline_None ;;
     soup <- M.lift (BeautifulSoup env f) ;;
     let soup' := flat_map (Bs4.decompose_all ["script"; "style"]) soup in
     let text := Bs4.get_text [Text.LF] soup' in
     logging_info ("Successfully parsed HTML and extracted text: "
                   ++ OsPath.basename filepath) ;;
     M.ret (Some (Text_ text)))
    [ ([Exn.FileNotFoundError], fun _ =>
         logging_error ("File not found: " ++ filepath) ;; M.ret None);
      ([Exn.OSError], fun e =>
         logging_error ("IOError reading HTML file " ++ filepath ++ ": "
                        ++ Exn.str e) ;; M.ret None);
      ([Exn.Exception], fun e =>
         logging_error ("Error parsing HTML file " ++ filepath ++ ": "
                        ++ Exn.str e) ;; M.ret None) ].

(** *** The dispatcher *)

(** The [if]/[elif] chain on the lower-cased extension; the last branch
    logs the unsupported format and leaves [content] at [None]. *)
Definition dispatch (extension filepath : string) : M.t (option Content) :=
  if String.eqb extension ".txt" then parse_txt filepath
  else if String.eqb extension ".csv" then parse_csv filepath
  else if String.eqb extension ".json" then parse_json filepath
  else if String.eqb extension ".xml" then parse_xml filepath
  else if String.eqb extension ".pdf" then parse_pdf filepath
  else if String.eqb extension ".docx" then parse_docx filepath
  else if existsb (String.eqb extension) [".xlsx"; ".xls"]
  then parse_excel filepath
  else if existsb (String.eqb extension) [".html"; ".htm"]
  then parse_html filepath
  else
    logging_warning ("Unsupported file format " ++ quoted extension
                     ++ " for file: " ++ filepath) ;;
    M.ret None.

Definition parse_document (arg : pyobj) : M.t (option Content) :=
  match arg with
  | PyStr filepath =>
      if String.eqb filepath "" then
        logging_error "Invalid filepath provided." ;; M.ret None
      else
        e <- os_exists filepath ;;
        if negb e then
          logging_error ("File does not exist: " ++ filepath) ;; M.ret None
        else
          f <- os_isfile filepath ;;
          if negb f then
            logging_error ("Path is not a file: " ++ filepath) ;; M.ret None
          else
            let extension := Text.lower (snd (OsPath.splitext filepath)) in
            logging_info ("Attempting to parse file: " ++ filepath
                          ++ " (Detected type: " ++ extension ++ ")") ;;
            content <- dispatch extension filepath ;;
            match content with
            | Some _ =>
                logging_info ("Finished parsing: "
                              ++ OsPath.basename filepath)
            | None =>
                logging_error ("Failed to parse: "
                               ++ OsPath.basename filepath)
            end ;;
            M.ret content
  | _ =>
      (* not isinstance(filepath, str) *)
      logging_error "Invalid filepath provided." ;; M.ret None
  end.

End Script.

(** Running a call from an empty sink. *)
Definition run {A} (m : M.t A) : outcome A * Sink := m empty_sink.

Definition parse (env : Env) (arg : pyobj) : outcome (option Content) * Sink :=
  run (parse_document env arg).

(* ===================================================================== *)
(** ** Import time and batch use *)
(* ===================================================================== *)

Module Startup.

(** The flags that the module sets when it is imported. *)
Record Flags := mkFlags {
  has_pypdf2 : bool;
  has_docx : bool;
  has_pandas : bool;
  has_bs4 : bool
}.

(** [try: import m1; import m2; ...; HAS = True
     except ImportError: HAS = False; logging.warning(msg)]:
    the imports are made in order, the first one that fails ends the
    block. [importable] tells which modules can be imported. *)
Definition try_import (importable : string -> bool) (modules : list string)
  (msg : string) : bool * list LogRecord :=
  if forallb importable modules then (true, [])
  else (false, [mkRecord WARNING msg]).

(** The four blocks, in the order of the script, with the records they
    log (the level of the root logger is WARNING while they run). *)
Definition detect_backends (importable : string -> bool)
  : Flags * list LogRecord :=
  let (pypdf2, l1) :=
    try_import importable ["PyPDF2"]
      "PyPDF2 not found. PDF parsing disabled. Install with: pip install PyPDF2" in
  let (docx, l2) :=
    try_import importable ["docx"]
      "python-docx not found. DOCX parsing disabled. Install with: pip install python-docx" in
  let (pandas, l3) :=
    try_import importable ["pandas"; "openpyxl"; "xlrd"]
      "pandas, openpyxl, or xlrd not found. Excel parsing disabled. Install with: pip install pandas openpyxl xlrd" in
  let (bs4, l4) :=
    try_import importable ["bs4"; "lxml"]
      "beautifulsoup4 or lxml not found. HTML parsing disabled. Install with: pip install beautifulsoup4 lxml" in
  (mkFlags pypdf2 docx pandas bs4, l1 ++ l2 ++ l3 ++ l4).

(** The environment of the calls made after the import. *)
Definition configure (flags : Flags) (env : Env) : Env :=
  mkEnv (has_pypdf2 flags) (has_docx flags) (has_pandas flags)
    (has_bs4 flags) (fs env) (json_loads env) (ET_parse env) (PdfReader env)
    (docx_Document env) (pd_read_excel env) (BeautifulSoup env).

End Startup.

Module Batch.

(** The [results] dictionary of the driver: keys in insertion order,
    assigning to a key that is present replaces its value in place. *)
Definition dict := list (string * option Content).

Fixpoint setitem (d : dict) (key : string) (value : option Content) : dict :=
  match d with
  | [] => [(key, value)]
  | (k, v) :: rest =>
      if String.eqb k key then (key, value) :: rest
      else (k, v) :: setitem rest key value
  end.

(** [key in d], and [d[key]] when it is. *)
Fixpoint lookup (d : dict) (key : string) : option (option Content) :=
  match d with
  | [] => None
  | (k, v) :: rest => if String.eqb k key then Some v else lookup rest key
  end.

(** [for file in files_to_parse:
       parsed_data = parse_document(file); results[file] = parsed_data]
    (the separator that the driver prints between two files goes to the
    standard output, which is not part of the sink). *)
Fixpoint parse_all (env : Env) (files_to_parse : list string) (results : dict)
  : M.t dict :=
  match files_to_parse with
  | [] => M.ret results
  | file :: rest =>
      parsed_data <- parse_document env (PyStr file) ;;
      parse_all env rest (setitem results file parsed_data)
  end.

End Batch.

(* ===================================================================== *)
(** ** The vocabulary of the specification *)
(* ===================================================================== *)

Module Spec.

(** The optional backends and the capability query. *)
Inductive Backend :=
| PortableDocReader
| WordProcessorReader
| SpreadsheetReader
| MarkupTreeReader.

Definition isAvailable (env : Env) (b : Backend) : bool :=
  match b with
  | PortableDocReader => HAS_PYPDF2 env
  | WordProcessorReader => HAS_DOCX env
  | SpreadsheetReader => HAS_PANDAS env
  | MarkupTreeReader => HAS_BS4 env
  end.

(** The backend that the strategy of an extension depends on. *)
Definition required_backend (extension : string) : option Backend :=
  if String.eqb extension ".pdf" then Some PortableDocReader
  else if String.eqb extension ".docx" then Some WordProcessorReader
  else if existsb (String.eqb extension) [".xlsx"; ".xls"]
  then Some SpreadsheetReader
  else if existsb (String.eqb extension) [".html"; ".htm"]
  then Some MarkupTreeReader
  else None.

(** The record by which a strategy reports its backend as unavailable. *)
Definition backend_unavailable (b : Backend) : LogRecord :=
  mkRecord ERROR
    match b with
    | PortableDocReader =>
        "PyPDF2 library is required for PDF parsing but not found."
    | WordProcessorReader =>
        "python-docx library is required for DOCX parsing but not found."
    | SpreadsheetReader =>
        "pandas, openpyxl, xlrd libraries required for Excel parsing but not found."
    | MarkupTreeReader =>
        "beautifulsoup4 and lxml libraries required for HTML parsing but not found."
    end.

(** The supported-extension table. *)
Definition supported_extensions : list string :=
  [".txt"; ".csv"; ".json"; ".xml"; ".pdf"; ".docx"; ".xlsx"; ".xls";
   ".html"; ".htm"].

Definition supported (extension : string) : bool :=
  existsb (String.eqb extension) supported_extensions.

(** The extension the dispatcher detects. *)
Definition detect (filepath : string) : string :=
  Text.lower (snd (OsPath.splitext filepath)).

(** The record by which the dispatcher reports an unsupported format. *)
Definition unsupported_format (filepath : string) : LogRecord :=
  mkRecord WARNING ("Unsupported file format " ++ quoted (detect filepath)
                    ++ " for file: " ++ filepath).

(** The records that open and close the dispatch of a validated path. *)
Definition attempting (filepath : string) : LogRecord :=
  mkRecord INFO ("Attempting to parse file: " ++ filepath
                 ++ " (Detected type: " ++ detect filepath ++ ")").

Definition finished (filepath : string) : LogRecord :=
  mkRecord INFO ("Finished parsing: " ++ OsPath.basename filepath).

Definition failed (filepath : string) : LogRecord :=
  mkRecord ERROR ("Failed to parse: " ++ OsPath.basename filepath).

(** The two accesses of the validation step. *)
Definition validation (filepath : string) : list FsCall :=
  [os_path_exists filepath; os_path_isfile filepath].

Definition is_error (r : LogRecord) : bool :=
  match levelname r with ERROR => true | _ => false end.

Definition is_warning (r : LogRecord) : bool :=
  match levelname r with WARNING => true | _ => false end.

Definition warnings (s : Sink) : list LogRecord := List.filter is_warning (log s).

Definition errors (s : Sink) : list LogRecord := List.filter is_error (log s).

(** The variants of a parsed document. *)
Inductive Variant := VText | VTable | VStructuredValue | VSheetSet.

Definition variant (c : Content) : Variant :=
  match c with
  | Text_ _ => VText
  | Table _ => VTable
  | StructuredValue _ => VStructuredValue
  | SheetSet _ => VSheetSet
  end.

(** The variant that the strategy of an extension produces. *)
Definition variant_of_extension (extension : string) : option Variant :=
  if String.eqb extension ".csv" then Some VTable
  else if String.eqb extension ".json" then Some VStructuredValue
  else if existsb (String.eqb extension) [".xlsx"; ".xls"] then Some VSheetSet
  else if supported extension then Some VText
  else None.

(** A variant is non-empty when it holds some content. *)
Definition non_empty (c : Content) : bool :=
  match c with
  | Text_ s => Text.truthy s
  | Table rows => negb (Nat.eqb (List.length rows) 0)
  | StructuredValue v =>
      match v with
      | Json.Null => false
      | Json.Str s => Text.truthy s
      | Json.Array items => negb (Nat.eqb (List.length items) 0)
      | Json.Object members => negb (Nat.eqb (List.length members) 0)
      | _ => true
      end
  | SheetSet sheets => negb (Nat.eqb (List.length sheets) 0)
  end.

(** An argument that is a non-empty string. *)
Definition is_non_empty_string (arg : pyobj) : bool :=
  match arg with
  | PyStr s => negb (String.eqb s "")
  | _ => false
  end.

(** The text of the pages that were extracted. *)
Definition extracted (pages : list PyPDF2.page) : list ustr :=
  flat_map (fun p => match PyPDF2.result p with
                     | Return t => [t]
                     | Raise _ => []
                     end) pages.

Definition raised (p : PyPDF2.page) : bool :=
  match PyPDF2.result p with Raise _ => true | Return _ => false end.

(** The records that carry what the library logged during a call. *)
Definition library_records {A} (c : PyPDF2.call A) : list LogRecord :=
  List.map (mkRecord WARNING) (PyPDF2.logged c).

(** The wording of the specification for a portable document: the texts
    of the pages joined by newlines, then trimmed. *)
Definition newline_separated (texts : list ustr) : ustr :=
  Text.strip (Text.join [Text.LF] texts).

(** What the loop of [parse_pdf] accumulates: each text that is not empty,
    followed by a newline. *)
Definition newline_terminated (texts : list ustr) : ustr :=
  flat_map (fun t => t ++ [Text.LF]) (List.filter Text.truthy texts).

(** The wording of the specification for the fallback of the text
    strategy: invalid bytes replaced. *)
Definition decoded_replacing (raw : bytes) : outcome ustr :=
  Codec.decode Codec.sys_getdefaultencoding Codec.replace raw.

(** The wording of the specification for markup: the text content of
    every node, each fragment trimmed, the empty ones discarded, the rest
    joined by one space. *)
Definition all_text (root : ET.Element) : ustr :=
  Text.join (Text.of_ascii " ")
    (List.filter Text.truthy (List.map Text.strip (ET.itertext root))).

(** A source is rectangular when every record has as many fields as the
    first one. *)
Definition rectangular (rows : list (list ustr)) : Prop :=
  forall header rest, rows = header :: rest ->
    forall row, In row rows -> List.length row = List.length header.


End Spec.

(* ===================================================================== *)
(** ** Sample environments *)
(* ===================================================================== *)

Module Samples.

Definition raw (s : string) : bytes := list_byte_of_string s.

Definition plain (d : bytes) : Entry := File (mkFile true Readable d).

Fixpoint lookup (files : list (string * Entry)) (path : string)
  : option Entry :=
  match files with
  | [] => None
  | (p, e) :: rest => if String.eqb p path then Some e else lookup rest path
  end.

(** The markup sample of the script (two [item] elements with a [name]
    attribute and the texts 1 and 2 inside a [data] element), and a
    document with text after a child element. *)
Definition sample_xml : bytes :=
  raw "<data><item name=" ++ [x22] ++ raw "A" ++ [x22] ++ raw ">1</item>"
  ++ raw "<item name=" ++ [x22] ++ raw "B" ++ [x22] ++ raw ">2</item></data>".

Definition sample_xml_tree : ET.Element :=
  ET.Elem "data" [] None None
    [ ET.Elem "item" [("name", Text.of_ascii "A")] (Some (Text.of_ascii "1")) None [];
      ET.Elem "item" [("name", Text.of_ascii "B")] (Some (Text.of_ascii "2")) None [] ].

Definition mixed_xml : bytes := raw "<a>x<b>y</b>z</a>".

Definition mixed_xml_tree : ET.Element :=
  ET.Elem "a" [] (Some (Text.of_ascii "x")) None
    [ ET.Elem "b" [] (Some (Text.of_ascii "y")) (Some (Text.of_ascii "z")) [] ].

Definition bytes_eqb (a b : bytes) : bool :=
  String.eqb (string_of_list_byte a) (string_of_list_byte b).

(** A portable document of four pages: the second has no text, the last
    one cannot be extracted. *)
Definition sample_pdf : bytes := raw "%PDF-1.4 sample".

Definition sample_pages : list PyPDF2.page :=
  [ PyPDF2.silent (Return (Text.of_ascii "a"));
    PyPDF2.silent (Return []);
    PyPDF2.silent (Return (Text.of_ascii "b"));
    PyPDF2.silent (Raise (Exn.mk Exn.KeyError "'/Contents'")) ].

(** What the library logs when it opens the sample: it repairs the
    cross-reference table and says so. *)
Definition sample_repair : string :=
  "Xref table not zero-indexed. ID numbers for objects will be corrected.".

Definition files : list (string * Entry) :=
  [ ("sample.txt", plain (raw "This is line one." ++ [x0a] ++ raw "This is line two."));
    ("empty.txt", plain []);
    ("latin.txt", plain ["A"%byte; xff; "B"%byte]);
    ("sample.csv", plain (raw "ColA,ColB" ++ [x0d; x0a] ++ raw "Data1,10"
                          ++ [x0d; x0a] ++ raw "Data2,20" ++ [x0d; x0a]));
    ("latin.csv", plain (raw "ColA,ColB" ++ [x0d; x0a; xff]));
    ("sample.xml", plain sample_xml);
    ("mixed.xml", plain mixed_xml);
    ("scan.pdf", plain sample_pdf);
    ("report.docx", plain (raw "PK"));
    ("book.XLSX", plain (raw "PK"));
    ("index.html", plain (raw "<p>Hello</p>"));
    ("notes.xyz", plain (raw "anything"));
    ("dir", Directory) ].

Definition unavailable {A} : outcome A :=
  Raise (Exn.mk Exn.RuntimeError "not part of the sample").

(** An environment without optional backend, except the reader of
    portable documents when [pdf] is set. *)
Definition env (pdf : bool) : Env :=
  {| HAS_PYPDF2 := pdf;
     HAS_DOCX := false;
     HAS_PANDAS := false;
     HAS_BS4 := false;
     fs := lookup files;
     json_loads := fun _ => unavailable;
     ET_parse := fun b =>
       if bytes_eqb b sample_xml then Return sample_xml_tree
       else if bytes_eqb b mixed_xml then Return mixed_xml_tree
       else Raise (ET.ParseError "syntax error: line 1, column 0");
     PdfReader := fun b =>
       if bytes_eqb b sample_pdf
       then PyPDF2.mkCall [sample_repair] (Return sample_pages)
       else PyPDF2.silent
              (Raise (Exn.mk Exn.PdfReadError "EOF marker not found"));
     docx_Document := fun _ => unavailable;
     pd_read_excel := fun _ _ => unavailable;
     BeautifulSoup := fun _ => unavailable |}.

End Samples.

Module MoreSamples.

Definition ustr_eqb (a b : ustr) : bool :=
  Nat.eqb (List.length a) (List.length b)
  && forallb (fun p => N.eqb (fst p) (snd p)) (List.combine a b).

(** A hypertext tree with a script in its body. *)
Definition soup : list Bs4.PageElement :=
  [ Bs4.Str Bs4.Doctype (Text.of_ascii "html");
    Bs4.Tag "html"
      [ Bs4.Tag "head"
          [ Bs4.Tag "style" [Bs4.Str Bs4.Stylesheet (Text.of_ascii "p { }")] ];
        Bs4.Tag "body"
          [ Bs4.Str Bs4.Comment (Text.of_ascii " navigation ");
            Bs4.Tag "p" [Bs4.Str Bs4.NavigableString (Text.of_ascii " Hello ")];
            Bs4.Tag "script" [Bs4.Str Bs4.Script (Text.of_ascii "alert(1)")];
            Bs4.Tag "template"
              [ Bs4.Tag "p" [Bs4.Str Bs4.TemplateString (Text.of_ascii "slot")] ];
            Bs4.Tag "p" [Bs4.Str Bs4.NavigableString (Text.of_ascii "World")] ] ] ].

(** A portable document of three pages without text: two cannot be
    extracted, and the library logs a warning of its own on the last. *)
Definition blank_pages : list PyPDF2.page :=
  [ PyPDF2.silent (Raise (Exn.mk Exn.KeyError "'/Contents'"));
    PyPDF2.silent (Return []);
    PyPDF2.mkCall ["Ignoring wrong pointing object 7 0 (offset 0)"]
      (Raise (Exn.mk Exn.ValueError "bad stream")) ].

Definition sheets (e : Pandas.engine) : list (string * Pandas.DataFrame) :=
  match e with
  | Pandas.openpyxl => [("Sheet1", [[Text.of_ascii "modern"]])]
  | Pandas.xlrd => [("Sheet1", [[Text.of_ascii "legacy"]])]
  end.

Definition files : list (string * Entry) :=
  [ ("locked.txt", File (mkFile true Denied (Samples.raw "secret")));
    ("null.json", Samples.plain (Samples.raw "null"));
    ("page.html", Samples.plain (Samples.raw "<html>...</html>"));
    ("Book.XLSX", Samples.plain (Samples.raw "PK"));
    ("old.xls", Samples.plain (Samples.raw "PK"));
    ("blank.pdf", Samples.plain (Samples.raw "%PDF-1.4 blank"));
    ("README", Samples.plain (Samples.raw "text"));
    ("conf/.txt", Samples.plain (Samples.raw "text"));
    ("latin.json", Samples.plain [x7b; xff; x7d]) ].

(** An environment with every backend, over the files of [Samples] and
    the files above. *)
Definition env : Env :=
  {| HAS_PYPDF2 := true;
     HAS_DOCX := true;
     HAS_PANDAS := true;
     HAS_BS4 := true;
     fs := fun path =>
       match Samples.lookup files path with
       | Some e => Some e
       | None => Samples.lookup Samples.files path
       end;
     json_loads := fun text =>
       if ustr_eqb text (Text.of_ascii "null")
       then Return Json.Null
       else Raise (Exn.mk Exn.JSONDecodeError "Expecting value");
     ET_parse := ET_parse (Samples.env true);
     PdfReader := fun b =>
       if Samples.bytes_eqb b (Samples.raw "%PDF-1.4 blank")
       then PyPDF2.silent (Return blank_pages)
       else PdfReader (Samples.env true) b;
     docx_Document := fun _ => Samples.unavailable;
     pd_read_excel := fun e _ => Return (sheets e);
     BeautifulSoup := fun _ => Return soup |}.

End MoreSamples.

(* ===================================================================== *)
(** ** The vocabulary of the statements *)
(* ===================================================================== *)

(** [returns P m]: from every sink, [m] returns a value that satisfies
    [P]; it does not raise. *)
Definition returns {A} (P : A -> Prop) (m : M.t A) : Prop :=
  forall s, exists a s', m s = (Return a, s') /\ P a.

(** [safe P m]: whenever [m] returns, the value satisfies [P]. *)
Definition safe {A} (P : A -> Prop) (m : M.t A) : Prop :=
  forall s, match fst (m s) with Return a => P a | Raise _ => True end.

(** The postcondition that holds of every value. *)
Definition anything {A} : A -> Prop := fun _ => True.

(** The clauses of a strategy: each one logs an error and falls through
    to [return None]. *)
Definition falls_through (h : Exn.t -> M.t (option Content)) : Prop :=
  forall e, exists msg, h e = (logging_error msg ;; M.ret None).

(** Clauses that all fall through and end with [except Exception]. *)
Inductive catch_all : list (M.clause (option Content)) -> Prop :=
| catch_all_last h :
    falls_through h -> catch_all [([Exn.Exception], h)]
| catch_all_cons cs h rest :
    falls_through h -> catch_all rest -> catch_all ((cs, h) :: rest).

(** What a strategy hands back: [None], or content of one variant. *)
Definition produces (V : Spec.Variant) (r : option Content) : Prop :=
  match r with
  | Some c => Spec.variant c = V
  | None => True
  end.

(** The end of [parse_document]: the outcome of the strategy is logged
    and handed to the caller. *)
Definition conclude (filepath : string) (r : outcome (option Content) * Sink)
  : outcome (option Content) * Sink :=
  match r with
  | (Return (Some c), s) =>
      (Return (Some c), mkSink (log s ++ [Spec.finished filepath]) (calls s))
  | (Return None, s) =>
      (Return None, mkSink (log s ++ [Spec.failed filepath]) (calls s))
  | (Raise e, s) => (Raise e, s)
  end.

(** The sink when the strategy starts on a validated path. *)
Definition validated (filepath : string) : Sink :=
  mkSink [Spec.attempting filepath] (Spec.validation filepath).

(** The extraction of the page returned its text. *)
Definition returned (p : PyPDF2.page) : Prop := Spec.raised p = false.

(** The record logged for the page at index [page_num] (from 0). *)
Definition page_warning (filepath : string) (page_num : nat) (e : Exn.t)
  : LogRecord :=
  mkRecord WARNING ("Could not extract text from page "
                    ++ Text.of_nat (page_num + 1) ++ " in " ++ filepath
                    ++ ": " ++ Exn.str e).

(** What the loop of [parse_pdf] leaves in the log for [pages]: for each
    page, what the library logged while extracting it, then the warning of
    the script if the extraction raised. *)
Fixpoint page_records (filepath : string) (page_num : nat)
  (pages : list PyPDF2.page) : list LogRecord :=
  match pages with
  | [] => []
  | page :: rest =>
      Spec.library_records page
      ++ match PyPDF2.result page with
         | Return _ => []
         | Raise e => [page_warning filepath page_num e]
         end
      ++ page_records filepath (S page_num) rest
  end.

(** Opening [filepath] as UTF-8 text. *)
Definition open_text (filepath : string) (errors : Codec.errors)
  (nl : newline) : FsCall :=
  io_open filepath (text_mode Codec.utf_8 errors nl).

(** No element of the tree has a tail. *)
Fixpoint no_tail (e : ET.Element) : bool :=
  match e with
  | ET.Elem _ _ _ _ children =>
      forallb (fun c => match ET.tail c with
                        | None => no_tail c
                        | Some _ => false
                        end) children
  end.

(** A fragment that is not empty once trimmed. *)
Definition kept (part : ustr) : bool := Text.truthy (Text.strip part).

(** A character that needs no quoting. *)
Definition plain_char (c : N) : bool :=
  negb ((c =? Csv.delimiter)%N || (c =? Csv.quotechar)%N || Csv.is_newline c).



(** *** Delimited text, as it is written *)

Module Delimited.

(** A field as it stands in the file: between quotes or not, and the
    string it holds. *)
Record cell := mkCell { in_quotes : bool; value : ustr }.

(** How the line of a record ends: with a carriage return and a line
    feed, with a line feed alone, or, for the last record of a file,
    with the file. *)
Inductive ending := CRLF | LF | Unterminated.

(** A record as it stands in the file: its fields, and the end of its
    line. *)
Record record := mkRow { cells : list cell; line_ending : ending }.









(** The strings of the record. *)
Definition fields (r : record) : list ustr := List.map value (cells r).

(** The source is rectangular: every record has as many fields as the
    header. *)
Definition rectangular (rs : list record) : Prop :=
  forall header rest, rs = header :: rest ->
    forall r, In r rs -> List.length (cells r) = List.length (cells header).

End Delimited.

Module CsvSamples.

(** A delimited file of four records of two fields: a field with a
    comma, a field with quotes and a line break, a letter outside ASCII,
    empty fields, both line ends, and a last line that is not ended. *)
Definition people_csv : bytes :=
  Samples.raw "name,note" ++ [x0d; x0a]
  ++ [x22] ++ Samples.raw "Smith, J" ++ [x22; x2c]
  ++ [x22] ++ Samples.raw "said " ++ [x22; x22] ++ Samples.raw "hi"
  ++ [x22; x22; x0d; x0a] ++ Samples.raw "and left" ++ [x22; x0d; x0a]
  ++ Samples.raw "Ren" ++ [xc3; xa9; x2c; x0a]
  ++ [x22; x22; x2c] ++ Samples.raw "x".

Definition env : Env :=
  {| HAS_PYPDF2 := false;
     HAS_DOCX := false;
     HAS_PANDAS := false;
     HAS_BS4 := false;
     fs := Samples.lookup [("people.csv", Samples.plain people_csv)];
     json_loads := json_loads (Samples.env false);
     ET_parse := ET_parse (Samples.env false);
     PdfReader := PdfReader (Samples.env false);
     docx_Document := docx_Document (Samples.env false);
     pd_read_excel := pd_read_excel (Samples.env false);
     BeautifulSoup := BeautifulSoup (Samples.env false) |}.


End CsvSamples.

Module LimitSamples.

(** A delimited file whose only field has one character more than the
    reader accepts. *)
Definition wide : bytes := List.repeat "a"%byte (N.to_nat 131073).

Definition env : Env :=
  {| HAS_PYPDF2 := false;
     HAS_DOCX := false;
     HAS_PANDAS := false;
     HAS_BS4 := false;
     fs := Samples.lookup [("wide.csv", Samples.plain wide)];
     json_loads := json_loads (Samples.env false);
     ET_parse := ET_parse (Samples.env false);
     PdfReader := PdfReader (Samples.env false);
     docx_Document := docx_Document (Samples.env false);
     pd_read_excel := pd_read_excel (Samples.env false);
     BeautifulSoup := BeautifulSoup (Samples.env false) |}.

End LimitSamples.

(** *** The reader, one character at a time *)

(** The parser after one more character, unless it has raised. *)
Definition step (st : outcome Csv.Reader) (c : option N)
  : outcome Csv.Reader :=
  match st with
  | Return self => Csv.parse_process_char self c
  | Raise e => Raise e
  end.

Fixpoint feed (st : outcome Csv.Reader) (chars : ustr) : outcome Csv.Reader :=
  match chars with
  | [] => st
  | c :: r => feed (step st (Some c)) r
  end.

(** What the end of a line does: the line raises, or completes a record,
    or leaves the parser inside a record. *)
Inductive line_result :=
| Fails (e : Exn.t)
| Yields (row : list ustr)
| Continues (self : Csv.Reader).

Definition end_line (st : outcome Csv.Reader) : line_result :=
  match step st None with
  | Raise e => Fails e
  | Return self =>
      if Csv.is_start_record (Csv.state self)
      then Yields (Csv.fields self)
      else Continues self
  end.

Definition next_line (r : line_result) (line_num : nat)
  (k : Csv.Reader -> Csv.iteration) : Csv.iteration :=
  match r with
  | Fails e => Csv.Failed e (S line_num)
  | Yields row => Csv.Next row (k Csv.parse_reset)
  | Continues self => k self
  end.

(** The reader on a text that is not yet split into lines: the
    characters are given to the parser one at a time, a line ends after a
    line feed, after a carriage return and the line feed that follows it,
    or after a carriage return alone; [fresh] tells that no character of
    the current line has been read; a line that raises fails when it
    ends. *)
Fixpoint stream (st : outcome Csv.Reader) (fresh : bool) (line_num : nat)
  (text : ustr) {struct text} : Csv.iteration :=
  match text with
  | [] =>
      if fresh then
        match st with
        | Return self => Csv.iternext self line_num []
        | Raise e => Csv.Failed e line_num
        end
      else
        next_line (end_line st) line_num
          (fun self => Csv.iternext self (S line_num) [])
  | c :: r =>
      let st1 := step st (Some c) in
      if (c =? Text.LF)%N then
        next_line (end_line st1) line_num
          (fun self => stream (Return self) true (S line_num) r)
      else if (c =? Text.CR)%N then
        match r with
        | d :: r' =>
            if (d =? Text.LF)%N then
              next_line (end_line (step st1 (Some d))) line_num
                (fun self => stream (Return self) true (S line_num) r')
            else
              next_line (end_line st1) line_num
                (fun self => stream (Return self) true (S line_num) r)
        | [] =>
            next_line (end_line st1) line_num
              (fun self => stream (Return self) true (S line_num) r)
        end
      else stream st1 false line_num r
  end.


(** *** More vocabulary: what a call adds to the sink *)

(** The sink [s] followed by what is in [d]. *)
Definition extend (s d : Sink) : Sink :=
  mkSink (log s ++ log d) (calls s ++ calls d).

(** [framed m]: what [m] returns and what it adds to the sink do not
    depend on the sink it starts from. *)
Definition framed {A} (m : M.t A) : Prop :=
  forall s, m s = (fst (m empty_sink), extend s (snd (m empty_sink))).

(** The path that an access to the file system names. *)
Definition call_path (c : FsCall) : string :=
  match c with
  | os_path_exists p => p
  | os_path_isfile p => p
  | io_open p _ => p
  end.

(** [quiet ok m]: [m] logs no error, unless it returns a value that is
    not [ok]. *)
Definition quiet {A} (ok : A -> Prop) (m : M.t A) : Prop :=
  forall s,
    match m s with
    | (Return a, s') => ok a -> Spec.errors s' = Spec.errors s
    | (Raise _, s') => Spec.errors s' = Spec.errors s
    end.

Definition is_content (r : option Content) : Prop := r <> None.

(** A text without leading or trailing whitespace. *)
Definition trimmed (s : ustr) : Prop := Text.strip s = s.

(** The content is a text that satisfies [P]. *)
Definition text_such_that (P : ustr -> Prop) (r : option Content) : Prop :=
  match r with
  | Some (Text_ t) => P t
  | Some _ => False
  | None => True
  end.

(** The strings of a hypertext tree that are text of the document (not
    a comment, a declaration, the document type, a processing instruction,
    or the content of a template or of a ruby annotation) and that are
    outside of the elements named [names], stripped, the empty ones
    dropped. *)
Fixpoint visible_strings (names : list string) (e : Bs4.PageElement)
  : list ustr :=
  match e with
  | Bs4.Str class s =>
      match class with
      | Bs4.NavigableString | Bs4.CData =>
          let s' := Text.strip s in
          if Text.truthy s' then [s'] else []
      | _ => []
      end
  | Bs4.Tag n cs =>
      if Bs4.name_in names n then []
      else flat_map (visible_strings names) cs
  end.

(** The engine that the spreadsheet of a detected extension is read
    with. *)
Definition engine_of (extension : string) : Pandas.engine :=
  if String.eqb extension ".xlsx" then Pandas.openpyxl else Pandas.xlrd.

(* ===================================================================== *)
(** ** Reasoning about calls *)
(* ===================================================================== *)

Lemma returns_safe {A} (P : A -> Prop) m : returns P m -> safe P m.
Proof.
  intros H s. destruct (H s) as (a & s' & E & Pa). now rewrite E.
Qed.

Lemma safe_anything {A} (m : M.t A) : safe anything m.
Proof. intros s. now destruct (fst (m s)). Qed.

Lemma returns_ret {A} (P : A -> Prop) a : P a -> returns P (M.ret a).
Proof. intros Pa s. now exists a, s. Qed.

Lemma returns_bind {A B} (Q : A -> Prop) (P : B -> Prop) m k :
  returns Q m -> (forall a, Q a -> returns P (k a)) -> returns P (M.bind m k).
Proof.
  intros Hm Hk s. destruct (Hm s) as (a & s' & E & Qa).
  destruct (Hk a Qa s') as (b & s'' & E' & Pb).
  exists b, s''. unfold M.bind. now rewrite E.
Qed.

Lemma safe_bind {A B} (Q : A -> Prop) (P : B -> Prop) m k :
  safe Q m -> (forall a, Q a -> safe P (k a)) -> safe P (M.bind m k).
Proof.
  intros Hm Hk s. specialize (Hm s). unfold M.bind.
  destruct (m s) as [[a | e] s']; simpl in *; [ | exact I ].
  apply (Hk a Hm s').
Qed.

Lemma returns_emit l msg : returns anything (M.emit l msg).
Proof. intros s. now eexists _, _. Qed.

Lemma returns_touch c : returns anything (M.touch c).
Proof. intros s. now eexists _, _. Qed.

(** Logging, then returning a value. *)
Lemma returns_log_ret {A} (P : A -> Prop) l msg a :
  P a -> returns P (M.emit l msg ;; M.ret a).
Proof.
  intros Pa. apply returns_bind with (Q := anything).
  - apply returns_emit.
  - intros _ _. now apply returns_ret.
Qed.

(** A [try] whose clauses handle every exception without raising does
    not raise. *)
Lemma returns_try {A} (P : A -> Prop) body clauses :
  safe P body ->
  (forall e, exists h, M.select e clauses = Some h /\ returns P (h e)) ->
  returns P (M.try_except body clauses).
Proof.
  intros Hb Hc s. specialize (Hb s). unfold M.try_except.
  destruct (body s) as [[a | e] s']; simpl in Hb.
  - now exists a, s'.
  - destruct (Hc e) as (h & -> & Hh). apply Hh.
Qed.

Lemma safe_try {A} (P : A -> Prop) body clauses :
  safe P body ->
  (forall e h, M.select e clauses = Some h -> safe P (h e)) ->
  safe P (M.try_except body clauses).
Proof.
  intros Hb Hc s. specialize (Hb s). unfold M.try_except.
  destruct (body s) as [[a | e] s']; simpl in *; [ assumption | ].
  destruct (M.select e clauses) as [h | ] eqn:E; [ | exact I ].
  apply (Hc e h E s').
Qed.

(** Every exception of the fragment is an [Exception]. *)
Lemma isinstance_Exception e : Exn.isinstance e Exn.Exception = true.
Proof. destruct e as [c msg]. now destruct c. Qed.

Lemma falls_through_returns (P : option Content -> Prop) h e :
  P None -> falls_through h -> returns P (h e).
Proof.
  intros PN H. destruct (H e) as (msg & ->). now apply returns_log_ret.
Qed.

Lemma catch_all_select clauses :
  catch_all clauses ->
  forall e, exists h, M.select e clauses = Some h /\ falls_through h.
Proof.
  induction 1 as [h Hh | cs h rest Hh _ IH]; intros e.
  - exists h. split; [ | assumption ].
    simpl. unfold M.matches. simpl. now rewrite isinstance_Exception.
  - simpl. destruct (M.matches e cs).
    + now exists h.
    + apply IH.
Qed.

Lemma returns_try_catch_all (P : option Content -> Prop) body clauses :
  P None -> safe P body -> catch_all clauses ->
  returns P (M.try_except body clauses).
Proof.
  intros PN Hb Hc. apply returns_try; [ assumption | ].
  intros e. destruct (catch_all_select clauses Hc e) as (h & E & Hh).
  exists h. split; [ assumption | now apply falls_through_returns ].
Qed.

Ltac falls := intros ?e; eexists; reflexivity.

Ltac catches :=
  repeat first [ apply catch_all_last; falls
               | apply catch_all_cons; [ falls | ] ].

(** *** The strategies return *)

Ltac steps :=
  repeat (apply safe_bind with (Q := anything);
          [ apply safe_anything | intros ? _ ]).

Ltac done_with_log := steps; apply returns_safe, returns_ret; reflexivity.

Section Strategies.

Variable env : Env.

Lemma parse_txt_returns filepath :
  returns (produces Spec.VText) (parse_txt env filepath).
Proof.
  apply returns_try_catch_all; [ exact I | | catches ].
  steps. done_with_log.
Qed.

Lemma parse_csv_returns filepath :
  returns (produces Spec.VTable) (parse_csv env filepath).
Proof.
  apply returns_try_catch_all; [ exact I | | catches ].
  steps. cbv zeta. apply safe_try.
  - steps. done_with_log.
  - intros e h E. unfold M.select in E.
    destruct (M.matches e [Exn.csv_Error]); [ | discriminate ].
    injection E as <-. apply returns_safe, returns_log_ret. exact I.
Qed.

Lemma parse_json_returns filepath :
  returns (produces Spec.VStructuredValue) (parse_json env filepath).
Proof.
  apply returns_try_catch_all; [ exact I | | catches ].
  steps. apply returns_safe, returns_ret.
  unfold json_data. now destruct (Json.is_null _).
Qed.

Lemma parse_xml_returns filepath :
  returns (produces Spec.VText) (parse_xml env filepath).
Proof.
  apply returns_try_catch_all; [ exact I | | catches ].
  steps. cbv zeta. done_with_log.
Qed.

Lemma parse_pdf_returns filepath :
  returns (produces Spec.VText) (parse_pdf env filepath).
Proof.
  unfold parse_pdf. destruct (HAS_PYPDF2 env); simpl.
  - apply returns_try_catch_all; [ exact I | | catches ].
    steps. cbv zeta. steps. done_with_log.
  - now apply returns_log_ret.
Qed.

Lemma parse_docx_returns filepath :
  returns (produces Spec.VText) (parse_docx env filepath).
Proof.
  unfold parse_docx. destruct (HAS_DOCX env); simpl.
  - apply returns_try_catch_all; [ exact I | | catches ].
    steps. cbv zeta. done_with_log.
  - now apply returns_log_ret.
Qed.

Lemma parse_excel_returns filepath :
  returns (produces Spec.VSheetSet) (parse_excel env filepath).
Proof.
  unfold parse_excel. destruct (HAS_PANDAS env); simpl.
  - apply returns_try_catch_all; [ exact I | | catches ].
    cbv zeta. steps. done_with_log.
  - now apply returns_log_ret.
Qed.

Lemma parse_html_returns filepath :
  returns (produces Spec.VText) (parse_html env filepath).
Proof.
  unfold parse_html. destruct (HAS_BS4 env); simpl.
  - apply returns_try_catch_all; [ exact I | | catches ].
    steps. cbv zeta. done_with_log.
  - now apply returns_log_ret.
Qed.

(** The pages of a portable document are all gone through: the loop
    never raises. *)
Lemma extract_pages_returns filepath pages :
  forall page_num text_content,
    returns anything (extract_pages filepath pages page_num text_content).
Proof.
  induction pages as [ | page rest IH ]; intros page_num text_content.
  - now apply returns_ret.
  - simpl. apply returns_bind with (Q := anything); [ | intros; apply IH ].
    apply returns_try; [ apply safe_anything | ].
    intros e. eexists. split.
    + simpl. unfold M.matches. simpl. rewrite isinstance_Exception.
      reflexivity.
    + now apply returns_log_ret.
Qed.

(** The dispatch on the extension returns the variant of the extension. *)
Lemma dispatch_returns extension filepath :
  returns (fun r => match r with
                    | Some c =>
                        Spec.variant_of_extension extension
                        = Some (Spec.variant c)
                    | None => True
                    end)
          (dispatch env extension filepath).
Proof.
  assert (W : forall V m,
             Spec.variant_of_extension extension = Some V ->
             returns (produces V) m ->
             returns (fun r => match r with
                               | Some c =>
                                   Spec.variant_of_extension extension
                                   = Some (Spec.variant c)
                               | None => True
                               end) m).
  { intros V m EV H s. destruct (H s) as (r & s' & E & Hr).
    exists r, s'. split; [ assumption | ].
    destruct r as [c | ]; [ | exact I ]. simpl in Hr. now rewrite Hr. }
  assert (U : Spec.variant_of_extension extension = None ->
              returns (fun r => match r with
                                | Some c =>
                                    Spec.variant_of_extension extension
                                    = Some (Spec.variant c)
                                | None => True
                                end)
                (logging_warning ("Unsupported file format "
                                  ++ quoted extension ++ " for file: "
                                  ++ filepath) ;; M.ret None)).
  { intros _. now apply returns_log_ret. }
  unfold dispatch. simpl existsb.
  destruct (String.eqb extension ".txt") eqn:Etxt.
  { apply String.eqb_eq in Etxt. subst.
    now apply (W Spec.VText); [ | apply parse_txt_returns ]. }
  destruct (String.eqb extension ".csv") eqn:Ecsv.
  { apply String.eqb_eq in Ecsv. subst.
    now apply (W Spec.VTable); [ | apply parse_csv_returns ]. }
  destruct (String.eqb extension ".json") eqn:Ejson.
  { apply String.eqb_eq in Ejson. subst.
    now apply (W Spec.VStructuredValue); [ | apply parse_json_returns ]. }
  destruct (String.eqb extension ".xml") eqn:Exml.
  { apply String.eqb_eq in Exml. subst.
    now apply (W Spec.VText); [ | apply parse_xml_returns ]. }
  destruct (String.eqb extension ".pdf") eqn:Epdf.
  { apply String.eqb_eq in Epdf. subst.
    now apply (W Spec.VText); [ | apply parse_pdf_returns ]. }
  destruct (String.eqb extension ".docx") eqn:Edocx.
  { apply String.eqb_eq in Edocx. subst.
    now apply (W Spec.VText); [ | apply parse_docx_returns ]. }
  destruct (String.eqb extension ".xlsx") eqn:Exlsx.
  { apply String.eqb_eq in Exlsx. subst.
    now apply (W Spec.VSheetSet); [ | apply parse_excel_returns ]. }
  destruct (String.eqb extension ".xls") eqn:Exls.
  { apply String.eqb_eq in Exls. subst.
    now apply (W Spec.VSheetSet); [ | apply parse_excel_returns ]. }
  simpl orb. cbv iota.
  destruct (String.eqb extension ".html") eqn:Ehtml.
  { apply String.eqb_eq in Ehtml. subst.
    now apply (W Spec.VText); [ | apply parse_html_returns ]. }
  destruct (String.eqb extension ".htm") eqn:Ehtm.
  { apply String.eqb_eq in Ehtm. subst.
    now apply (W Spec.VText); [ | apply parse_html_returns ]. }
  simpl orb. cbv iota. apply U.
  unfold Spec.variant_of_extension, Spec.supported, Spec.supported_extensions.
  simpl existsb.
  now rewrite Etxt, Ecsv, Ejson, Exml, Epdf, Edocx, Exlsx, Exls, Ehtml, Ehtm.
Qed.

End Strategies.

(* ===================================================================== *)
(** ** The dispatcher *)
(* ===================================================================== *)

Lemma eqb_empty_false (s : string) : s <> "" -> String.eqb s "" = false.
Proof. intros H. now apply String.eqb_neq. Qed.

(** On an existing regular file the dispatcher runs the strategy of the
    detected extension. *)
Lemma parse_validated env filepath f :
  filepath <> "" ->
  fs env filepath = Some (File f) ->
  regular f = true ->
  parse env (PyStr filepath)
  = conclude filepath
      (dispatch env (Spec.detect filepath) filepath (validated filepath)).
Proof.
  intros Hne Hfs Hreg.
  unfold parse, run, parse_document. rewrite (eqb_empty_false _ Hne).
  cbv [M.bind M.ret M.touch M.emit os_exists os_isfile logging_info
       logging_error empty_sink log calls].
  rewrite Hfs, Hreg. cbv [negb app].
  unfold conclude, validated, Spec.attempting, Spec.validation, Spec.detect.
  destruct (dispatch env _ filepath _) as [[[c | ] | e] s]; reflexivity.
Qed.

(** Whatever the argument, the dispatcher returns: content of the variant
    of the detected extension after a last record that is not an error, or
    [None] after a last record that is an error. *)
Lemma parse_document_outcome env arg :
  exists r sink,
    parse env arg = (Return r, sink) /\
    match r with
    | Some c =>
        exists filepath,
          arg = PyStr filepath /\
          Spec.variant_of_extension (Spec.detect filepath)
          = Some (Spec.variant c) /\
          List.last (log sink) (mkRecord ERROR "") = Spec.finished filepath
    | None =>
        Spec.is_error (List.last (log sink) (mkRecord INFO "")) = true
    end.
Proof.
  assert (Invalid : forall a,
             parse env a
             = (Return None, mkSink [mkRecord ERROR "Invalid filepath provided."] []) ->
             exists r sink,
               parse env a = (Return r, sink) /\
               match r with
               | Some c =>
                   exists filepath,
                     a = PyStr filepath /\
                     Spec.variant_of_extension (Spec.detect filepath)
                     = Some (Spec.variant c) /\
                     List.last (log sink) (mkRecord ERROR "")
                     = Spec.finished filepath
               | None =>
                   Spec.is_error (List.last (log sink) (mkRecord INFO ""))
                   = true
               end).
  { intros a E. eexists _, _. split; [ exact E | reflexivity ]. }
  destruct arg as [ | b | n neg | filepath | b | l ];
    try (apply Invalid; reflexivity).
  destruct (String.eqb filepath "") eqn:Hne.
  { apply Invalid. unfold parse, run, parse_document. now rewrite Hne. }
  apply String.eqb_neq in Hne.
  destruct (fs env filepath) as [ entry | ] eqn:Hfs.
  2:{ eexists _, _. split.
      - unfold parse, run, parse_document. rewrite (eqb_empty_false _ Hne).
        cbv [M.bind M.ret M.touch M.emit os_exists os_isfile logging_info
             logging_error empty_sink log calls].
        rewrite Hfs. reflexivity.
      - reflexivity. }
  assert (NotAFile :
            match entry with File f => regular f | Directory => false end
            = false ->
            parse env (PyStr filepath)
            = (Return None,
               mkSink [mkRecord ERROR ("Path is not a file: " ++ filepath)]
                 (Spec.validation filepath))).
  { intros H. unfold parse, run, parse_document.
    rewrite (eqb_empty_false _ Hne).
    cbv [M.bind M.ret M.touch M.emit os_exists os_isfile logging_info
         logging_error empty_sink log calls].
    rewrite Hfs, H. reflexivity. }
  destruct entry as [ | f ].
  { eexists _, _. split; [ now apply NotAFile | reflexivity ]. }
  destruct (regular f) eqn:Hreg.
  2:{ eexists _, _. split; [ now apply NotAFile | reflexivity ]. }
  rewrite (parse_validated env filepath f Hne Hfs Hreg).
  destruct (dispatch_returns env (Spec.detect filepath) filepath
              (validated filepath)) as (r & s' & E & Hr).
  rewrite E. destruct r as [ c | ]; simpl.
  - eexists _, _. split; [ reflexivity | ].
    exists filepath. repeat split; [ assumption | ].
    simpl. now rewrite last_last.
  - eexists _, _. split; [ reflexivity | ].
    simpl. now rewrite last_last.
Qed.

(** C1. Whatever the argument of [parse_document] and whatever the path
    names (nothing, a directory, a file with an unsupported extension, a
    file that the library of its format rejects with an exception), the
    call returns a value, content or [None]; no exception crosses the
    call. *)
Theorem parse_never_raises :
  forall env arg, exists (r : option Content) (sink : Sink),
    parse env arg = (Return r, sink).
Proof.
  intros env arg.
  destruct (parse_document_outcome env arg) as (r & sink & E & _).
  now exists r, sink.
Qed.

(** C10. An argument that is not a non-empty string is rejected at once:
    the call returns [None], logs one error, makes no access to the file
    system and does not raise. *)
Theorem invalid_argument_rejected :
  forall env arg,
    Spec.is_non_empty_string arg = false ->
    parse env arg
    = (Return None,
       mkSink [mkRecord ERROR "Invalid filepath provided."] []).
Proof.
  intros env arg H.
  destruct arg as [ | b | n neg | filepath | b | l ]; try reflexivity.
  simpl in H. apply negb_false_iff in H.
  unfold parse, run, parse_document. now rewrite H.
Qed.

Lemma invalid_argument_rejected_witness :
  Spec.is_non_empty_string (PyInt 42 false) = false /\
  parse (Samples.env true) (PyInt 42 false)
  = (Return None, mkSink [mkRecord ERROR "Invalid filepath provided."] []).
Proof.
  split; [ reflexivity | ].
  apply (invalid_argument_rejected (Samples.env true) (PyInt 42 false)).
  reflexivity.
Defined.

(** C4, as amended. A call that succeeds returns content of exactly one
    variant, the one of the detected extension, and this content may be
    empty; a call that fails returns no content, only [None], and its last
    record is an error. *)
Theorem one_variant_or_failure :
  forall env arg, exists r sink,
    parse env arg = (Return r, sink) /\
    match r with
    | Some c =>
        exists filepath,
          arg = PyStr filepath /\
          Spec.variant_of_extension (Spec.detect filepath)
          = Some (Spec.variant c)
    | None =>
        Spec.is_error (List.last (log sink) (mkRecord INFO "")) = true
    end.
Proof.
  intros env arg.
  destruct (parse_document_outcome env arg) as (r & sink & E & H).
  exists r, sink. split; [ assumption | ].
  destruct r as [ c | ]; [ | assumption ].
  destruct H as (filepath & Ha & Hv & _). now exists filepath.
Qed.

(** C4, as stated, fails: the empty text file is parsed with success and
    the content returned is empty. *)
Lemma success_may_be_empty :
  ~ (forall env arg c sink,
        parse env arg = (Return (Some c), sink) -> Spec.non_empty c = true).
Proof.
  intros H.
  specialize (H (Samples.env true) (PyStr "empty.txt") (Text_ [])).
  specialize (H _ eq_refl). discriminate H.
Qed.

(** *** Unsupported extensions *)

Lemma dispatch_unsupported env extension filepath s :
  Spec.supported extension = false ->
  dispatch env extension filepath s
  = (Return None,
     mkSink (log s ++ [mkRecord WARNING
                         ("Unsupported file format " ++ quoted extension
                          ++ " for file: " ++ filepath)])
       (calls s)).
Proof.
  unfold Spec.supported, Spec.supported_extensions. simpl existsb.
  intros H.
  repeat (apply orb_false_elim in H; destruct H as [?E H]).
  unfold dispatch. cbv [existsb].
  now rewrite E, E0, E1, E2, E3, E4, E5, E6, E7, E8.
Qed.

(** C6, as amended. On an existing regular file whose extension is not in
    the table, whatever the file holds, the call returns [None] without
    opening the file; the unsupported format is logged as a warning, and
    the failure of the call is then logged as an error. *)
Theorem unsupported_extension_fails :
  forall env filepath f,
    filepath <> "" ->
    fs env filepath = Some (File f) ->
    regular f = true ->
    Spec.supported (Spec.detect filepath) = false ->
    parse env (PyStr filepath)
    = (Return None,
       mkSink [ Spec.attempting filepath;
                Spec.unsupported_format filepath;
                Spec.failed filepath ]
         (Spec.validation filepath)).
Proof.
  intros env filepath f Hne Hfs Hreg Hext.
  rewrite (parse_validated env filepath f Hne Hfs Hreg).
  now rewrite (dispatch_unsupported _ _ _ _ Hext).
Qed.

Lemma unsupported_extension_fails_witness :
  parse (Samples.env true) (PyStr "notes.xyz")
  = (Return None,
     mkSink [ Spec.attempting "notes.xyz";
              Spec.unsupported_format "notes.xyz";
              Spec.failed "notes.xyz" ]
       (Spec.validation "notes.xyz")).
Proof.
  apply (unsupported_extension_fails (Samples.env true) "notes.xyz"
           (mkFile true Readable (Samples.raw "anything"))).
  - discriminate.
  - reflexivity.
  - reflexivity.
  - reflexivity.
Defined.

(** C6, as stated, fails: the call on a file with an unknown extension
    does log an error. *)
Lemma unsupported_extension_logs_an_error :
  ~ (forall env filepath f,
        filepath <> "" ->
        fs env filepath = Some (File f) ->
        regular f = true ->
        Spec.supported (Spec.detect filepath) = false ->
        exists sink,
          parse env (PyStr filepath) = (Return None, sink) /\
          In (Spec.unsupported_format filepath) (Spec.warnings sink) /\
          Spec.errors sink = []).
Proof.
  intros H.
  destruct (H (Samples.env true) "notes.xyz"
              (mkFile true Readable (Samples.raw "anything")))
    as (sink & E & _ & Herr); try reflexivity; try discriminate.
  vm_compute in E. injection E as <-. discriminate Herr.
Qed.

(** *** Backends that are not available *)

Lemma dispatch_backend_unavailable env extension filepath b s :
  Spec.required_backend extension = Some b ->
  Spec.isAvailable env b = false ->
  dispatch env extension filepath s
  = (Return None,
     mkSink (log s ++ [Spec.backend_unavailable b]) (calls s)).
Proof.
  unfold Spec.required_backend. simpl existsb. intros Hb Hav.
  destruct (String.eqb extension ".pdf") eqn:Epdf.
  { apply String.eqb_eq in Epdf. injection Hb as <-. subst extension.
    simpl in Hav. unfold dispatch. simpl. unfold parse_pdf.
    now rewrite Hav. }
  destruct (String.eqb extension ".docx") eqn:Edocx.
  { apply String.eqb_eq in Edocx. injection Hb as <-. subst extension.
    simpl in Hav. unfold dispatch. simpl. unfold parse_docx.
    now rewrite Hav. }
  destruct (String.eqb extension ".xlsx") eqn:Exlsx.
  { apply String.eqb_eq in Exlsx. injection Hb as <-. subst extension.
    simpl in Hav. unfold dispatch. simpl. unfold parse_excel.
    now rewrite Hav. }
  destruct (String.eqb extension ".xls") eqn:Exls.
  { apply String.eqb_eq in Exls. injection Hb as <-. subst extension.
    simpl in Hav. unfold dispatch. simpl. unfold parse_excel.
    now rewrite Hav. }
  simpl in Hb.
  destruct (String.eqb extension ".html") eqn:Ehtml.
  { apply String.eqb_eq in Ehtml. injection Hb as <-. subst extension.
    simpl in Hav. unfold dispatch. simpl. unfold parse_html.
    now rewrite Hav. }
  destruct (String.eqb extension ".htm") eqn:Ehtm.
  { apply String.eqb_eq in Ehtm. injection Hb as <-. subst extension.
    simpl in Hav. unfold dispatch. simpl. unfold parse_html.
    now rewrite Hav. }
  discriminate Hb.
Qed.

(** C2. On an existing regular file whose format depends on an optional
    backend that the capability query reports as unavailable, the call
    returns [None] and does not raise; the file is not opened, and the only
    records are the start of the dispatch, the error that reports the
    backend as unavailable and the error that closes the failed call: no
    other failure is reported. *)
Theorem missing_backend_reported :
  forall env filepath f b,
    filepath <> "" ->
    fs env filepath = Some (File f) ->
    regular f = true ->
    Spec.required_backend (Spec.detect filepath) = Some b ->
    Spec.isAvailable env b = false ->
    parse env (PyStr filepath)
    = (Return None,
       mkSink [ Spec.attempting filepath;
                Spec.backend_unavailable b;
                Spec.failed filepath ]
         (Spec.validation filepath)).
Proof.
  intros env filepath f b Hne Hfs Hreg Hb Hav.
  rewrite (parse_validated env filepath f Hne Hfs Hreg).
  now rewrite (dispatch_backend_unavailable _ _ _ _ _ Hb Hav).
Qed.

Lemma missing_backend_reported_witness :
  parse (Samples.env false) (PyStr "scan.pdf")
  = (Return None,
     mkSink [ Spec.attempting "scan.pdf";
              Spec.backend_unavailable Spec.PortableDocReader;
              Spec.failed "scan.pdf" ]
       (Spec.validation "scan.pdf")).
Proof.
  apply (missing_backend_reported (Samples.env false) "scan.pdf"
           (mkFile true Readable Samples.sample_pdf) Spec.PortableDocReader).
  - discriminate.
  - reflexivity.
  - reflexivity.
  - reflexivity.
  - reflexivity.
Defined.

(* ===================================================================== *)
(** ** Portable documents: the loop over the pages *)
(* ===================================================================== *)

Ltac run_monad :=
  cbv [M.bind M.ret M.touch M.emit M.lift M.library M.try_except M.select
       M.matches existsb logging_info logging_warning logging_error open_rb
       open_r].

Lemma newline_terminated_cons t texts :
  Spec.newline_terminated (t :: texts)
  = (if Text.truthy t then t ++ [Text.LF] else [])
    ++ Spec.newline_terminated texts.
Proof.
  unfold Spec.newline_terminated. simpl.
  destruct (Text.truthy t); simpl; [ | reflexivity ].
  now rewrite <- app_assoc.
Qed.

(** The loop on any pages: the texts that are extracted are accumulated,
    what the library logs is logged, one warning is logged for each page
    that raises, and the loop goes to the last page. *)
Lemma extract_pages_any filepath pages :
  forall page_num text_content s,
    extract_pages filepath pages page_num text_content s
    = (Return (text_content
               ++ Spec.newline_terminated (Spec.extracted pages)),
       mkSink (log s ++ page_records filepath page_num pages) (calls s)).
Proof.
  induction pages as [ | page rest IH ]; intros page_num text_content s.
  - simpl. unfold M.ret, Spec.newline_terminated. simpl.
    rewrite !app_nil_r. now destruct s.
  - destruct page as [ logged [ t | e ] ].
    + simpl extract_pages. unfold M.bind at 1. run_monad.
      cbn [PyPDF2.result PyPDF2.logged log calls].
      rewrite IH. unfold Spec.extracted. simpl flat_map.
      fold (Spec.extracted rest). cbn [PyPDF2.result].
      rewrite newline_terminated_cons.
      simpl page_records. unfold Spec.library_records.
      cbn [PyPDF2.result PyPDF2.logged log calls].
      destruct (Text.truthy t); simpl; now rewrite <- !app_assoc.
    + simpl extract_pages. unfold M.bind at 1. run_monad.
      cbn [PyPDF2.result PyPDF2.logged log calls].
      rewrite isinstance_Exception. cbn [orb log calls]. rewrite IH.
      simpl page_records. unfold Spec.library_records, page_warning.
      cbn [PyPDF2.result PyPDF2.logged log calls].
      unfold Spec.extracted. simpl. now rewrite <- !app_assoc.
Qed.

(** Among pages that are all extracted, the only records are those of
    the library. *)
Lemma page_records_returned filepath pages :
  Forall returned pages ->
  forall page_num,
    page_records filepath page_num pages
    = flat_map Spec.library_records pages.
Proof.
  induction 1 as [ | page rest Hp _ IH ]; intros page_num; [ reflexivity | ].
  simpl. rewrite IH. unfold returned, Spec.raised in Hp.
  destruct (PyPDF2.result page); [ reflexivity | discriminate Hp ].
Qed.

(** One faulty page among pages that are extracted: the records of the
    library, and one warning of the script, after what the library logged
    on the faulty page. *)
Lemma page_records_one_fault filepath (before : list PyPDF2.page)
  (faulty : PyPDF2.page) e (after : list PyPDF2.page) :
  PyPDF2.result faulty = Raise e ->
  Forall returned before ->
  Forall returned after ->
  forall page_num,
    page_records filepath page_num (before ++ faulty :: after)
    = flat_map Spec.library_records before
      ++ Spec.library_records faulty
      ++ [page_warning filepath (page_num + List.length before) e]
      ++ flat_map Spec.library_records after.
Proof.
  intros Hf Hb Ha. induction Hb as [ | page rest Hp _ IH ]; intros page_num.
  - simpl. rewrite Hf, Nat.add_0_r.
    now rewrite (page_records_returned _ _ Ha).
  - simpl. rewrite IH, <- Nat.add_succ_comm, <- app_assoc.
    unfold returned, Spec.raised in Hp.
    destruct (PyPDF2.result page); [ reflexivity | discriminate Hp ].
Qed.

(** The texts of the pages around a faulty page. *)
Lemma extracted_one_fault (before : list PyPDF2.page)
  (faulty : PyPDF2.page) e (after : list PyPDF2.page) :
  PyPDF2.result faulty = Raise e ->
  Spec.extracted (before ++ faulty :: after)
  = Spec.extracted (before ++ after).
Proof.
  intros Hf. unfold Spec.extracted. rewrite !flat_map_app. simpl.
  now rewrite Hf.
Qed.

(** The records of the library are warnings. *)
Lemma library_records_are_warnings {A} (c : PyPDF2.call A) :
  List.filter Spec.is_warning (Spec.library_records c)
  = Spec.library_records c /\
  List.filter Spec.is_error (Spec.library_records c) = [].
Proof.
  unfold Spec.library_records.
  induction (PyPDF2.logged c) as [ | m r [IHw IHe] ]; [ now split | ].
  simpl. now rewrite IHw, IHe.
Qed.

Lemma page_records_are_warnings filepath pages :
  forall page_num,
    List.filter Spec.is_warning (page_records filepath page_num pages)
    = page_records filepath page_num pages /\
    List.filter Spec.is_error (page_records filepath page_num pages) = [].
Proof.
  induction pages as [ | page rest IH ]; intros page_num; [ now split | ].
  simpl. rewrite !filter_app.
  destruct (IH (S page_num)) as [-> ->].
  destruct (library_records_are_warnings page) as [-> ->].
  destruct (PyPDF2.result page); now split.
Qed.

(** The records of the loop: those of the library and those of the
    script. *)
Lemma page_records_count filepath pages :
  forall page_num,
    List.length (page_records filepath page_num pages)
    = List.length (flat_map Spec.library_records pages)
      + List.length (List.filter Spec.raised pages).
Proof.
  induction pages as [ | page rest IH ]; intros page_num; [ reflexivity | ].
  simpl. rewrite !length_app, IH. unfold Spec.raised at 2.
  destruct (PyPDF2.result page); simpl; lia.
Qed.

(** *** Trimming and joining *)

Lemma lstrip_app_newline s :
  Text.lstrip (s ++ [Text.LF])
  = match Text.lstrip s with
    | [] => []
    | _ :: _ => Text.lstrip s ++ [Text.LF]
    end.
Proof.
  induction s as [ | c r IH ]; [ reflexivity | ].
  simpl. destruct (Text.isspace c); [ exact IH | reflexivity ].
Qed.

Lemma rstrip_app_newline s : Text.rstrip (s ++ [Text.LF]) = Text.rstrip s.
Proof. unfold Text.rstrip. now rewrite rev_app_distr. Qed.

(** A trailing newline does not survive [strip]. *)
Lemma strip_app_newline s : Text.strip (s ++ [Text.LF]) = Text.strip s.
Proof.
  unfold Text.strip. rewrite lstrip_app_newline.
  destruct (Text.lstrip s) as [ | c r ]; [ reflexivity | ].
  apply rstrip_app_newline.
Qed.

Lemma terminated_joined (texts : list ustr) :
  texts <> [] ->
  flat_map (fun t => t ++ [Text.LF]) texts
  = Text.join [Text.LF] texts ++ [Text.LF].
Proof.
  induction texts as [ | t rest IH ]; [ congruence | intros _ ].
  destruct rest as [ | t' rest' ].
  - simpl. now rewrite app_nil_r.
  - change (flat_map (fun t => t ++ [Text.LF]) (t :: t' :: rest'))
      with ((t ++ [Text.LF])
            ++ flat_map (fun t => t ++ [Text.LF]) (t' :: rest')).
    rewrite IH by discriminate.
    change (Text.join [Text.LF] (t :: t' :: rest'))
      with (t ++ [Text.LF] ++ Text.join [Text.LF] (t' :: rest')).
    now rewrite <- !app_assoc.
Qed.

(** What [parse_pdf] returns is the newline-separated, trimmed
    concatenation of the texts that are not empty. *)
Lemma strip_newline_terminated texts :
  Text.strip (Spec.newline_terminated texts)
  = Spec.newline_separated (List.filter Text.truthy texts).
Proof.
  unfold Spec.newline_terminated, Spec.newline_separated.
  destruct (List.filter Text.truthy texts) as [ | t rest ] eqn:E.
  - reflexivity.
  - rewrite terminated_joined by discriminate. apply strip_app_newline.
Qed.

Lemma dispatch_pdf env filepath : dispatch env ".pdf" filepath = parse_pdf env filepath.
Proof. reflexivity. Qed.

(** Once the library has opened the document, the strategy returns:
    what the library logged while opening is logged first, then the
    number of pages, the records of the loop, and the end of the
    extraction. *)
Lemma parse_pdf_any env filepath f opened pages s :
  HAS_PYPDF2 env = true ->
  fs env filepath = Some (File f) ->
  acc f = Readable ->
  PdfReader env (data f) = PyPDF2.mkCall opened (Return pages) ->
  parse_pdf env filepath s
  = (Return (Some (Text_ (Spec.newline_separated
                            (List.filter Text.truthy
                               (Spec.extracted pages))))),
     mkSink
       (log s
        ++ List.map (mkRecord WARNING) opened
        ++ [ mkRecord INFO
               ("Reading " ++ Text.of_nat (List.length pages)
                ++ " pages from PDF: " ++ OsPath.basename filepath ++ "...") ]
        ++ page_records filepath 0 pages
        ++ [ mkRecord INFO ("Finished extracting text from PDF: "
                            ++ OsPath.basename filepath) ])
       (calls s ++ [io_open filepath binary_mode])).
Proof.
  intros Hhas Hfs Hacc Hpdf.
  unfold parse_pdf. rewrite Hhas. cbv [negb]. run_monad.
  unfold read_bytes. rewrite Hfs, Hacc, Hpdf.
  cbn [PyPDF2.result PyPDF2.logged log calls].
  rewrite extract_pages_any.
  rewrite <- strip_newline_terminated. cbn [log calls].
  now rewrite <- !app_assoc.
Qed.

(** The warnings and the errors of a call that went through the loop. *)
Lemma pdf_log_warnings filepath opened pages a b c :
  List.filter Spec.is_warning
    (([Spec.attempting filepath]
      ++ List.map (mkRecord WARNING) opened
      ++ [mkRecord INFO a] ++ page_records filepath 0 pages
      ++ [mkRecord INFO b]) ++ [mkRecord INFO c])
  = List.map (mkRecord WARNING) opened ++ page_records filepath 0 pages.
Proof.
  destruct (page_records_are_warnings filepath pages 0) as [Hw _].
  destruct (library_records_are_warnings (PyPDF2.mkCall opened (Return pages)))
    as [Ho _].
  unfold Spec.library_records in Ho. cbn [PyPDF2.logged] in Ho.
  rewrite !filter_app, Hw, Ho. simpl. now rewrite !app_nil_r.
Qed.

Lemma pdf_log_errors filepath opened pages a b c :
  List.filter Spec.is_error
    (([Spec.attempting filepath]
      ++ List.map (mkRecord WARNING) opened
      ++ [mkRecord INFO a] ++ page_records filepath 0 pages
      ++ [mkRecord INFO b]) ++ [mkRecord INFO c])
  = [].
Proof.
  destruct (page_records_are_warnings filepath pages 0) as [_ He].
  destruct (library_records_are_warnings (PyPDF2.mkCall opened (Return pages)))
    as [_ Ho].
  unfold Spec.library_records in Ho. cbn [PyPDF2.logged] in Ho.
  rewrite !filter_app, He, Ho. reflexivity.
Qed.

(** C3, as amended. A portable document of N pages of which exactly one,
    page k, cannot be extracted is parsed with success: the text returned
    is the newline-separated, trimmed concatenation, in page order, of the
    texts of the other pages that are not empty (a page whose text is empty
    adds nothing, not even a separator); the parser logs exactly one
    warning, the one for page k, and the only other warnings in the log
    are those that the library itself logged, on opening the document and
    on each page, in that order; no error is logged. *)
Theorem one_faulty_page_is_skipped :
  forall env filepath f opened before (faulty : PyPDF2.page) e after,
    filepath <> "" ->
    fs env filepath = Some (File f) ->
    regular f = true ->
    acc f = Readable ->
    Spec.detect filepath = ".pdf" ->
    HAS_PYPDF2 env = true ->
    PdfReader env (data f)
    = PyPDF2.mkCall opened (Return (before ++ faulty :: after)) ->
    PyPDF2.result faulty = Raise e ->
    Forall returned before ->
    Forall returned after ->
    exists sink,
      parse env (PyStr filepath)
      = (Return (Some (Text_ (Spec.newline_separated
                                (List.filter Text.truthy
                                   (Spec.extracted (before ++ after)))))),
         sink) /\
      Spec.warnings sink
      = List.map (mkRecord WARNING) opened
        ++ flat_map Spec.library_records before
        ++ Spec.library_records faulty
        ++ [page_warning filepath (List.length before) e]
        ++ flat_map Spec.library_records after /\
      List.length (Spec.warnings sink)
      = List.length opened
        + List.length (flat_map Spec.library_records
                         (before ++ faulty :: after))
        + 1 /\
      Spec.errors sink = [] /\
      calls sink = Spec.validation filepath ++ [io_open filepath binary_mode].
Proof.
  intros env filepath f opened before faulty e after
    Hne Hfs Hreg Hacc Hext Hhas Hpdf Hf Hb Ha.
  rewrite (parse_validated env filepath f Hne Hfs Hreg).
  rewrite Hext, dispatch_pdf.
  rewrite (parse_pdf_any env filepath f opened _ _ Hhas Hfs Hacc Hpdf).
  rewrite (extracted_one_fault before faulty e after Hf).
  eexists. split; [ reflexivity | ].
  match goal with |- ?lhs = ?rhs /\ _ => assert (W : lhs = rhs) end.
  { unfold Spec.warnings. cbn [log snd conclude validated].
    unfold Spec.finished. rewrite pdf_log_warnings.
    now rewrite (page_records_one_fault filepath _ _ _ _ Hf Hb Ha). }
  split; [ exact W | ]. split; [ | split ].
  - rewrite W. rewrite flat_map_app. simpl flat_map.
    rewrite !length_app, length_map. simpl List.length.
    rewrite (Nat.add_comm 1), !Nat.add_assoc. reflexivity.
  - unfold Spec.errors. cbn [log snd conclude validated].
    unfold Spec.finished. apply pdf_log_errors.
  - reflexivity.
Qed.

Lemma one_faulty_page_is_skipped_witness :
  exists sink,
    parse (Samples.env true) (PyStr "scan.pdf")
    = (Return (Some (Text_ (Text.of_ascii "a" ++ [Text.LF]
                            ++ Text.of_ascii "b"))), sink) /\
    Spec.warnings sink
    = [ mkRecord WARNING Samples.sample_repair;
        page_warning "scan.pdf" 3 (Exn.mk Exn.KeyError "'/Contents'") ] /\
    List.length (Spec.warnings sink) = 2 /\
    Spec.errors sink = [] /\
    calls sink = Spec.validation "scan.pdf" ++ [io_open "scan.pdf" binary_mode].
Proof.
  apply (one_faulty_page_is_skipped (Samples.env true) "scan.pdf"
           (mkFile true Readable Samples.sample_pdf)
           [Samples.sample_repair]
           [ PyPDF2.silent (Return (Text.of_ascii "a"));
             PyPDF2.silent (Return []);
             PyPDF2.silent (Return (Text.of_ascii "b")) ]
           (PyPDF2.silent (Raise (Exn.mk Exn.KeyError "'/Contents'")))
           (Exn.mk Exn.KeyError "'/Contents'") []).
  - discriminate.
  - reflexivity.
  - reflexivity.
  - reflexivity.
  - reflexivity.
  - reflexivity.
  - reflexivity.
  - reflexivity.
  - repeat constructor.
  - constructor.
Defined.

(** C3, as stated, fails on both counts. With a page that has no text
    among the pages that are extracted, the text returned is not the
    newline-separated concatenation of the texts of these pages; and with
    a library that logs a warning of its own, the warning for page k is
    not the only warning of the call. *)
Lemma empty_page_adds_no_separator :
  ~ (forall env filepath f opened before (faulty : PyPDF2.page) e after,
        filepath <> "" ->
        fs env filepath = Some (File f) ->
        regular f = true ->
        acc f = Readable ->
        Spec.detect filepath = ".pdf" ->
        HAS_PYPDF2 env = true ->
        PdfReader env (data f)
        = PyPDF2.mkCall opened (Return (before ++ faulty :: after)) ->
        PyPDF2.result faulty = Raise e ->
        Forall returned before ->
        Forall returned after ->
        fst (parse env (PyStr filepath))
        = Return (Some (Text_ (Spec.newline_separated
                                 (Spec.extracted (before ++ after)))))) /\
  ~ (forall env filepath f opened before (faulty : PyPDF2.page) e after,
        filepath <> "" ->
        fs env filepath = Some (File f) ->
        regular f = true ->
        acc f = Readable ->
        Spec.detect filepath = ".pdf" ->
        HAS_PYPDF2 env = true ->
        PdfReader env (data f)
        = PyPDF2.mkCall opened (Return (before ++ faulty :: after)) ->
        PyPDF2.result faulty = Raise e ->
        Forall returned before ->
        Forall returned after ->
        List.length (Spec.warnings (snd (parse env (PyStr filepath)))) = 1).
Proof.
  split; intros H;
    specialize (H (Samples.env true) "scan.pdf"
                  (mkFile true Readable Samples.sample_pdf)
                  [Samples.sample_repair]
                  [ PyPDF2.silent (Return (Text.of_ascii "a"));
                    PyPDF2.silent (Return []);
                    PyPDF2.silent (Return (Text.of_ascii "b")) ]
                  (PyPDF2.silent (Raise (Exn.mk Exn.KeyError "'/Contents'")))
                  (Exn.mk Exn.KeyError "'/Contents'") []).
  - assert (E : fst (parse (Samples.env true) (PyStr "scan.pdf"))
                = Return (Some (Text_ (Spec.newline_separated
                     (Spec.extracted
                        ([ PyPDF2.silent (Return (Text.of_ascii "a"));
                           PyPDF2.silent (Return []);
                           PyPDF2.silent (Return (Text.of_ascii "b")) ]
                         ++ [])))))).
    { apply H; try reflexivity; try discriminate; repeat constructor. }
    vm_compute in E. discriminate E.
  - assert (E : List.length
                  (Spec.warnings
                     (snd (parse (Samples.env true) (PyStr "scan.pdf")))) = 1).
    { apply H; try reflexivity; try discriminate; repeat constructor. }
    vm_compute in E. discriminate E.
Qed.

(* ===================================================================== *)
(** ** Text files: the fallback of the decoding *)
(* ===================================================================== *)

(** The strict decoder raises [UnicodeDecodeError] and nothing else. *)
Lemma decode_strict_raises enc raw e :
  Codec.decode enc Codec.strict raw = Raise e -> e = Codec.UnicodeDecodeError.
Proof.
  unfold Codec.decode.
  destruct (existsb Codec.is_bad _); [ | discriminate ].
  now intros [= <-].
Qed.

(** With [errors='ignore'] the decoder returns; with [errors='replace']
    too. *)
Lemma decode_ignore_returns enc raw :
  exists text, Codec.decode enc Codec.ignore raw = Return text.
Proof. now eexists. Qed.

Lemma dispatch_txt env filepath :
  dispatch env ".txt" filepath = parse_txt env filepath.
Proof. reflexivity. Qed.

Lemma parse_txt_fallback env filepath f e text s :
  fs env filepath = Some (File f) ->
  acc f = Readable ->
  Codec.decode Codec.utf_8 Codec.strict (data f) = Raise e ->
  Codec.decode Codec.sys_getdefaultencoding Codec.ignore (data f)
  = Return text ->
  parse_txt env filepath s
  = (Return (Some (Text_ (Text.universal_newlines text))),
     mkSink
       (log s ++
        [ mkRecord WARNING ("UTF-8 decoding failed for " ++ filepath
                            ++ ". Trying system default encoding.");
          mkRecord INFO ("Successfully parsed TXT: "
                         ++ OsPath.basename filepath) ])
       (calls s ++ [ open_text filepath Codec.strict newline_None;
                     open_text filepath Codec.ignore newline_None ])).
Proof.
  intros Hfs Hacc Hstrict Hignore.
  pose proof (decode_strict_raises _ _ _ Hstrict) as ->.
  unfold parse_txt. run_monad. unfold read_bytes. rewrite Hfs, Hacc.
  rewrite Hstrict. cbv [Exn.isinstance Exn.class_of Codec.UnicodeDecodeError
                        Exn.issubclass Exn.issubclass_fuel Exn.cls_eqb orb].
  run_monad. rewrite Hignore. cbn [log calls].
  unfold open_text, Codec.sys_getdefaultencoding.
  now rewrite <- !app_assoc.
Qed.

(** C5, as amended. When the bytes of a regular [.txt] file fail the
    UTF-8 decoding, the file is opened a second time, once, with the
    system default encoding and [errors='ignore']: the invalid bytes are
    dropped (not replaced) instead of raising, and the call returns the
    text so decoded. *)
Theorem text_fallback_ignores_invalid_bytes :
  forall env filepath f e,
    filepath <> "" ->
    fs env filepath = Some (File f) ->
    regular f = true ->
    acc f = Readable ->
    Spec.detect filepath = ".txt" ->
    Codec.decode Codec.utf_8 Codec.strict (data f) = Raise e ->
    exists text,
      Codec.decode Codec.sys_getdefaultencoding Codec.ignore (data f)
      = Return text /\
      parse env (PyStr filepath)
      = (Return (Some (Text_ (Text.universal_newlines text))),
         mkSink
           [ Spec.attempting filepath;
             mkRecord WARNING ("UTF-8 decoding failed for " ++ filepath
                               ++ ". Trying system default encoding.");
             mkRecord INFO ("Successfully parsed TXT: "
                            ++ OsPath.basename filepath);
             Spec.finished filepath ]
           (Spec.validation filepath
            ++ [ open_text filepath Codec.strict newline_None;
                 open_text filepath Codec.ignore newline_None ])).
Proof.
  intros env filepath f e Hne Hfs Hreg Hacc Hext Hstrict.
  destruct (decode_ignore_returns Codec.sys_getdefaultencoding (data f))
    as (text & Hignore).
  exists text. split; [ assumption | ].
  rewrite (parse_validated env filepath f Hne Hfs Hreg).
  rewrite Hext, dispatch_txt.
  now rewrite (parse_txt_fallback env filepath f e text _
                 Hfs Hacc Hstrict Hignore).
Qed.

Lemma text_fallback_ignores_invalid_bytes_witness :
  exists text,
    Codec.decode Codec.sys_getdefaultencoding Codec.ignore
      ["A"%byte; xff; "B"%byte] = Return text /\
    parse (Samples.env true) (PyStr "latin.txt")
    = (Return (Some (Text_ (Text.universal_newlines text))),
       mkSink
         [ Spec.attempting "latin.txt";
           mkRecord WARNING "UTF-8 decoding failed for latin.txt. Trying system default encoding.";
           mkRecord INFO "Successfully parsed TXT: latin.txt";
           Spec.finished "latin.txt" ]
         (Spec.validation "latin.txt"
          ++ [ open_text "latin.txt" Codec.strict newline_None;
               open_text "latin.txt" Codec.ignore newline_None ])).
Proof.
  apply (text_fallback_ignores_invalid_bytes (Samples.env true) "latin.txt"
           (mkFile true Readable ["A"%byte; xff; "B"%byte])
           Codec.UnicodeDecodeError).
  - discriminate.
  - reflexivity.
  - reflexivity.
  - reflexivity.
  - reflexivity.
  - reflexivity.
Defined.

(** C5, as stated, fails: the text returned for the bytes [A], [0xFF],
    [B] is not the one obtained by replacing the invalid byte. *)
Lemma text_fallback_does_not_replace :
  ~ (forall env filepath f e,
        filepath <> "" ->
        fs env filepath = Some (File f) ->
        regular f = true ->
        acc f = Readable ->
        Spec.detect filepath = ".txt" ->
        Codec.decode Codec.utf_8 Codec.strict (data f) = Raise e ->
        exists text,
          Spec.decoded_replacing (data f) = Return text /\
          fst (parse env (PyStr filepath))
          = Return (Some (Text_ (Text.universal_newlines text)))).
Proof.
  intros H.
  destruct (H (Samples.env true) "latin.txt"
              (mkFile true Readable ["A"%byte; xff; "B"%byte])
              Codec.UnicodeDecodeError)
    as (text & Hrep & Hparse); try reflexivity; try discriminate.
  vm_compute in Hrep. injection Hrep as <-.
  vm_compute in Hparse. discriminate Hparse.
Qed.

(* ===================================================================== *)
(** ** Delimited files *)
(* ===================================================================== *)

Lemma dispatch_csv env filepath :
  dispatch env ".csv" filepath = parse_csv env filepath.
Proof. reflexivity. Qed.



Lemma plain_char_inv c :
  plain_char c = true ->
  (c =? Csv.delimiter)%N = false /\ (c =? Csv.quotechar)%N = false /\
  Csv.is_newline c = false.
Proof.
  unfold plain_char. intros H. apply negb_true_iff in H.
  apply orb_false_elim in H. destruct H as [H Hn].
  apply orb_false_elim in H. now destruct H.
Qed.

Lemma below_limit (n : nat) :
  (N.of_nat n < Csv.field_limit)%N ->
  (Csv.field_limit <=? N.of_nat n)%N = false.
Proof. intros H. now apply N.leb_gt. Qed.

(** *** The reader on a text and on its lines *)

Lemma feed_raise e chars : feed (Raise e) chars = Raise e.
Proof. induction chars as [ | c r IH ]; [ reflexivity | exact IH ]. Qed.

Lemma feed_app st a b : feed st (a ++ b) = feed (feed st a) b.
Proof.
  revert st. induction a as [ | c a IH ]; intros st; [ reflexivity | ].
  simpl. apply IH.
Qed.

Lemma process_line_feed line :
  forall self, Csv.process_line self line = step (feed (Return self) line) None.
Proof.
  induction line as [ | c r IH ]; intros self; [ reflexivity | ].
  simpl. destruct (Csv.parse_process_char self (Some c)) as [ self' | e ].
  - apply IH.
  - now rewrite feed_raise.
Qed.

(** One line of the input. *)
Lemma iternext_line self line_num cur c rest :
  Csv.iternext self line_num (rev (c :: cur) :: rest)
  = next_line
      (end_line (step (feed (Return self) (rev cur)) (Some c))) line_num
      (fun self' => Csv.iternext self' (S line_num) rest).
Proof.
  cbn [Csv.iternext]. rewrite process_line_feed.
  simpl rev. rewrite feed_app. simpl feed.
  unfold end_line, next_line.
  destruct (step (step (feed (Return self) (rev cur)) (Some c)) None)
    as [ self' | e ]; [ | reflexivity ].
  now destruct (Csv.is_start_record (Csv.state self')).
Qed.

Lemma next_line_ext r line_num k k' :
  (forall self, k self = k' self) ->
  next_line r line_num k = next_line r line_num k'.
Proof. intros H. destruct r; simpl; now rewrite ?H. Qed.

(** Iterating the reader over the lines of a text is reading the text
    one character at a time. *)
Lemma iternext_stream_bounded :
  forall k text,
    List.length text <= k ->
    forall cur self line_num,
      Csv.iternext self line_num (Text.lines_keepends_aux cur text)
      = stream (feed (Return self) (rev cur)) (negb (Text.truthy cur))
          line_num text.
Proof.
  induction k as [ | k IH ]; intros text Hlen cur self line_num;
    destruct text as [ | c r ]; try (simpl in Hlen; lia).
  - destruct cur as [ | a cur ]; [ reflexivity | ].
    cbn [Text.lines_keepends_aux]. rewrite iternext_line.
    simpl rev. rewrite feed_app. reflexivity.
  - destruct cur as [ | a cur ]; [ reflexivity | ].
    cbn [Text.lines_keepends_aux]. rewrite iternext_line.
    simpl rev. rewrite feed_app. reflexivity.
  - simpl in Hlen.
    assert (Hr : List.length r <= k) by lia.
    cbn [Text.lines_keepends_aux stream].
    destruct (c =? Text.LF)%N.
    { rewrite iternext_line. apply next_line_ext. intros self'.
      now rewrite (IH r Hr [] self'). }
    destruct (c =? Text.CR)%N.
    { destruct r as [ | d r' ].
      - rewrite iternext_line. apply next_line_ext. intros self'.
        now rewrite (IH [] Hr [] self').
      - destruct (d =? Text.LF)%N.
        + rewrite iternext_line. simpl rev. rewrite feed_app. simpl feed.
          apply next_line_ext. intros self'.
          assert (Hr' : List.length r' <= k) by (simpl in Hr; lia).
          now rewrite (IH r' Hr' [] self').
        + rewrite iternext_line. apply next_line_ext. intros self'.
          now rewrite (IH (d :: r') Hr [] self'). }
    rewrite (IH r Hr (c :: cur) self). simpl rev. rewrite feed_app.
    reflexivity.
Qed.

Lemma reader_stream text :
  Csv.reader (Text.lines_keepends text)
  = stream (Return Csv.parse_reset) true 0 text.
Proof.
  unfold Csv.reader, Text.lines_keepends.
  now rewrite (iternext_stream_bounded (List.length text) text (le_n _)).
Qed.

(** *** Reading the fields of a well-formed file *)

Lemma stream_char st fresh line_num c r :
  Csv.is_newline c = false ->
  stream st fresh line_num (c :: r) = stream (step st (Some c)) false line_num r.
Proof.
  unfold Csv.is_newline. intros H. apply orb_false_elim in H.
  destruct H as [Hl Hc]. cbn [stream]. now rewrite Hl, Hc.
Qed.


(** A character is added to the field while the field is below the
    limit. *)
Lemma add_char_below_limit s fs fd c s' :
  (N.of_nat (S (List.length fd)) <= Csv.field_limit)%N ->
  Csv.add_char_then (Csv.mkReader s fs fd) c s'
  = Return (Csv.mkReader s' fs (fd ++ [c])).
Proof.
  intros H. unfold Csv.add_char_then, Csv.parse_add_char. simpl Csv.field.
  rewrite below_limit by lia. reflexivity.
Qed.








(** Characters that are no line break do not end the line. *)
Lemma stream_plain p :
  forallb plain_char p = true ->
  p <> [] ->
  forall st fresh line_num rest,
    stream st fresh line_num (p ++ rest) = stream (feed st p) false line_num rest.
Proof.
  induction p as [ | c p IH ]; intros Hp Hne st fresh line_num rest;
    [ congruence | ].
  simpl in Hp. apply andb_true_iff in Hp. destruct Hp as [Hc Hp].
  destruct (plain_char_inv c Hc) as (_ & _ & Hn).
  simpl app. rewrite stream_char by assumption.
  destruct p as [ | c' p' ]; [ reflexivity | ].
  now rewrite IH.
Qed.

















(** C9. A regular [.csv] file whose bytes are not valid UTF-8 makes the
    call fail: it returns [None], the file is opened once (strict UTF-8, no
    second attempt with another encoding or error handler), no warning is
    logged, and the records are the start of the dispatch, one error of the
    strategy and the error that closes the failed call. *)
Theorem delimited_has_no_fallback :
  forall env filepath f e,
    filepath <> "" ->
    fs env filepath = Some (File f) ->
    regular f = true ->
    Spec.detect filepath = ".csv" ->
    Codec.decode Codec.utf_8 Codec.strict (data f) = Raise e ->
    exists msg,
      parse env (PyStr filepath)
      = (Return None,
         mkSink [ Spec.attempting filepath;
                  mkRecord ERROR msg;
                  Spec.failed filepath ]
           (Spec.validation filepath
            ++ [open_text filepath Codec.strict newline_empty])).
Proof.
  intros env filepath f e Hne Hfs Hreg Hext Hstrict.
  pose proof (decode_strict_raises _ _ _ Hstrict) as ->.
  rewrite (parse_validated env filepath f Hne Hfs Hreg).
  rewrite Hext, dispatch_csv.
  unfold parse_csv. run_monad. unfold read_bytes. rewrite Hfs.
  destruct (acc f).
  - rewrite Hstrict. now eexists.
  - now eexists.
  - now eexists.
Qed.

Lemma delimited_has_no_fallback_witness :
  exists msg,
    parse (Samples.env true) (PyStr "latin.csv")
    = (Return None,
       mkSink [ Spec.attempting "latin.csv";
                mkRecord ERROR msg;
                Spec.failed "latin.csv" ]
         (Spec.validation "latin.csv"
          ++ [open_text "latin.csv" Codec.strict newline_empty])).
Proof.
  apply (delimited_has_no_fallback (Samples.env true) "latin.csv"
           (mkFile true Readable
              (Samples.raw "ColA,ColB" ++ [x0d; x0a; xff]))
           Codec.UnicodeDecodeError).
  - discriminate.
  - reflexivity.
  - reflexivity.
  - reflexivity.
  - reflexivity.
Defined.

(* ===================================================================== *)
(** ** Markup *)
(* ===================================================================== *)

Lemma dispatch_xml env filepath :
  dispatch env ".xml" filepath = parse_xml env filepath.
Proof. reflexivity. Qed.

(** What [parse_xml] returns on a document that parses: the inner texts
    of the elements, trimmed, the empty ones dropped, joined by a space. *)
Lemma parse_xml_text env filepath f root s :
  fs env filepath = Some (File f) ->
  acc f = Readable ->
  ET_parse env (data f) = Return root ->
  parse_xml env filepath s
  = (Return (Some (Text_ (join_stripped (text_parts root)))),
     mkSink
       (log s ++ [ mkRecord INFO
                     ("Successfully parsed XML and extracted text: "
                      ++ OsPath.basename filepath) ])
       (calls s ++ [io_open filepath binary_mode])).
Proof.
  intros Hfs Hacc Hparse.
  unfold parse_xml. run_monad. unfold read_bytes.
  now rewrite Hfs, Hacc, Hparse.
Qed.

(** The markup sample of the script yields the text [1 2]. *)
Lemma sample_xml_text :
  fst (parse (Samples.env true) (PyStr "sample.xml"))
  = Return (Some (Text_ (Text.of_ascii "1 2"))).
Proof. reflexivity. Qed.

(** C8, on the code. The document [<a>x<b>y</b>z</a>] is well-formed and
    its text content is [x], [y] and [z]; [parse_xml] returns [x y]: the
    text [z], which follows the end tag of [b], is lost, although the
    function is documented to extract all text content. *)
Theorem parse_xml_loses_tail_text :
  ET_parse (Samples.env true) Samples.mixed_xml
  = Return Samples.mixed_xml_tree /\
  fst (parse (Samples.env true) (PyStr "mixed.xml"))
  = Return (Some (Text_ (Text.of_ascii "x y"))) /\
  Spec.all_text Samples.mixed_xml_tree = Text.of_ascii "x y z".
Proof. repeat split. Qed.

(** *** Documents without text after a child element *)

Lemma kept_truthy part : kept part = true -> Text.truthy part = true.
Proof. now destruct part. Qed.

Lemma filter_kept_opt (t : option ustr) :
  List.filter kept
    (match t with
     | Some s => if Text.truthy s then [s] else []
     | None => []
     end)
  = List.filter kept (ET.opt_text t).
Proof.
  destruct t as [ s | ]; [ | reflexivity ].
  destruct (Text.truthy s) eqn:E; [ reflexivity | ].
  now destruct s.
Qed.

Lemma filter_flat_map {A B} (p : B -> bool) (g : A -> list B) l :
  List.filter p (flat_map g l) = flat_map (fun a => List.filter p (g a)) l.
Proof.
  induction l as [ | a l IH ]; [ reflexivity | ].
  simpl. now rewrite filter_app, IH.
Qed.

Lemma flat_map_flat_map {A B C} (g : B -> list C) (f : A -> list B) l :
  flat_map g (flat_map f l) = flat_map (fun a => flat_map g (f a)) l.
Proof.
  induction l as [ | a l IH ]; [ reflexivity | ].
  simpl. now rewrite flat_map_app, IH.
Qed.

(** The parts that [parse_xml] keeps are the pieces of character data
    that are kept, when no element has a tail. *)
Fixpoint kept_parts_itertext (e : ET.Element) :
  no_tail e = true ->
  List.filter kept (text_parts e) = List.filter kept (ET.itertext e).
Proof.
  destruct e as [ tag attrib t tl children ]. intros H.
  unfold text_parts. simpl ET.iter. simpl ET.itertext.
  change (flat_map ?g (?x :: ?l)) with (g x ++ flat_map g l).
  rewrite !filter_app. f_equal.
  - apply filter_kept_opt.
  - simpl in H. rewrite flat_map_flat_map, !filter_flat_map.
    induction children as [ | c cs IH ]; [ reflexivity | ].
    simpl in H. apply andb_true_iff in H. destruct H as [Hc Hcs].
    simpl. rewrite (IH Hcs). f_equal.
    destruct (ET.tail c) eqn:Etail; [ discriminate Hc | ].
    simpl. rewrite app_nil_r.
    now rewrite <- (kept_parts_itertext c Hc).
Qed.

Lemma map_strip_filter_kept parts :
  List.map Text.strip (List.filter kept parts)
  = List.filter Text.truthy (List.map Text.strip parts).
Proof.
  induction parts as [ | p parts IH ]; [ reflexivity | ].
  simpl. unfold kept at 1. destruct (Text.truthy (Text.strip p)); simpl.
  - now rewrite IH.
  - exact IH.
Qed.

(** On a document in which no text follows a child element, [parse_xml]
    returns the text content of every node as the specification words
    it. *)
Lemma join_stripped_all_text root :
  no_tail root = true ->
  join_stripped (text_parts root) = Spec.all_text root.
Proof.
  intros H. unfold join_stripped, Spec.all_text.
  change (fun part => Text.truthy (Text.strip part)) with kept.
  rewrite (kept_parts_itertext root H).
  now rewrite map_strip_filter_kept.
Qed.

(* ===================================================================== *)
(** ** Delimited files written without quoting are read back *)
(* ===================================================================== *)













(** Bytes below 128 decode to themselves. *)
Lemma scan_ascii (s : list N) :
  Forall (fun b => (b < 128)%N) s ->
  Codec.scan s = List.map Codec.Chr s.
Proof.
  induction 1 as [ | b s Hb _ IH ]; [ reflexivity | ].
  simpl. apply N.ltb_lt in Hb. now rewrite Hb, IH.
Qed.

Lemma decode_ascii (raw : bytes) :
  Forall (fun b => (b < 128)%N) (List.map Byte.to_N raw) ->
  Codec.decode Codec.utf_8 Codec.strict raw
  = Return (List.map Byte.to_N raw).
Proof.
  intros H. unfold Codec.decode. rewrite (scan_ascii _ H).
  generalize (List.map Byte.to_N raw) as s. intros s.
  assert (E : existsb Codec.is_bad (List.map Codec.Chr s) = false).
  { induction s as [ | c s IH ]; [ reflexivity | exact IH ]. }
  rewrite E. f_equal.
  induction s as [ | c s IH ]; [ reflexivity | ]. simpl. now rewrite IH.
Qed.


(* ===================================================================== *)
(** ** Calls do not depend on the sink *)
(* ===================================================================== *)

Lemma extend_empty d : extend empty_sink d = d.
Proof. now destruct d. Qed.

Lemma extend_assoc s d d' : extend (extend s d) d' = extend s (extend d d').
Proof. unfold extend. simpl. now rewrite !app_assoc. Qed.

Lemma framed_ret {A} (a : A) : framed (M.ret a).
Proof. intros s. unfold M.ret, extend. simpl. now rewrite !app_nil_r; destruct s. Qed.

Lemma framed_lift {A} (o : outcome A) : framed (M.lift o).
Proof. intros s. unfold M.lift, extend. simpl. now rewrite !app_nil_r; destruct s. Qed.

Lemma framed_library {A} (c : PyPDF2.call A) : framed (M.library c).
Proof. intros s. unfold M.library, extend. simpl. now rewrite app_nil_r. Qed.

Lemma framed_emit l msg : framed (M.emit l msg).
Proof. intros s. unfold M.emit, extend. simpl. now rewrite app_nil_r. Qed.

Lemma framed_touch c : framed (M.touch c).
Proof. intros s. unfold M.touch, extend. simpl. now rewrite app_nil_r. Qed.

Lemma framed_bind {A B} (m : M.t A) (k : A -> M.t B) :
  framed m -> (forall a, framed (k a)) -> framed (M.bind m k).
Proof.
  intros Hm Hk s. unfold M.bind. rewrite (Hm s).
  destruct (m empty_sink) as [[a | e] d]; simpl; [ | reflexivity ].
  rewrite (Hk a (extend s d)), (Hk a d). simpl.
  now rewrite extend_assoc.
Qed.

Lemma framed_try {A} (body : M.t A) clauses :
  framed body ->
  (forall e h, M.select e clauses = Some h -> framed (h e)) ->
  framed (M.try_except body clauses).
Proof.
  intros Hb Hc s. unfold M.try_except. rewrite (Hb s).
  destruct (body empty_sink) as [[a | e] d]; simpl; [ reflexivity | ].
  destruct (M.select e clauses) as [h | ] eqn:E; [ | reflexivity ].
  rewrite (Hc e h E (extend s d)), (Hc e h E d). simpl.
  now rewrite extend_assoc.
Qed.

(** The clause that is selected is one of the clauses. *)
Lemma select_in {A} (e : Exn.t) (clauses : list (M.clause A)) h :
  M.select e clauses = Some h -> exists cs, In (cs, h) clauses.
Proof.
  induction clauses as [ | [cs h'] rest IH ]; [ discriminate | ].
  simpl. destruct (M.matches e cs).
  - intros [= <-]. exists cs. now left.
  - intros H. destruct (IH H) as (cs' & Hin). exists cs'. now right.
Qed.

Lemma framed_clauses {A} (clauses : list (M.clause A)) :
  Forall (fun cl => forall e, framed (snd cl e)) clauses ->
  forall e h, M.select e clauses = Some h -> framed (h e).
Proof.
  intros H e h E. destruct (select_in e clauses h E) as (cs & Hin).
  rewrite Forall_forall in H. apply (H (cs, h) Hin).
Qed.

Ltac frame :=
  repeat first
    [ apply framed_ret
    | apply framed_lift
    | apply framed_library
    | apply framed_emit
    | apply framed_touch
    | apply framed_bind; [ | intros ? ]
    | apply framed_try;
      [ | apply framed_clauses;
          repeat (apply Forall_cons; [ intros ?; cbn [snd] | ]);
          try apply Forall_nil ]
    | progress cbv zeta ].

Section Framed.

Variable env : Env.

Lemma framed_open_r path enc errors nl : framed (open_r env path enc errors nl).
Proof. unfold open_r. frame. Qed.

Lemma framed_open_rb path : framed (open_rb env path).
Proof. unfold open_rb. frame. Qed.

Lemma framed_extract_pages filepath pages :
  forall page_num text_content,
    framed (extract_pages filepath pages page_num text_content).
Proof.
  induction pages as [ | page rest IH ]; intros page_num text_content.
  - apply framed_ret.
  - simpl. apply framed_bind; [ | intros; apply IH ].
    unfold logging_warning. frame.
Qed.

Ltac frame_strategy :=
  unfold logging_info, logging_warning, logging_error, docx_open;
  repeat first
    [ apply framed_open_r | apply framed_open_rb
    | apply framed_extract_pages
    | progress frame ].

Lemma framed_parse_txt filepath : framed (parse_txt env filepath).
Proof. unfold parse_txt. frame_strategy. Qed.

Lemma framed_parse_csv filepath : framed (parse_csv env filepath).
Proof. unfold parse_csv. frame_strategy. Qed.

Lemma framed_parse_json filepath : framed (parse_json env filepath).
Proof. unfold parse_json. frame_strategy. Qed.

Lemma framed_parse_xml filepath : framed (parse_xml env filepath).
Proof. unfold parse_xml. frame_strategy. Qed.

Lemma framed_parse_pdf filepath : framed (parse_pdf env filepath).
Proof. unfold parse_pdf. destruct (HAS_PYPDF2 env); simpl; frame_strategy. Qed.

Lemma framed_parse_docx filepath : framed (parse_docx env filepath).
Proof. unfold parse_docx. destruct (HAS_DOCX env); simpl; frame_strategy. Qed.

Lemma framed_parse_excel filepath : framed (parse_excel env filepath).
Proof. unfold parse_excel. destruct (HAS_PANDAS env); simpl; frame_strategy. Qed.

Lemma framed_parse_html filepath : framed (parse_html env filepath).
Proof. unfold parse_html. destruct (HAS_BS4 env); simpl; frame_strategy. Qed.

Lemma framed_dispatch extension filepath :
  framed (dispatch env extension filepath).
Proof.
  unfold dispatch.
  repeat match goal with
         | |- framed (if ?b then _ else _) => destruct b
         end;
    first [ apply framed_parse_txt | apply framed_parse_csv
          | apply framed_parse_json | apply framed_parse_xml
          | apply framed_parse_pdf | apply framed_parse_docx
          | apply framed_parse_excel | apply framed_parse_html
          | unfold logging_warning; frame ].
Qed.

Lemma framed_parse_document arg : framed (parse_document env arg).
Proof.
  unfold parse_document, os_exists, os_isfile, logging_info, logging_error.
  destruct arg; try (frame; fail).
  destruct (String.eqb s ""); [ frame | ].
  apply framed_bind; [ frame | intros e ].
  destruct (negb e); [ frame | ].
  apply framed_bind; [ frame | intros f ].
  destruct (negb f); [ frame | ].
  cbv zeta. apply framed_bind; [ frame | intros _ ].
  apply framed_bind; [ apply framed_dispatch | intros content ].
  destruct content; frame.
Qed.

End Framed.

(* ===================================================================== *)
(** ** Errors are logged only by calls that fail *)
(* ===================================================================== *)

Lemma errors_app_record s r :
  Spec.errors (mkSink (log s ++ [r]) (calls s))
  = Spec.errors s ++ (if Spec.is_error r then [r] else []).
Proof.
  unfold Spec.errors. simpl. rewrite filter_app. simpl.
  now destruct (Spec.is_error r).
Qed.

Lemma quiet_ret {A} (ok : A -> Prop) a : quiet ok (M.ret a).
Proof. now intros s. Qed.

Lemma quiet_lift {A} (ok : A -> Prop) (o : outcome A) : quiet ok (M.lift o).
Proof. intros s. unfold M.lift. now destruct o. Qed.

Lemma quiet_library {A} (ok : A -> Prop) (c : PyPDF2.call A) :
  quiet ok (M.library c).
Proof.
  assert (E : forall s, Spec.errors
                (mkSink (log s ++ List.map (mkRecord WARNING) (PyPDF2.logged c))
                        (calls s))
              = Spec.errors s).
  { intros s. unfold Spec.errors. cbn [log]. rewrite filter_app.
    induction (PyPDF2.logged c) as [ | m r IH ]; [ apply app_nil_r | exact IH ]. }
  intros s. unfold M.library. destruct (PyPDF2.result c); intros; apply E.
Qed.

Lemma quiet_touch ok c : quiet ok (M.touch c).
Proof. now intros s. Qed.

Lemma quiet_info ok msg : quiet ok (logging_info msg).
Proof.
  intros s. simpl. intros _. rewrite errors_app_record. apply app_nil_r.
Qed.

Lemma quiet_warning ok msg : quiet ok (logging_warning msg).
Proof.
  intros s. simpl. intros _. rewrite errors_app_record. apply app_nil_r.
Qed.

(** Logging an error and returning [None]. *)
Lemma quiet_error_none msg :
  quiet is_content (logging_error msg ;; M.ret None).
Proof. intros s. simpl. intros H. now contradiction H. Qed.

Lemma quiet_bind {A B} (ok : B -> Prop) (m : M.t A) (k : A -> M.t B) :
  quiet anything m -> (forall a, quiet ok (k a)) -> quiet ok (M.bind m k).
Proof.
  intros Hm Hk s. specialize (Hm s). unfold M.bind.
  destruct (m s) as [[a | e] s1]; [ | assumption ].
  specialize (Hk a s1). rewrite <- (Hm I).
  destruct (k a s1) as [[b | e] s2]; assumption.
Qed.

Lemma quiet_try {A} (ok : A -> Prop) (body : M.t A) clauses :
  quiet ok body ->
  (forall e h, M.select e clauses = Some h -> quiet ok (h e)) ->
  quiet ok (M.try_except body clauses).
Proof.
  intros Hb Hc s. specialize (Hb s). unfold M.try_except.
  destruct (body s) as [[a | e] s1]; [ assumption | ].
  destruct (M.select e clauses) as [h | ] eqn:E; [ | assumption ].
  specialize (Hc e h E s1). rewrite <- Hb.
  destruct (h e s1) as [[b | e'] s2]; assumption.
Qed.

Lemma quiet_clauses {A} (ok : A -> Prop) (clauses : list (M.clause A)) :
  Forall (fun cl => forall e, quiet ok (snd cl e)) clauses ->
  forall e h, M.select e clauses = Some h -> quiet ok (h e).
Proof.
  intros H e h E. destruct (select_in e clauses h E) as (cs & Hin).
  rewrite Forall_forall in H. apply (H (cs, h) Hin).
Qed.

Ltac hush :=
  repeat first
    [ apply quiet_error_none
    | apply quiet_ret
    | apply quiet_lift
    | apply quiet_library
    | apply quiet_touch
    | apply quiet_info
    | apply quiet_warning
    | apply quiet_bind; [ | intros ? ]
    | apply quiet_try;
      [ | apply quiet_clauses;
          repeat (apply Forall_cons; [ intros ?; cbn [snd] | ]);
          try apply Forall_nil ]
    | progress cbv zeta ].

Section Quiet.

Variable env : Env.

Lemma quiet_open_r ok path enc errors nl :
  quiet ok (open_r env path enc errors nl).
Proof. unfold open_r. hush. Qed.

Lemma quiet_open_rb ok path : quiet ok (open_rb env path).
Proof. unfold open_rb. hush. Qed.

Lemma quiet_docx_open ok path : quiet ok (docx_open env path).
Proof. unfold docx_open. hush. Qed.

Lemma quiet_extract_pages ok filepath pages :
  forall page_num text_content,
    quiet ok (extract_pages filepath pages page_num text_content).
Proof.
  induction pages as [ | page rest IH ]; intros page_num text_content.
  - apply quiet_ret.
  - simpl. apply quiet_bind; [ | intros; apply IH ]. hush.
Qed.

Ltac hush_strategy :=
  repeat first
    [ apply quiet_open_r | apply quiet_open_rb | apply quiet_docx_open
    | apply quiet_extract_pages
    | progress hush ].

Lemma quiet_parse_txt filepath : quiet is_content (parse_txt env filepath).
Proof. unfold parse_txt. hush_strategy. Qed.

Lemma quiet_parse_csv filepath : quiet is_content (parse_csv env filepath).
Proof. unfold parse_csv. hush_strategy. Qed.

Lemma quiet_parse_json filepath : quiet is_content (parse_json env filepath).
Proof. unfold parse_json. hush_strategy. Qed.

Lemma quiet_parse_xml filepath : quiet is_content (parse_xml env filepath).
Proof. unfold parse_xml. hush_strategy. Qed.

Lemma quiet_parse_pdf filepath : quiet is_content (parse_pdf env filepath).
Proof. unfold parse_pdf. destruct (HAS_PYPDF2 env); simpl; hush_strategy. Qed.

Lemma quiet_parse_docx filepath : quiet is_content (parse_docx env filepath).
Proof. unfold parse_docx. destruct (HAS_DOCX env); simpl; hush_strategy. Qed.

Lemma quiet_parse_excel filepath : quiet is_content (parse_excel env filepath).
Proof. unfold parse_excel. destruct (HAS_PANDAS env); simpl; hush_strategy. Qed.

Lemma quiet_parse_html filepath : quiet is_content (parse_html env filepath).
Proof. unfold parse_html. destruct (HAS_BS4 env); simpl; hush_strategy. Qed.

Lemma quiet_warning_none msg :
  quiet is_content (logging_warning msg ;; M.ret None).
Proof. intros s. simpl. intros H. now contradiction H. Qed.

Lemma quiet_dispatch extension filepath :
  quiet is_content (dispatch env extension filepath).
Proof.
  unfold dispatch.
  repeat match goal with
         | |- quiet _ (if ?b then _ else _) => destruct b
         end;
    first [ apply quiet_parse_txt | apply quiet_parse_csv
          | apply quiet_parse_json | apply quiet_parse_xml
          | apply quiet_parse_pdf | apply quiet_parse_docx
          | apply quiet_parse_excel | apply quiet_parse_html
          | apply quiet_warning_none ].
Qed.

(** The dispatch is not [quiet anything]: the end of [parse_document] is
    reached only when the strategy returned. *)
Lemma quiet_parse_document arg : quiet is_content (parse_document env arg).
Proof.
  assert (End : forall filepath,
             quiet is_content
               (content <- dispatch env (Spec.detect filepath) filepath ;;
                match content with
                | Some _ =>
                    logging_info ("Finished parsing: "
                                  ++ OsPath.basename filepath)
                | None =>
                    logging_error ("Failed to parse: "
                                   ++ OsPath.basename filepath)
                end ;;
                M.ret content)).
  { intros filepath s. unfold M.bind at 1.
    pose proof (quiet_dispatch (Spec.detect filepath) filepath s) as Hd.
    destruct (dispatch env (Spec.detect filepath) filepath s)
      as [[[c | ] | e] s1].
    - simpl. intros _. rewrite errors_app_record. simpl.
      rewrite app_nil_r. apply Hd. discriminate.
    - simpl. intros H. now contradiction H.
    - exact Hd. }
  unfold parse_document, os_exists, os_isfile.
  destruct arg; try apply quiet_error_none.
  destruct (String.eqb s ""); [ apply quiet_error_none | ].
  apply quiet_bind; [ hush | intros e ].
  destruct (negb e); [ apply quiet_error_none | ].
  apply quiet_bind; [ hush | intros f ].
  destruct (negb f); [ apply quiet_error_none | ].
  cbv zeta. apply quiet_bind; [ hush | intros _ ].
  apply End.
Qed.

End Quiet.

(* ===================================================================== *)
(** ** Properties of the dispatcher beyond the specification *)
(* ===================================================================== *)

Lemma last_error_in_errors (l : list LogRecord) :
  Spec.is_error (List.last l (mkRecord INFO "")) = true ->
  List.filter Spec.is_error l <> [].
Proof.
  induction l as [ | r l IH ]; [ discriminate | ].
  destruct l as [ | r' l' ].
  - simpl. intros ->. discriminate.
  - intros H. change (List.last (r :: r' :: l') (mkRecord INFO ""))
      with (List.last (r' :: l') (mkRecord INFO "")) in H.
    specialize (IH H). simpl in *. destruct (Spec.is_error r); [ discriminate | ].
    exact IH.
Qed.

(** X1. A call fails exactly when it logs an error: whatever the
    argument, [parse_document] returns, and it returns [None] if and only
    if at least one record of level ERROR was logged; a call that returns
    content logs no error. *)
Theorem failure_iff_error_logged :
  forall env arg, exists r sink,
    parse env arg = (Return r, sink) /\
    (r = None <-> Spec.errors sink <> []).
Proof.
  intros env arg.
  destruct (parse_document_outcome env arg) as (r & sink & E & H).
  exists r, sink. split; [ assumption | ].
  pose proof (quiet_parse_document env arg empty_sink) as Q.
  unfold parse, run in E. rewrite E in Q.
  destruct r as [ c | ].
  - split; [ discriminate | ]. intros Herr. exfalso. apply Herr.
    apply Q. discriminate.
  - split; [ | reflexivity ]. intros _.
    now apply last_error_in_errors.
Qed.

(** X3. A path that does not exist: the call returns [None], logs that
    the file does not exist, and stops after the existence test (the path
    is neither tested for being a file nor opened), whatever its
    extension. *)
Theorem missing_path_fails :
  forall env filepath,
    filepath <> "" ->
    fs env filepath = None ->
    parse env (PyStr filepath)
    = (Return None,
       mkSink [mkRecord ERROR ("File does not exist: " ++ filepath)]
         [os_path_exists filepath]).
Proof.
  intros env filepath Hne Hfs.
  unfold parse, run, parse_document. rewrite (eqb_empty_false _ Hne).
  cbv [M.bind M.ret M.touch M.emit os_exists os_isfile logging_info
       logging_error empty_sink log calls].
  now rewrite Hfs.
Qed.

Lemma missing_path_fails_witness :
  parse (Samples.env true) (PyStr "non_existent_file.xyz")
  = (Return None,
     mkSink [mkRecord ERROR "File does not exist: non_existent_file.xyz"]
       [os_path_exists "non_existent_file.xyz"]).
Proof.
  apply (missing_path_fails (Samples.env true) "non_existent_file.xyz").
  - discriminate.
  - reflexivity.
Defined.

Lemma parse_document_not_a_file env filepath entry :
  filepath <> "" ->
  fs env filepath = Some entry ->
  match entry with Directory => true | File f => negb (regular f) end
  = true ->
  parse env (PyStr filepath)
  = (Return None,
     mkSink [mkRecord ERROR ("Path is not a file: " ++ filepath)]
       (Spec.validation filepath)).
Proof.
  intros Hne Hfs Hreg.
  unfold parse, run, parse_document. rewrite (eqb_empty_false _ Hne).
  cbv [M.bind M.ret M.touch M.emit os_exists os_isfile logging_info
       logging_error empty_sink log calls].
  rewrite Hfs. destruct entry as [ | f ]; [ reflexivity | ].
  apply negb_true_iff in Hreg. now rewrite Hreg.
Qed.

(** X4. A path that exists and is not a regular file (a directory, a
    device): the call returns [None], logs that the path is not a file and
    does not open it, whatever its extension. *)
Theorem not_a_file_fails :
  forall env filepath entry,
    filepath <> "" ->
    fs env filepath = Some entry ->
    match entry with Directory => true | File f => negb (regular f) end
    = true ->
    parse env (PyStr filepath)
    = (Return None,
       mkSink [mkRecord ERROR ("Path is not a file: " ++ filepath)]
         (Spec.validation filepath)).
Proof. exact parse_document_not_a_file. Qed.

Lemma not_a_file_fails_witness :
  parse (Samples.env true) (PyStr "dir")
  = (Return None,
     mkSink [mkRecord ERROR "Path is not a file: dir"]
       (Spec.validation "dir")).
Proof.
  apply (not_a_file_fails (Samples.env true) "dir" Directory).
  - discriminate.
  - reflexivity.
  - reflexivity.
Defined.

Lemma fst_conclude filepath x : fst (conclude filepath x) = fst x.
Proof. now destruct x as [[[c | ] | e] s]. Qed.

Section Unreadable.

Variable env : Env.
Variable filepath : string.
Variable f : FileNode.
Hypothesis Hfs : fs env filepath = Some (File f).
Hypothesis Hacc : acc f <> Readable.

Ltac unreadable :=
  run_monad; unfold read_bytes; rewrite Hfs;
  destruct (acc f); [ now contradiction Hacc | reflexivity | reflexivity ].

Lemma parse_txt_unreadable s : fst (parse_txt env filepath s) = Return None.
Proof. unfold parse_txt. unreadable. Qed.

Lemma parse_csv_unreadable s : fst (parse_csv env filepath s) = Return None.
Proof. unfold parse_csv. unreadable. Qed.

Lemma parse_json_unreadable s : fst (parse_json env filepath s) = Return None.
Proof. unfold parse_json. unreadable. Qed.

Lemma parse_xml_unreadable s : fst (parse_xml env filepath s) = Return None.
Proof. unfold parse_xml. unreadable. Qed.

Lemma parse_pdf_unreadable s : fst (parse_pdf env filepath s) = Return None.
Proof.
  unfold parse_pdf. destruct (HAS_PYPDF2 env); simpl negb; cbv iota;
    [ unreadable | reflexivity ].
Qed.

Lemma parse_docx_unreadable s : fst (parse_docx env filepath s) = Return None.
Proof.
  unfold parse_docx. destruct (HAS_DOCX env); simpl negb; cbv iota;
    [ | reflexivity ].
  unfold docx_open. run_monad. rewrite Hfs.
  destruct f as [reg a raw]. simpl in Hacc.
  destruct a; [ now contradiction Hacc | reflexivity | reflexivity ].
Qed.

Lemma parse_excel_unreadable s : fst (parse_excel env filepath s) = Return None.
Proof.
  unfold parse_excel. destruct (HAS_PANDAS env); simpl negb; cbv iota;
    [ cbv zeta; unreadable | reflexivity ].
Qed.

Lemma parse_html_unreadable s : fst (parse_html env filepath s) = Return None.
Proof.
  unfold parse_html. destruct (HAS_BS4 env); simpl negb; cbv iota;
    [ unreadable | reflexivity ].
Qed.

Lemma dispatch_unreadable extension s :
  fst (dispatch env extension filepath s) = Return None.
Proof.
  unfold dispatch.
  repeat match goal with
         | |- fst ((if ?b then _ else _) _) = _ => destruct b
         end;
    first [ apply parse_txt_unreadable | apply parse_csv_unreadable
          | apply parse_json_unreadable | apply parse_xml_unreadable
          | apply parse_pdf_unreadable | apply parse_docx_unreadable
          | apply parse_excel_unreadable | apply parse_html_unreadable
          | reflexivity ].
Qed.

End Unreadable.

(** X5. A file that cannot be read (permission denied, input/output
    error) never yields content: whatever its extension and whatever the
    backends, the call returns [None]. *)
Theorem unreadable_file_fails :
  forall env filepath f,
    filepath <> "" ->
    fs env filepath = Some (File f) ->
    acc f <> Readable ->
    fst (parse env (PyStr filepath)) = Return None.
Proof.
  intros env filepath f Hne Hfs Hacc.
  destruct (regular f) eqn:Hreg.
  - rewrite (parse_validated env filepath f Hne Hfs Hreg), fst_conclude.
    now apply dispatch_unreadable with (f := f).
  - rewrite (parse_document_not_a_file env filepath (File f) Hne Hfs);
      [ reflexivity | ].
    now rewrite Hreg.
Qed.

Lemma unreadable_file_fails_witness :
  fst (parse MoreSamples.env (PyStr "locked.txt")) = Return None.
Proof.
  apply (unreadable_file_fails MoreSamples.env "locked.txt"
           (mkFile true Denied (Samples.raw "secret"))).
  - discriminate.
  - reflexivity.
  - discriminate.
Defined.

(* ===================================================================== *)
(** ** Batch use *)
(* ===================================================================== *)

Lemma lookup_setitem_same d key value :
  Batch.lookup (Batch.setitem d key value) key = Some value.
Proof.
  induction d as [ | [k v] rest IH ]; simpl.
  - now rewrite String.eqb_refl.
  - destruct (String.eqb k key) eqn:E; simpl.
    + now rewrite String.eqb_refl.
    + now rewrite E.
Qed.

Lemma lookup_setitem_other d key value key' :
  key' <> key ->
  Batch.lookup (Batch.setitem d key value) key' = Batch.lookup d key'.
Proof.
  intros Hne. induction d as [ | [k v] rest IH ]; simpl.
  - destruct (String.eqb key key') eqn:E; [ | reflexivity ].
    apply String.eqb_eq in E. congruence.
  - destruct (String.eqb k key) eqn:E; simpl.
    + apply String.eqb_eq in E. subst k.
      destruct (String.eqb key key') eqn:E'; [ | reflexivity ].
      apply String.eqb_eq in E'. congruence.
    + destruct (String.eqb k key'); [ reflexivity | exact IH ].
Qed.

Lemma parse_all_from env files :
  forall results0 s, exists results sink,
    Batch.parse_all env files results0 s = (Return results, sink) /\
    (forall file, In file files ->
       exists r, fst (parse env (PyStr file)) = Return r /\
                 Batch.lookup results file = Some r) /\
    (forall file, ~ In file files ->
       Batch.lookup results file = Batch.lookup results0 file) /\
    log sink
    = log s ++ flat_map (fun file => log (snd (parse env (PyStr file)))) files /\
    calls sink
    = calls s
      ++ flat_map (fun file => calls (snd (parse env (PyStr file)))) files.
Proof.
  induction files as [ | f rest IH ]; intros results0 s.
  - exists results0, s. simpl. rewrite !app_nil_r.
    repeat split; try reflexivity. intros file [].
  - cbn [Batch.parse_all]. unfold M.bind at 1.
    rewrite (framed_parse_document env (PyStr f) s).
    destruct (parse_document_outcome env (PyStr f)) as (r & d & E & _).
    change (parse_document env (PyStr f) empty_sink)
      with (parse env (PyStr f)).
    rewrite E. cbn [fst snd].
    destruct (IH (Batch.setitem results0 f r) (extend s d))
      as (results & sink & E' & Hin & Hout & Hlog & Hcalls).
    exists results, sink. split; [ exact E' | ]. repeat split.
    + intros file Hfile.
      destruct (in_dec string_dec file rest) as [ Hrest | Hrest ].
      * now apply Hin.
      * destruct Hfile as [ <- | Hfile ]; [ | contradiction ].
        exists r. rewrite E. split; [ reflexivity | ].
        rewrite (Hout f Hrest). apply lookup_setitem_same.
    + intros file Hfile. rewrite Hout by (intros H; apply Hfile; now right).
      apply lookup_setitem_other. intros ->. apply Hfile. now left.
    + rewrite Hlog. cbn [flat_map extend log]. rewrite E. cbn [snd].
      now rewrite app_assoc.
    + rewrite Hcalls. cbn [flat_map extend calls]. rewrite E. cbn [snd].
      now rewrite app_assoc.
Qed.

(** X6. The batch loop of the driver: parsing a list of paths never
    raises; [results] holds, for each path of the list, what a call of
    [parse_document] on that path alone returns (a path listed twice is
    parsed twice and keeps one entry), it holds no other key, and the log
    of the batch is the logs of the single calls, in order: calls do not
    influence each other. *)
Theorem batch_is_independent_calls :
  forall env files_to_parse, exists results sink,
    run (Batch.parse_all env files_to_parse []) = (Return results, sink) /\
    (forall file, In file files_to_parse ->
       exists r, fst (parse env (PyStr file)) = Return r /\
                 Batch.lookup results file = Some r) /\
    (forall file, ~ In file files_to_parse ->
       Batch.lookup results file = None) /\
    log sink
    = flat_map (fun file => log (snd (parse env (PyStr file)))) files_to_parse.
Proof.
  intros env files.
  destruct (parse_all_from env files [] empty_sink)
    as (results & sink & E & Hin & Hout & Hlog & _).
  exists results, sink. repeat split; assumption.
Qed.

(* ===================================================================== *)
(** ** Text files that decode *)
(* ===================================================================== *)

Lemma universal_newlines_no_cr s : ~ In Text.CR (Text.universal_newlines s).
Proof.
  assert (G : forall n s, List.length s <= n ->
                ~ In Text.CR (Text.universal_newlines s)).
  { clear s. induction n as [ | n IH ]; intros s Hlen.
    - destruct s; [ intros [] | simpl in Hlen; lia ].
    - destruct s as [ | c r ]; [ intros [] | ].
      simpl in Hlen. simpl.
      destruct (N.eqb_spec c Text.CR) as [ -> | Hc ].
      + destruct r as [ | d r' ].
        * intros [ H | [] ]. discriminate H.
        * destruct (N.eqb d Text.LF).
          -- intros [ H | H ]; [ discriminate H | ].
             revert H. apply IH. simpl in Hlen. lia.
          -- intros [ H | H ]; [ discriminate H | ].
             revert H. apply IH. lia.
      + intros [ H | H ]; [ congruence | ].
        revert H. apply IH. lia. }
  apply (G (List.length s)). lia.
Qed.

Lemma universal_newlines_id s :
  ~ In Text.CR s -> Text.universal_newlines s = s.
Proof.
  induction s as [ | c r IH ]; [ reflexivity | ].
  intros H. simpl.
  destruct (N.eqb_spec c Text.CR) as [ -> | Hc ].
  - exfalso. apply H. now left.
  - f_equal. apply IH. intros Hr. apply H. now right.
Qed.

Lemma parse_txt_decoded env filepath f text s :
  fs env filepath = Some (File f) ->
  acc f = Readable ->
  Codec.decode Codec.utf_8 Codec.strict (data f) = Return text ->
  parse_txt env filepath s
  = (Return (Some (Text_ (Text.universal_newlines text))),
     mkSink
       (log s ++ [ mkRecord INFO ("Successfully parsed TXT: "
                                  ++ OsPath.basename filepath) ])
       (calls s ++ [open_text filepath Codec.strict newline_None])).
Proof.
  intros Hfs Hacc Hdec.
  unfold parse_txt. run_monad. unfold read_bytes.
  now rewrite Hfs, Hacc, Hdec.
Qed.

(** X7. Round trip on plain text: a regular [.txt] file that holds ASCII
    bytes without carriage return is parsed into exactly its content, with
    one opening of the file and neither warning nor error. *)
Theorem ascii_text_round_trip :
  forall env filepath f,
    filepath <> "" ->
    fs env filepath = Some (File f) ->
    regular f = true ->
    acc f = Readable ->
    Spec.detect filepath = ".txt" ->
    Forall (fun b => (b < 128)%N) (List.map Byte.to_N (data f)) ->
    ~ In Text.CR (List.map Byte.to_N (data f)) ->
    parse env (PyStr filepath)
    = (Return (Some (Text_ (List.map Byte.to_N (data f)))),
       mkSink [ Spec.attempting filepath;
                mkRecord INFO ("Successfully parsed TXT: "
                               ++ OsPath.basename filepath);
                Spec.finished filepath ]
         (Spec.validation filepath
          ++ [open_text filepath Codec.strict newline_None])).
Proof.
  intros env filepath f Hne Hfs Hreg Hacc Hext Hascii Hcr.
  rewrite (parse_validated env filepath f Hne Hfs Hreg).
  rewrite Hext, dispatch_txt.
  rewrite (parse_txt_decoded env filepath f _ _ Hfs Hacc
             (decode_ascii _ Hascii)).
  now rewrite (universal_newlines_id _ Hcr).
Qed.

Lemma ascii_text_round_trip_witness :
  parse (Samples.env true) (PyStr "sample.txt")
  = (Return (Some (Text_ (Text.of_ascii "This is line one." ++ [Text.LF]
                          ++ Text.of_ascii "This is line two."))),
     mkSink [ Spec.attempting "sample.txt";
              mkRecord INFO "Successfully parsed TXT: sample.txt";
              Spec.finished "sample.txt" ]
       (Spec.validation "sample.txt"
        ++ [open_text "sample.txt" Codec.strict newline_None])).
Proof.
  apply (ascii_text_round_trip (Samples.env true) "sample.txt"
           (mkFile true Readable
              (Samples.raw "This is line one." ++ [x0a]
               ++ Samples.raw "This is line two."))).
  - discriminate.
  - reflexivity.
  - reflexivity.
  - reflexivity.
  - reflexivity.
  - repeat (constructor; [ reflexivity | ]). constructor.
  - vm_compute. intros H.
    repeat (destruct H as [ H | H ]; [ discriminate H | ]). exact H.
Defined.

Section TextNewlines.

Variable env : Env.

Lemma safe_open_r_universal path enc errors :
  safe (fun t => ~ In Text.CR t) (open_r env path enc errors newline_None).
Proof.
  unfold open_r. steps. apply returns_safe, returns_ret.
  apply universal_newlines_no_cr.
Qed.

Lemma parse_txt_no_cr filepath :
  returns (text_such_that (fun t => ~ In Text.CR t)) (parse_txt env filepath).
Proof.
  apply returns_try_catch_all; [ exact I | | catches ].
  apply safe_bind with (Q := fun t => ~ In Text.CR t).
  - apply safe_try; [ apply safe_open_r_universal | ].
    intros e h E. unfold M.select in E.
    destruct (M.matches e [Exn.UnicodeDecodeError]); [ | discriminate ].
    injection E as <-.
    apply safe_bind with (Q := anything); [ apply safe_anything | intros _ _ ].
    apply safe_open_r_universal.
  - intros t Ht. apply returns_safe, returns_log_ret. exact Ht.
Qed.

End TextNewlines.

(** X8. The text returned for a [.txt] file never holds a carriage
    return: line ends are normalised to the newline character, on the
    first decoding as on the fallback. *)
Theorem text_has_no_carriage_return :
  forall env filepath f c,
    filepath <> "" ->
    fs env filepath = Some (File f) ->
    regular f = true ->
    Spec.detect filepath = ".txt" ->
    fst (parse env (PyStr filepath)) = Return (Some c) ->
    exists t, c = Text_ t /\ ~ In Text.CR t.
Proof.
  intros env filepath f c Hne Hfs Hreg Hext.
  rewrite (parse_validated env filepath f Hne Hfs Hreg), fst_conclude.
  rewrite Hext, dispatch_txt.
  destruct (parse_txt_no_cr env filepath (validated filepath))
    as (r & s' & E & Hr).
  rewrite E. simpl. intros [= ->].
  destruct c as [ t | | | ]; try contradiction. now exists t.
Qed.

Lemma text_has_no_carriage_return_witness :
  exists t, Text_ (Text.of_ascii "AB") = Text_ t /\ ~ In Text.CR t.
Proof.
  apply (text_has_no_carriage_return (Samples.env true) "latin.txt"
           (mkFile true Readable ["A"%byte; xff; "B"%byte])).
  - discriminate.
  - reflexivity.
  - reflexivity.
  - reflexivity.
  - reflexivity.
Defined.

(* ===================================================================== *)
(** ** Structured data *)
(* ===================================================================== *)

Lemma dispatch_json env filepath :
  dispatch env ".json" filepath = parse_json env filepath.
Proof. reflexivity. Qed.

Lemma parse_json_loaded env filepath f text v s :
  fs env filepath = Some (File f) ->
  acc f = Readable ->
  Codec.decode Codec.utf_8 Codec.strict (data f) = Return text ->
  json_loads env (Text.universal_newlines text) = Return v ->
  parse_json env filepath s
  = (Return (json_data v),
     mkSink
       (log s ++ [ mkRecord INFO ("Successfully parsed JSON: "
                                  ++ OsPath.basename filepath) ])
       (calls s ++ [open_text filepath Codec.strict newline_None])).
Proof.
  intros Hfs Hacc Hdec Hload.
  unfold parse_json. run_monad. unfold read_bytes.
  now rewrite Hfs, Hacc, Hdec, Hload.
Qed.

(** X9. A [.json] file whose document is [null] is reported as a failure:
    [json.load] returns [None], which the dispatcher cannot tell from the
    absence of a result; the call returns [None] and logs the failure right
    after the strategy logged its success. *)
Theorem json_null_is_a_failure :
  forall env filepath f text,
    filepath <> "" ->
    fs env filepath = Some (File f) ->
    regular f = true ->
    acc f = Readable ->
    Spec.detect filepath = ".json" ->
    Codec.decode Codec.utf_8 Codec.strict (data f) = Return text ->
    json_loads env (Text.universal_newlines text) = Return Json.Null ->
    parse env (PyStr filepath)
    = (Return None,
       mkSink [ Spec.attempting filepath;
                mkRecord INFO ("Successfully parsed JSON: "
                               ++ OsPath.basename filepath);
                Spec.failed filepath ]
         (Spec.validation filepath
          ++ [open_text filepath Codec.strict newline_None])).
Proof.
  intros env filepath f text Hne Hfs Hreg Hacc Hext Hdec Hload.
  rewrite (parse_validated env filepath f Hne Hfs Hreg).
  rewrite Hext, dispatch_json.
  now rewrite (parse_json_loaded env filepath f text Json.Null _
                 Hfs Hacc Hdec Hload).
Qed.

Lemma json_null_is_a_failure_witness :
  parse MoreSamples.env (PyStr "null.json")
  = (Return None,
     mkSink [ Spec.attempting "null.json";
              mkRecord INFO "Successfully parsed JSON: null.json";
              Spec.failed "null.json" ]
       (Spec.validation "null.json"
        ++ [open_text "null.json" Codec.strict newline_None])).
Proof.
  apply (json_null_is_a_failure MoreSamples.env "null.json"
           (mkFile true Readable (Samples.raw "null"))
           (Text.of_ascii "null")).
  - discriminate.
  - reflexivity.
  - reflexivity.
  - reflexivity.
  - reflexivity.
  - reflexivity.
  - reflexivity.
Defined.

(** A document that is not [null] is returned as it was loaded. *)
Lemma json_value_is_returned env filepath f text v :
  filepath <> "" ->
  fs env filepath = Some (File f) ->
  regular f = true ->
  acc f = Readable ->
  Spec.detect filepath = ".json" ->
  Codec.decode Codec.utf_8 Codec.strict (data f) = Return text ->
  json_loads env (Text.universal_newlines text) = Return v ->
  Json.is_null v = false ->
  fst (parse env (PyStr filepath)) = Return (Some (StructuredValue v)).
Proof.
  intros Hne Hfs Hreg Hacc Hext Hdec Hload Hv.
  rewrite (parse_validated env filepath f Hne Hfs Hreg).
  rewrite Hext, dispatch_json.
  rewrite (parse_json_loaded env filepath f text v _ Hfs Hacc Hdec Hload).
  unfold json_data. now rewrite Hv.
Qed.

(* ===================================================================== *)
(** ** Extracted text is trimmed *)
(* ===================================================================== *)

(** A text that does not start with whitespace. *)
Definition starts_clean (s : ustr) : Prop :=
  match s with
  | [] => True
  | c :: _ => Text.isspace c = false
  end.

(** A text that is not empty and neither starts nor ends with
    whitespace. *)
Definition fragment (s : ustr) : Prop :=
  s <> [] /\ starts_clean s /\ starts_clean (rev s).

Lemma lstrip_starts_clean s : starts_clean (Text.lstrip s).
Proof.
  induction s as [ | c r IH ]; [ exact I | ].
  simpl. destruct (Text.isspace c) eqn:E; [ exact IH | exact E ].
Qed.

Lemma starts_clean_lstrip s : starts_clean s -> Text.lstrip s = s.
Proof. destruct s as [ | c r ]; [ reflexivity | ]. simpl. now intros ->. Qed.

Lemma lstrip_snoc l c :
  Text.isspace c = false -> Text.lstrip (l ++ [c]) = Text.lstrip l ++ [c].
Proof.
  intros Hc. induction l as [ | d l IH ]; simpl.
  - now rewrite Hc.
  - destruct (Text.isspace d); [ exact IH | reflexivity ].
Qed.

Lemma rstrip_ends_clean s : starts_clean (rev (Text.rstrip s)).
Proof.
  unfold Text.rstrip. rewrite rev_involutive. apply lstrip_starts_clean.
Qed.

Lemma ends_clean_rstrip s : starts_clean (rev s) -> Text.rstrip s = s.
Proof.
  intros H. unfold Text.rstrip. rewrite (starts_clean_lstrip _ H).
  apply rev_involutive.
Qed.

Lemma rstrip_starts_clean s : starts_clean s -> starts_clean (Text.rstrip s).
Proof.
  destruct s as [ | c r ]; [ intros _; exact I | ].
  simpl. intros Hc. unfold Text.rstrip. simpl rev.
  rewrite (lstrip_snoc _ _ Hc), rev_app_distr. simpl. exact Hc.
Qed.

Lemma strip_clean s :
  starts_clean (Text.strip s) /\ starts_clean (rev (Text.strip s)).
Proof.
  unfold Text.strip. split.
  - apply rstrip_starts_clean, lstrip_starts_clean.
  - apply rstrip_ends_clean.
Qed.

Lemma clean_trimmed s :
  starts_clean s -> starts_clean (rev s) -> trimmed s.
Proof.
  intros Hl Hr. unfold trimmed, Text.strip.
  rewrite (starts_clean_lstrip _ Hl). now apply ends_clean_rstrip.
Qed.

(** [strip] is idempotent. *)
Lemma trimmed_strip s : trimmed (Text.strip s).
Proof. destruct (strip_clean s). now apply clean_trimmed. Qed.

Lemma strip_fragment s :
  Text.truthy (Text.strip s) = true -> fragment (Text.strip s).
Proof.
  intros H. destruct (strip_clean s) as [Hl Hr].
  repeat split; try assumption.
  intros E. rewrite E in H. discriminate H.
Qed.

Lemma starts_clean_app a b : a <> [] -> starts_clean a -> starts_clean (a ++ b).
Proof. destruct a; [ congruence | intros _ H; exact H ]. Qed.

Lemma join_not_empty sep p rest : p <> [] -> Text.join sep (p :: rest) <> [].
Proof.
  intros Hp. destruct rest; simpl; [ assumption | ].
  destruct p; [ congruence | discriminate ].
Qed.

(** Fragments joined by any separator start and end clean. *)
Lemma join_fragments sep parts :
  Forall fragment parts ->
  starts_clean (Text.join sep parts)
  /\ starts_clean (rev (Text.join sep parts)).
Proof.
  induction 1 as [ | p rest (Hne & Hl & Hr) Hrest IH ]; [ now split | ].
  destruct rest as [ | q rest' ]; [ now split | ].
  change (Text.join sep (p :: q :: rest'))
    with (p ++ sep ++ Text.join sep (q :: rest')).
  split.
  - now apply starts_clean_app.
  - rewrite !rev_app_distr, <- app_assoc.
    apply starts_clean_app; [ | apply IH ].
    intros E. apply (f_equal (@rev N)) in E. rewrite rev_involutive in E.
    revert E. apply join_not_empty.
    inversion Hrest as [ | ? ? (Hq & _) _ ]; subst. exact Hq.
Qed.

Lemma join_fragments_trimmed sep parts :
  Forall fragment parts -> trimmed (Text.join sep parts).
Proof.
  intros H. destruct (join_fragments sep parts H). now apply clean_trimmed.
Qed.

(** The text that [parse_xml] builds is trimmed. *)
Lemma join_stripped_trimmed parts : trimmed (join_stripped parts).
Proof.
  unfold join_stripped. apply join_fragments_trimmed.
  induction parts as [ | p parts IH ]; [ constructor | ].
  simpl. destruct (Text.truthy (Text.strip p)) eqn:E; [ | exact IH ].
  constructor; [ now apply strip_fragment | exact IH ].
Qed.

(** The strings that [get_text(strip=True)] joins are fragments. *)
Fixpoint stripped_strings_fragments (e : Bs4.PageElement) :
  Forall fragment (Bs4.stripped_strings e).
Proof.
  destruct e as [ n cs | class s ].
  - simpl. induction cs as [ | c cs IH ]; [ constructor | ].
    simpl. apply Forall_app. split; [ apply stripped_strings_fragments | exact IH ].
  - simpl. destruct (Bs4.interesting class); [ | constructor ].
    destruct (Text.truthy (Text.strip s)) eqn:E; [ | constructor ].
    constructor; [ now apply strip_fragment | constructor ].
Qed.

Lemma get_text_trimmed separator soup : trimmed (Bs4.get_text separator soup).
Proof.
  unfold Bs4.get_text. apply join_fragments_trimmed.
  induction soup as [ | e soup IH ]; [ constructor | ].
  simpl. apply Forall_app. split; [ apply stripped_strings_fragments | exact IH ].
Qed.

Section Trimmed.

Variable env : Env.

Lemma parse_xml_trimmed filepath :
  returns (text_such_that trimmed) (parse_xml env filepath).
Proof.
  apply returns_try_catch_all; [ exact I | | catches ].
  steps. cbv zeta. steps. apply returns_safe, returns_ret.
  apply join_stripped_trimmed.
Qed.

Lemma parse_pdf_trimmed filepath :
  returns (text_such_that trimmed) (parse_pdf env filepath).
Proof.
  unfold parse_pdf. destruct (HAS_PYPDF2 env); simpl.
  - apply returns_try_catch_all; [ exact I | | catches ].
    steps. cbv zeta. steps. apply returns_safe, returns_ret.
    apply trimmed_strip.
  - now apply returns_log_ret.
Qed.

Lemma parse_html_trimmed filepath :
  returns (text_such_that trimmed) (parse_html env filepath).
Proof.
  unfold parse_html. destruct (HAS_BS4 env); simpl.
  - apply returns_try_catch_all; [ exact I | | catches ].
    steps. cbv zeta. steps. apply returns_safe, returns_ret.
    apply get_text_trimmed.
  - now apply returns_log_ret.
Qed.

End Trimmed.

(** X10. The text extracted from markup, from a portable document or from
    hypertext has no leading and no trailing whitespace: trimming it again
    changes nothing. *)
Theorem extracted_text_is_trimmed :
  forall env filepath f c,
    filepath <> "" ->
    fs env filepath = Some (File f) ->
    regular f = true ->
    In (Spec.detect filepath) [".xml"; ".pdf"; ".html"; ".htm"] ->
    fst (parse env (PyStr filepath)) = Return (Some c) ->
    exists t, c = Text_ t /\ Text.strip t = t.
Proof.
  intros env filepath f c Hne Hfs Hreg Hext.
  rewrite (parse_validated env filepath f Hne Hfs Hreg), fst_conclude.
  assert (R : returns (text_such_that trimmed)
                (dispatch env (Spec.detect filepath) filepath)).
  { destruct Hext as [ <- | [ <- | [ <- | [ <- | [] ] ] ] ].
    - apply parse_xml_trimmed.
    - apply parse_pdf_trimmed.
    - apply parse_html_trimmed.
    - apply parse_html_trimmed. }
  destruct (R (validated filepath)) as (r & s' & E & Hr).
  rewrite E. simpl. intros [= ->].
  destruct c as [ t | | | ]; try contradiction. now exists t.
Qed.

Lemma extracted_text_is_trimmed_witness :
  exists t, Text_ (Text.of_ascii "1 2") = Text_ t /\ Text.strip t = t.
Proof.
  apply (extracted_text_is_trimmed (Samples.env true) "sample.xml"
           (mkFile true Readable Samples.sample_xml)).
  - discriminate.
  - reflexivity.
  - reflexivity.
  - left. reflexivity.
  - reflexivity.
Defined.

(* ===================================================================== *)
(** ** Portable documents: any number of faulty pages *)
(* ===================================================================== *)

(** X11. Once the reader of a portable document has opened the file, the
    call succeeds whatever happens on the pages: each page whose
    extraction raises is skipped with one warning of the parser that names
    it, the texts of the other pages are kept in order, and no error is
    logged; if every page raises, the call still succeeds, with the empty
    text. The warnings of the call are what the library logged on opening
    the document, then, page by page, what the library logged on the page
    followed by the warning of the parser if the page raised: as many
    warnings of the parser as pages that raise. *)
Theorem faulty_pages_never_fail_the_call :
  forall env filepath f opened pages,
    filepath <> "" ->
    fs env filepath = Some (File f) ->
    regular f = true ->
    acc f = Readable ->
    Spec.detect filepath = ".pdf" ->
    HAS_PYPDF2 env = true ->
    PdfReader env (data f) = PyPDF2.mkCall opened (Return pages) ->
    exists sink,
      parse env (PyStr filepath)
      = (Return (Some (Text_ (Spec.newline_separated
                                (List.filter Text.truthy
                                   (Spec.extracted pages))))), sink) /\
      Spec.warnings sink
      = List.map (mkRecord WARNING) opened ++ page_records filepath 0 pages /\
      List.length (Spec.warnings sink)
      = List.length opened
        + List.length (flat_map Spec.library_records pages)
        + List.length (List.filter Spec.raised pages) /\
      Spec.errors sink = [].
Proof.
  intros env filepath f opened pages Hne Hfs Hreg Hacc Hext Hhas Hpdf.
  rewrite (parse_validated env filepath f Hne Hfs Hreg).
  rewrite Hext, dispatch_pdf.
  rewrite (parse_pdf_any env filepath f opened pages _ Hhas Hfs Hacc Hpdf).
  eexists. split; [ reflexivity | ].
  match goal with |- ?lhs = ?rhs /\ _ => assert (W : lhs = rhs) end.
  { unfold Spec.warnings. cbn [log snd conclude validated].
    unfold Spec.finished. apply pdf_log_warnings. }
  split; [ exact W | ]. split.
  - rewrite W, length_app, length_map, page_records_count.
    now rewrite Nat.add_assoc.
  - unfold Spec.errors. cbn [log snd conclude validated].
    unfold Spec.finished. apply pdf_log_errors.
Qed.

Lemma faulty_pages_never_fail_the_call_witness :
  exists sink,
    parse MoreSamples.env (PyStr "blank.pdf")
    = (Return (Some (Text_ [])), sink) /\
    Spec.warnings sink
    = [ page_warning "blank.pdf" 0 (Exn.mk Exn.KeyError "'/Contents'");
        mkRecord WARNING "Ignoring wrong pointing object 7 0 (offset 0)";
        page_warning "blank.pdf" 2 (Exn.mk Exn.ValueError "bad stream") ] /\
    List.length (Spec.warnings sink) = 3 /\
    Spec.errors sink = [].
Proof.
  apply (faulty_pages_never_fail_the_call MoreSamples.env "blank.pdf"
           (mkFile true Readable (Samples.raw "%PDF-1.4 blank"))
           [] MoreSamples.blank_pages).
  - discriminate.
  - reflexivity.
  - reflexivity.
  - reflexivity.
  - reflexivity.
  - reflexivity.
  - reflexivity.
Defined.

(* ===================================================================== *)
(** ** Hypertext: scripts and styles *)
(* ===================================================================== *)

(** The strings that are left once the elements named [names] are
    removed are the strings outside of these elements. *)
Fixpoint stripped_after_decompose (names : list string)
  (e : Bs4.PageElement) :
  flat_map Bs4.stripped_strings (Bs4.decompose_all names e)
  = visible_strings names e.
Proof.
  destruct e as [ n cs | class s ].
  - simpl. destruct (Bs4.name_in names n); [ reflexivity | ].
    simpl. rewrite app_nil_r, flat_map_flat_map.
    induction cs as [ | c cs IH ]; [ reflexivity | ].
    simpl. now rewrite IH, stripped_after_decompose.
  - simpl. rewrite app_nil_r. now destruct class.
Qed.

Lemma get_text_after_decompose names separator soup :
  Bs4.get_text separator (flat_map (Bs4.decompose_all names) soup)
  = Text.join separator (flat_map (visible_strings names) soup).
Proof.
  unfold Bs4.get_text. f_equal. rewrite flat_map_flat_map.
  induction soup as [ | e soup IH ]; [ reflexivity | ].
  simpl. now rewrite IH, stripped_after_decompose.
Qed.

Lemma parse_html_text env filepath f text soup s :
  HAS_BS4 env = true ->
  fs env filepath = Some (File f) ->
  acc f = Readable ->
  Codec.decode Codec.utf_8 Codec.strict (data f) = Return text ->
  BeautifulSoup env (Text.universal_newlines text) = Return soup ->
  parse_html env filepath s
  = (Return (Some (Text_ (Text.join [Text.LF]
                            (flat_map (visible_strings ["script"; "style"])
                               soup)))),
     mkSink
       (log s ++ [ mkRecord INFO
                     ("Successfully parsed HTML and extracted text: "
                      ++ OsPath.basename filepath) ])
       (calls s ++ [open_text filepath Codec.strict newline_None])).
Proof.
  intros Hhas Hfs Hacc Hdec Hsoup.
  unfold parse_html. rewrite Hhas. cbv [negb]. run_monad.
  unfold read_bytes. rewrite Hfs, Hacc, Hdec, Hsoup.
  now rewrite get_text_after_decompose.
Qed.

(** X12. What is inside a [script] or a [style] element, at any depth,
    never reaches the text extracted from a hypertext file, and neither
    do the comments, the declarations, the document type, the processing
    instructions and what the parser found in a template or in a ruby
    annotation: the text is made of the other strings of the tree, each
    one trimmed, the empty ones dropped, one per line. *)
Theorem scripts_and_styles_are_not_extracted :
  forall env filepath f text soup,
    filepath <> "" ->
    fs env filepath = Some (File f) ->
    regular f = true ->
    acc f = Readable ->
    In (Spec.detect filepath) [".html"; ".htm"] ->
    HAS_BS4 env = true ->
    Codec.decode Codec.utf_8 Codec.strict (data f) = Return text ->
    BeautifulSoup env (Text.universal_newlines text) = Return soup ->
    fst (parse env (PyStr filepath))
    = Return (Some (Text_ (Text.join [Text.LF]
                             (flat_map (visible_strings ["script"; "style"])
                                soup)))).
Proof.
  intros env filepath f text soup Hne Hfs Hreg Hacc Hext Hhas Hdec Hsoup.
  rewrite (parse_validated env filepath f Hne Hfs Hreg), fst_conclude.
  assert (D : dispatch env (Spec.detect filepath) filepath
              = parse_html env filepath).
  { destruct Hext as [ <- | [ <- | [] ] ]; reflexivity. }
  rewrite D.
  now rewrite (parse_html_text env filepath f text soup _
                 Hhas Hfs Hacc Hdec Hsoup).
Qed.

Lemma scripts_and_styles_are_not_extracted_witness :
  fst (parse MoreSamples.env (PyStr "page.html"))
  = Return (Some (Text_ (Text.of_ascii "Hello" ++ [Text.LF]
                         ++ Text.of_ascii "World"))).
Proof.
  apply (scripts_and_styles_are_not_extracted MoreSamples.env "page.html"
           (mkFile true Readable (Samples.raw "<html>...</html>"))
           (Text.of_ascii "<html>...</html>") MoreSamples.soup).
  - discriminate.
  - reflexivity.
  - reflexivity.
  - reflexivity.
  - left. reflexivity.
  - reflexivity.
  - reflexivity.
  - reflexivity.
Defined.

(* ===================================================================== *)
(** ** Spreadsheets: the engine follows the extension *)
(* ===================================================================== *)

Lemma append_empty_r (s : string) : (s ++ "")%string = s.
Proof. induction s as [ | c s IH ]; [ reflexivity | simpl; now rewrite IH ]. Qed.

Lemma substring_all (s : string) : substring 0 (String.length s) s = s.
Proof. induction s as [ | c s IH ]; [ reflexivity | simpl; now rewrite IH ]. Qed.

(** A string is its prefix of length [n] followed by the rest. *)
Lemma substring_split (p : string) :
  forall n, (substring 0 n p ++ substring n (String.length p - n) p)%string = p.
Proof.
  induction p as [ | c p IH ]; intros n.
  - now destruct n.
  - destruct n as [ | n ].
    + simpl. now rewrite substring_all.
    + simpl. now rewrite IH.
Qed.

(** [os.path.splitext]: the root followed by the extension is the path. *)
Lemma splitext_join (p : string) :
  (fst (OsPath.splitext p) ++ snd (OsPath.splitext p))%string = p.
Proof.
  unfold OsPath.splitext.
  destruct (OsPath.rfind1 "/" p <? OsPath.rfind1 "." p)%nat;
    [ | apply append_empty_r ].
  destruct (OsPath.has_non_dot _ _ _); [ | apply append_empty_r ].
  apply substring_split.
Qed.

Lemma lower_append (a b : string) :
  Text.lower (a ++ b)%string = (Text.lower a ++ Text.lower b)%string.
Proof. induction a as [ | c a IH ]; [ reflexivity | simpl; now rewrite IH ]. Qed.

Lemma length_append (a b : string) :
  String.length (a ++ b)%string = String.length a + String.length b.
Proof. induction a as [ | c a IH ]; [ reflexivity | simpl; now rewrite IH ]. Qed.

Lemma substring_append_r (a b : string) :
  substring (String.length a) (String.length b) (a ++ b)%string = b.
Proof.
  induction a as [ | c a IH ]; [ apply substring_all | exact IH ].
Qed.

Lemma endswith_append (a b : string) : Text.endswith (a ++ b)%string b = true.
Proof.
  unfold Text.endswith. rewrite length_append.
  replace (String.length a + String.length b - String.length b)
    with (String.length a) by lia.
  rewrite substring_append_r, String.eqb_refl.
  apply andb_true_iff. split; [ | reflexivity ].
  apply Nat.leb_le. lia.
Qed.

Lemma endswith_inv (s suffix : string) :
  Text.endswith s suffix = true -> exists a, s = (a ++ suffix)%string.
Proof.
  unfold Text.endswith. intros H. apply andb_true_iff in H.
  destruct H as [Hle Heq]. apply Nat.leb_le in Hle.
  apply String.eqb_eq in Heq.
  exists (substring 0 (String.length s - String.length suffix) s).
  pose proof (substring_split s (String.length s - String.length suffix))
    as H.
  replace (String.length s - (String.length s - String.length suffix))
    with (String.length suffix) in H by lia.
  rewrite Heq in H. now symmetry.
Qed.

(** Two ways of cutting the same string. *)
Lemma append_eq_append (a b pre d : string) :
  (a ++ b)%string = (pre ++ d)%string ->
  String.length pre <= String.length a ->
  exists x, a = (pre ++ x)%string /\ d = (x ++ b)%string.
Proof.
  revert a. induction pre as [ | c pre IH ]; intros a E Hlen.
  - exists a. now split.
  - destruct a as [ | c' a ]; [ simpl in Hlen; lia | ].
    simpl in E. injection E as -> E.
    destruct (IH a E) as (x & -> & ->); [ simpl in Hlen; lia | ].
    now exists x.
Qed.

Lemma not_endswith_xlsx (a : string) :
  Text.endswith (a ++ ".xls")%string ".xlsx" = false.
Proof.
  destruct (Text.endswith (a ++ ".xls")%string ".xlsx") eqn:E; [ | reflexivity ].
  exfalso. destruct (endswith_inv _ _ E) as (pre & H).
  assert (Hlen : String.length pre <= String.length a).
  { apply (f_equal String.length) in H. rewrite !length_append in H.
    simpl in H. lia. }
  destruct (append_eq_append _ _ _ _ H Hlen) as (x & -> & Hx).
  destruct x as [ | c x ]; [ discriminate Hx | ].
  destruct x as [ | c' x ]; [ discriminate Hx | ].
  apply (f_equal String.length) in H. rewrite !length_append in H.
  simpl in H. lia.
Qed.

(** The test of [parse_excel] on the whole path agrees with the
    extension that the dispatcher detected. *)
Lemma endswith_xlsx_detect filepath :
  In (Spec.detect filepath) [".xlsx"; ".xls"] ->
  (if Text.endswith (Text.lower filepath) ".xlsx"
   then Pandas.openpyxl else Pandas.xlrd)
  = engine_of (Spec.detect filepath).
Proof.
  intros H. unfold Spec.detect in *.
  rewrite <- (splitext_join filepath) at 1. rewrite lower_append.
  destruct H as [ E | [ E | [] ] ]; rewrite <- E.
  - now rewrite endswith_append.
  - now rewrite not_endswith_xlsx.
Qed.

Lemma parse_excel_sheets env filepath f sheets s :
  HAS_PANDAS env = true ->
  fs env filepath = Some (File f) ->
  acc f = Readable ->
  In (Spec.detect filepath) [".xlsx"; ".xls"] ->
  pd_read_excel env (engine_of (Spec.detect filepath)) (data f)
  = Return sheets ->
  parse_excel env filepath s
  = (Return (Some (SheetSet sheets)),
     mkSink
       (log s ++ [ mkRecord INFO
                     ("Successfully parsed Excel: "
                      ++ OsPath.basename filepath ++ " ("
                      ++ Text.of_nat (List.length sheets) ++ " sheets)") ])
       (calls s ++ [io_open filepath binary_mode])).
Proof.
  intros Hhas Hfs Hacc Hext Hread.
  unfold parse_excel. rewrite Hhas. cbv [negb]. cbv zeta.
  rewrite (endswith_xlsx_detect filepath Hext).
  run_monad. unfold read_bytes. now rewrite Hfs, Hacc, Hread.
Qed.

(** X13. The engine that reads a spreadsheet follows the extension that
    the dispatcher detected, although [parse_excel] tests the end of the
    whole path again: a file detected as [.xlsx] (in any letter case) is
    read with [openpyxl], a file detected as [.xls] with [xlrd], and the
    sheets that this engine returns are returned. *)
Theorem spreadsheet_engine_follows_extension :
  forall env filepath f sheets,
    filepath <> "" ->
    fs env filepath = Some (File f) ->
    regular f = true ->
    acc f = Readable ->
    In (Spec.detect filepath) [".xlsx"; ".xls"] ->
    HAS_PANDAS env = true ->
    pd_read_excel env (engine_of (Spec.detect filepath)) (data f)
    = Return sheets ->
    fst (parse env (PyStr filepath)) = Return (Some (SheetSet sheets)).
Proof.
  intros env filepath f sheets Hne Hfs Hreg Hacc Hext Hhas Hread.
  rewrite (parse_validated env filepath f Hne Hfs Hreg), fst_conclude.
  assert (D : dispatch env (Spec.detect filepath) filepath
              = parse_excel env filepath).
  { destruct Hext as [ E | [ E | [] ] ]; rewrite <- E; reflexivity. }
  rewrite D.
  now rewrite (parse_excel_sheets env filepath f sheets _
                 Hhas Hfs Hacc Hext Hread).
Qed.

Lemma spreadsheet_engine_follows_extension_witness :
  fst (parse MoreSamples.env (PyStr "Book.XLSX"))
  = Return (Some (SheetSet [("Sheet1", [[Text.of_ascii "modern"]])])).
Proof.
  apply (spreadsheet_engine_follows_extension MoreSamples.env "Book.XLSX"
           (mkFile true Readable (Samples.raw "PK"))).
  - discriminate.
  - reflexivity.
  - reflexivity.
  - reflexivity.
  - left. reflexivity.
  - reflexivity.
  - reflexivity.
Defined.

(* ===================================================================== *)
(** ** Import time *)
(* ===================================================================== *)

Lemma try_import_missing importable modules msg m :
  In m modules -> importable m = false ->
  Startup.try_import importable modules msg = (false, [mkRecord WARNING msg]).
Proof.
  intros Hin Hm. unfold Startup.try_import.
  destruct (forallb importable modules) eqn:E; [ | reflexivity ].
  rewrite forallb_forall in E. rewrite (E m Hin) in Hm. discriminate Hm.
Qed.

(** X14. The spreadsheet backend needs [pandas], [openpyxl] and [xlrd]
    together: when any one of the three cannot be imported at start-up, a
    warning is logged then, and afterwards every spreadsheet fails as
    backend unavailable without being opened, a [.xlsx] file as well when
    only [xlrd] is missing. *)
Theorem spreadsheets_need_all_three_modules :
  forall importable m env filepath f,
    In m ["pandas"; "openpyxl"; "xlrd"] ->
    importable m = false ->
    filepath <> "" ->
    fs env filepath = Some (File f) ->
    regular f = true ->
    In (Spec.detect filepath) [".xlsx"; ".xls"] ->
    In (mkRecord WARNING
          "pandas, openpyxl, or xlrd not found. Excel parsing disabled. Install with: pip install pandas openpyxl xlrd")
       (snd (Startup.detect_backends importable)) /\
    parse (Startup.configure (fst (Startup.detect_backends importable)) env)
      (PyStr filepath)
    = (Return None,
       mkSink [ Spec.attempting filepath;
                Spec.backend_unavailable Spec.SpreadsheetReader;
                Spec.failed filepath ]
         (Spec.validation filepath)).
Proof.
  intros importable m env filepath f Hm Himp Hne Hfs Hreg Hext.
  unfold Startup.detect_backends.
  destruct (Startup.try_import importable ["PyPDF2"] _) as [pypdf2 l1].
  destruct (Startup.try_import importable ["docx"] _) as [docx l2].
  rewrite (try_import_missing importable _ _ m Hm Himp).
  destruct (Startup.try_import importable ["bs4"; "lxml"] _) as [bs4 l4].
  split.
  - simpl snd. apply in_or_app. right. apply in_or_app. right. now left.
  - simpl fst.
    set (env' := Startup.configure _ env).
    rewrite (parse_validated env' filepath f Hne Hfs Hreg).
    rewrite (dispatch_backend_unavailable _ _ _ Spec.SpreadsheetReader).
    + reflexivity.
    + unfold Spec.required_backend.
      destruct Hext as [ E | [ E | [] ] ]; rewrite <- E; reflexivity.
    + reflexivity.
Qed.

Lemma spreadsheets_need_all_three_modules_witness :
  In (mkRecord WARNING
        "pandas, openpyxl, or xlrd not found. Excel parsing disabled. Install with: pip install pandas openpyxl xlrd")
     (snd (Startup.detect_backends (fun m => negb (String.eqb m "xlrd")))) /\
  parse (Startup.configure
           (fst (Startup.detect_backends
                   (fun m => negb (String.eqb m "xlrd"))))
           MoreSamples.env)
    (PyStr "Book.XLSX")
  = (Return None,
     mkSink [ Spec.attempting "Book.XLSX";
              Spec.backend_unavailable Spec.SpreadsheetReader;
              Spec.failed "Book.XLSX" ]
       (Spec.validation "Book.XLSX")).
Proof.
  apply (spreadsheets_need_all_three_modules
           (fun m => negb (String.eqb m "xlrd")) "xlrd" MoreSamples.env
           "Book.XLSX" (mkFile true Readable (Samples.raw "PK"))).
  - right. right. left. reflexivity.
  - reflexivity.
  - discriminate.
  - reflexivity.
  - reflexivity.
  - left. reflexivity.
Defined.

(* ===================================================================== *)
(** ** Delimited files and markup: what is read back *)
(* ===================================================================== *)


(** X16. A markup document in which no text follows a child element is
    extracted in full: the text returned is the text content of every
    node, each fragment trimmed, the empty ones dropped, joined by one
    space. *)
Theorem markup_without_tails_is_extracted_in_full :
  forall env filepath f root,
    filepath <> "" ->
    fs env filepath = Some (File f) ->
    regular f = true ->
    acc f = Readable ->
    Spec.detect filepath = ".xml" ->
    ET_parse env (data f) = Return root ->
    no_tail root = true ->
    fst (parse env (PyStr filepath))
    = Return (Some (Text_ (Spec.all_text root))).
Proof.
  intros env filepath f root Hne Hfs Hreg Hacc Hext Hparse Htail.
  rewrite (parse_validated env filepath f Hne Hfs Hreg), fst_conclude.
  rewrite Hext, dispatch_xml.
  rewrite (parse_xml_text env filepath f root _ Hfs Hacc Hparse).
  simpl fst. now rewrite (join_stripped_all_text root Htail).
Qed.

Lemma markup_without_tails_is_extracted_in_full_witness :
  fst (parse (Samples.env true) (PyStr "sample.xml"))
  = Return (Some (Text_ (Spec.all_text Samples.sample_xml_tree))).
Proof.
  apply (markup_without_tails_is_extracted_in_full (Samples.env true)
           "sample.xml" (mkFile true Readable Samples.sample_xml)).
  - discriminate.
  - reflexivity.
  - reflexivity.
  - reflexivity.
  - reflexivity.
  - reflexivity.
  - reflexivity.
Defined.

(* ===================================================================== *)
(** ** Paths without an extension *)
(* ===================================================================== *)

(** [c in s] *)
Fixpoint occurs (c : ascii) (s : string) : bool :=
  match s with
  | EmptyString => false
  | String a r => Ascii.eqb a c || occurs c r
  end.

Lemma rfind1_aux_append c (a b : string) :
  forall i last,
    OsPath.rfind1_aux c (a ++ b)%string i last
    = OsPath.rfind1_aux c b (i + String.length a)
        (OsPath.rfind1_aux c a i last).
Proof.
  induction a as [ | x a IH ]; intros i last; simpl.
  - now rewrite Nat.add_0_r.
  - rewrite IH. f_equal. lia.
Qed.

Lemma rfind1_aux_absent c (s : string) :
  occurs c s = false ->
  forall i last, OsPath.rfind1_aux c s i last = last.
Proof.
  induction s as [ | a r IH ]; intros H i last; [ reflexivity | ].
  simpl in H. apply orb_false_elim in H. destruct H as [Ha Hr].
  simpl. rewrite Ha. now apply IH.
Qed.

Lemma unsupported_on_validated env filepath f :
  filepath <> "" ->
  fs env filepath = Some (File f) ->
  regular f = true ->
  Spec.detect filepath = "" ->
  parse env (PyStr filepath)
  = (Return None,
     mkSink [ Spec.attempting filepath;
              Spec.unsupported_format filepath;
              Spec.failed filepath ]
       (Spec.validation filepath)).
Proof.
  intros Hne Hfs Hreg Hext.
  rewrite (parse_validated env filepath f Hne Hfs Hreg).
  rewrite (dispatch_unsupported env (Spec.detect filepath) filepath);
    [ reflexivity | now rewrite Hext ].
Qed.

(** X17. A regular file whose path holds no dot has no extension and is
    never parsed: the call fails as unsupported format, without opening
    the file. *)
Theorem path_without_dot_is_unsupported :
  forall env filepath f,
    filepath <> "" ->
    fs env filepath = Some (File f) ->
    regular f = true ->
    occurs "." filepath = false ->
    parse env (PyStr filepath)
    = (Return None,
       mkSink [ Spec.attempting filepath;
                Spec.unsupported_format filepath;
                Spec.failed filepath ]
         (Spec.validation filepath)).
Proof.
  intros env filepath f Hne Hfs Hreg Hdot.
  apply (unsupported_on_validated env filepath f Hne Hfs Hreg).
  unfold Spec.detect, OsPath.splitext.
  unfold OsPath.rfind1 at 2. rewrite (rfind1_aux_absent _ _ Hdot).
  reflexivity.
Qed.

Lemma path_without_dot_is_unsupported_witness :
  parse MoreSamples.env (PyStr "README")
  = (Return None,
     mkSink [ Spec.attempting "README";
              Spec.unsupported_format "README";
              Spec.failed "README" ]
       (Spec.validation "README")).
Proof.
  apply (path_without_dot_is_unsupported MoreSamples.env "README"
           (mkFile true Readable (Samples.raw "text"))).
  - discriminate.
  - reflexivity.
  - reflexivity.
  - reflexivity.
Defined.

(** X18. A hidden file has no extension: when the last component of the
    path is a dot followed by a name without dot ([.txt], [dir/.csv]), the
    detected extension is empty, so the call fails as unsupported format
    without opening the file, even though the path ends like a supported
    extension. *)
Theorem hidden_file_is_unsupported :
  forall env prefix name f,
    (prefix = "" \/ exists d, prefix = (d ++ "/")%string) ->
    occurs "." name = false ->
    occurs "/" name = false ->
    fs env (prefix ++ "." ++ name)%string = Some (File f) ->
    regular f = true ->
    parse env (PyStr (prefix ++ "." ++ name)%string)
    = (Return None,
       mkSink [ Spec.attempting (prefix ++ "." ++ name)%string;
                Spec.unsupported_format (prefix ++ "." ++ name)%string;
                Spec.failed (prefix ++ "." ++ name)%string ]
         (Spec.validation (prefix ++ "." ++ name)%string)).
Proof.
  intros env prefix name f Hprefix Hdot Hsep Hfs Hreg.
  assert (Hne : (prefix ++ "." ++ name)%string <> "").
  { destruct prefix; discriminate. }
  apply (unsupported_on_validated env _ f Hne Hfs Hreg).
  assert (Hs : OsPath.rfind1 "/" (prefix ++ "." ++ name)%string
               = String.length prefix).
  { unfold OsPath.rfind1. rewrite rfind1_aux_append.
    simpl OsPath.rfind1_aux at 1. rewrite (rfind1_aux_absent _ _ Hsep).
    destruct Hprefix as [ -> | (d & ->) ]; [ reflexivity | ].
    rewrite rfind1_aux_append. simpl. rewrite length_append. simpl. lia. }
  assert (Hd : OsPath.rfind1 "." (prefix ++ "." ++ name)%string
               = S (String.length prefix)).
  { unfold OsPath.rfind1. rewrite rfind1_aux_append.
    simpl OsPath.rfind1_aux at 1. now rewrite (rfind1_aux_absent _ _ Hdot). }
  unfold Spec.detect, OsPath.splitext. rewrite Hs, Hd.
  replace (String.length prefix <? S (String.length prefix))%nat with true
    by (symmetry; apply Nat.ltb_lt; lia).
  replace (S (String.length prefix) - 1 - String.length prefix) with 0 by lia.
  reflexivity.
Qed.

Lemma hidden_file_is_unsupported_witness :
  parse MoreSamples.env (PyStr "conf/.txt")
  = (Return None,
     mkSink [ Spec.attempting "conf/.txt";
              Spec.unsupported_format "conf/.txt";
              Spec.failed "conf/.txt" ]
       (Spec.validation "conf/.txt")).
Proof.
  apply (hidden_file_is_unsupported MoreSamples.env "conf/" "txt"
           (mkFile true Readable (Samples.raw "text"))).
  - right. now exists "conf".
  - reflexivity.
  - reflexivity.
  - reflexivity.
  - reflexivity.
Defined.

(* ===================================================================== *)
(** ** The strategies called on their own *)
(* ===================================================================== *)

(** X19. Each strategy that opens the file itself can be called on its
    own with a path that does not exist: it returns [None], logs
    [File not found] with the path, and makes one access, to that path;
    it does not raise. *)
Theorem strategies_report_a_missing_file :
  forall env filepath s,
    fs env filepath = None ->
    HAS_PYPDF2 env = true ->
    HAS_PANDAS env = true ->
    HAS_BS4 env = true ->
    Forall
      (fun strategy : string -> M.t (option Content) =>
         exists c,
           strategy filepath s
           = (Return None,
              mkSink (log s ++ [mkRecord ERROR ("File not found: " ++ filepath)])
                (calls s ++ [c])) /\
           call_path c = filepath)
      [ parse_txt env; parse_csv env; parse_json env; parse_xml env;
        parse_pdf env; parse_excel env; parse_html env ].
Proof.
  intros env filepath s Hfs Hpdf Hpandas Hbs4.
  repeat (apply Forall_cons;
          [ unfold parse_txt, parse_csv, parse_json, parse_xml, parse_pdf,
              parse_excel, parse_html;
            rewrite ?Hpdf, ?Hpandas, ?Hbs4; cbv [negb]; cbv zeta;
            run_monad; unfold read_bytes; rewrite Hfs;
            eexists; split; reflexivity | ]).
  constructor.
Qed.

Lemma strategies_report_a_missing_file_witness :
  Forall
    (fun strategy : string -> M.t (option Content) =>
       exists c,
         strategy "nowhere.txt" empty_sink
         = (Return None,
            mkSink (log empty_sink
                    ++ [mkRecord ERROR ("File not found: " ++ "nowhere.txt")])
              (calls empty_sink ++ [c])) /\
         call_path c = "nowhere.txt")
    [ parse_txt MoreSamples.env; parse_csv MoreSamples.env;
      parse_json MoreSamples.env; parse_xml MoreSamples.env;
      parse_pdf MoreSamples.env; parse_excel MoreSamples.env;
      parse_html MoreSamples.env ].
Proof.
  apply (strategies_report_a_missing_file MoreSamples.env "nowhere.txt"
           empty_sink); reflexivity.
Defined.

(* ===================================================================== *)
(** ** No fallback outside of text files *)
(* ===================================================================== *)

(** X20. Only the text strategy retries a decoding: a [.json], [.html]
    or [.htm] file whose bytes are not valid UTF-8 makes the call fail,
    and no warning is logged. *)
Theorem invalid_utf8_fails_structured_and_hypertext :
  forall env filepath f e,
    filepath <> "" ->
    fs env filepath = Some (File f) ->
    regular f = true ->
    In (Spec.detect filepath) [".json"; ".html"; ".htm"] ->
    Codec.decode Codec.utf_8 Codec.strict (data f) = Raise e ->
    exists sink,
      parse env (PyStr filepath) = (Return None, sink) /\
      Spec.warnings sink = [].
Proof.
  intros env filepath f e Hne Hfs Hreg Hext Hstrict.
  pose proof (decode_strict_raises _ _ _ Hstrict) as ->.
  rewrite (parse_validated env filepath f Hne Hfs Hreg).
  assert (D : exists msg,
             dispatch env (Spec.detect filepath) filepath (validated filepath)
             = (Return None,
                mkSink (log (validated filepath) ++ [mkRecord ERROR msg])
                  (calls (validated filepath)
                   ++ (if String.eqb (Spec.detect filepath) ".json"
                          || HAS_BS4 env
                       then [open_text filepath Codec.strict newline_None]
                       else [])))).
  { destruct Hext as [ E | [ E | [ E | [] ] ] ]; rewrite <- E;
      cbn [String.eqb Ascii.eqb Bool.eqb orb andb];
      unfold dispatch; cbn [String.eqb Ascii.eqb Bool.eqb existsb orb];
      unfold parse_json, parse_html.
    - run_monad. unfold read_bytes. rewrite Hfs.
      destruct (acc f); [ rewrite Hstrict | | ]; now eexists.
    - destruct (HAS_BS4 env); cbv [negb].
      + run_monad. unfold read_bytes. rewrite Hfs.
        destruct (acc f); [ rewrite Hstrict | | ]; now eexists.
      + eexists. run_monad. cbn [log calls]. now rewrite app_nil_r.
    - destruct (HAS_BS4 env); cbv [negb].
      + run_monad. unfold read_bytes. rewrite Hfs.
        destruct (acc f); [ rewrite Hstrict | | ]; now eexists.
      + eexists. run_monad. cbn [log calls]. now rewrite app_nil_r. }
  destruct D as (msg & ->). eexists. split; reflexivity.
Qed.

Lemma invalid_utf8_fails_structured_and_hypertext_witness :
  exists sink,
    parse MoreSamples.env (PyStr "latin.json") = (Return None, sink) /\
    Spec.warnings sink = [].
Proof.
  apply (invalid_utf8_fails_structured_and_hypertext MoreSamples.env
           "latin.json" (mkFile true Readable [x7b; xff; x7d])
           Codec.UnicodeDecodeError).
  - discriminate.
  - reflexivity.
  - reflexivity.
  - left. reflexivity.
  - reflexivity.
Defined.

(* ===================================================================== *)
(** ** Delimited files: the limit on the size of a field *)
(* ===================================================================== *)

(** Once a line has raised, the reader fails at the end of that line,
    whatever the line holds. *)
Lemma stream_raise e rest :
  forall line_num,
    stream (Raise e) false line_num rest = Csv.Failed e (S line_num).
Proof.
  induction rest as [ | c r IH ]; intros line_num; [ reflexivity | ].
  cbn [stream]. destruct (c =? Text.LF)%N; [ reflexivity | ].
  destruct (c =? Text.CR)%N; [ | apply IH ].
  destruct r as [ | d r' ]; [ reflexivity | ].
  now destruct (d =? Text.LF)%N.
Qed.

(** The field grows up to the limit, and the next character raises. *)
Lemma feed_beyond_limit p :
  forall fs fd,
    forallb plain_char p = true ->
    (N.of_nat (List.length fd) <= Csv.field_limit)%N ->
    (Csv.field_limit < N.of_nat (List.length fd + List.length p))%N ->
    feed (Return (Csv.mkReader Csv.IN_FIELD fs fd)) p
    = Raise (Csv.Error "field larger than field limit (131072)").
Proof.
  induction p as [ | c p IH ]; intros fs fd Hp Hfd Hlen.
  - simpl in Hlen. lia.
  - simpl in Hp. apply andb_true_iff in Hp. destruct Hp as [Hc Hp].
    destruct (plain_char_inv c Hc) as (Hd & Hq & Hn).
    simpl feed. unfold Csv.parse_process_char. simpl Csv.state.
    unfold Csv.is_eol_or_newline. rewrite Hn, Hd.
    destruct (N.leb_spec Csv.field_limit (N.of_nat (List.length fd)))
      as [ Hfull | Hroom ].
    + unfold Csv.add_char_then, Csv.parse_add_char. simpl Csv.field.
      apply N.leb_le in Hfull. rewrite Hfull. apply feed_raise.
    + rewrite add_char_below_limit by lia.
      apply IH; [ assumption | | ]; rewrite length_app;
        cbn [List.length] in *; lia.
Qed.

Lemma feed_oversized p :
  forallb plain_char p = true ->
  (Csv.field_limit < N.of_nat (List.length p))%N ->
  feed (Return Csv.parse_reset) p
  = Raise (Csv.Error "field larger than field limit (131072)").
Proof.
  intros Hp Hlen. destruct p as [ | c p ].
  - simpl in Hlen. lia.
  - pose proof Hp as Hp'. simpl in Hp'. apply andb_true_iff in Hp'.
    destruct Hp' as [Hc Hrest].
    destruct (plain_char_inv c Hc) as (Hd & Hq & Hn).
    simpl feed. unfold Csv.parse_process_char, Csv.start_field.
    simpl Csv.state. rewrite Hn. unfold Csv.is_eol_or_newline.
    simpl Csv.set_state. rewrite Hn, Hq, Hd.
    assert (Hone : (N.of_nat 1 <= Csv.field_limit)%N)
      by (unfold Csv.field_limit; lia).
    change (Csv.set_state Csv.parse_reset Csv.START_FIELD)
      with (Csv.mkReader Csv.START_FIELD [] []).
    rewrite add_char_below_limit by exact Hone.
    apply feed_beyond_limit; [ assumption | exact Hone | ].
    cbn [List.length app] in *. lia.
Qed.

(** X21. A delimited file that starts with a field of more than 131072
    characters (the limit of the reader, which the script leaves at its
    default) makes the call fail, whatever follows the field: the error
    of the reader is reported for line 1, no row is returned, and no
    warning is logged. *)
Theorem oversized_field_fails :
  forall env filepath f p rest,
    filepath <> "" ->
    fs env filepath = Some (File f) ->
    regular f = true ->
    acc f = Readable ->
    Spec.detect filepath = ".csv" ->
    Codec.decode Codec.utf_8 Codec.strict (data f) = Return (p ++ rest) ->
    forallb plain_char p = true ->
    (Csv.field_limit < N.of_nat (List.length p))%N ->
    exists sink,
      parse env (PyStr filepath) = (Return None, sink) /\
      Spec.errors sink
      = [ mkRecord ERROR
            ("CSV parsing error in file " ++ filepath
             ++ ", line 1: field larger than field limit (131072)");
          Spec.failed filepath ] /\
      Spec.warnings sink = [].
Proof.
  intros env filepath f p rest Hne Hfs Hreg Hacc Hext Hdec Hp Hlen.
  rewrite (parse_validated env filepath f Hne Hfs Hreg).
  rewrite Hext, dispatch_csv.
  assert (R : Csv.reader (Text.lines_keepends (p ++ rest))
              = Csv.Failed
                  (Csv.Error "field larger than field limit (131072)") 1).
  { rewrite reader_stream.
    rewrite stream_plain;
      [ | assumption | intros ->; simpl in Hlen; lia ].
    rewrite (feed_oversized p Hp Hlen). apply stream_raise. }
  unfold parse_csv. run_monad. unfold read_bytes. rewrite Hfs, Hacc, Hdec.
  rewrite R. eexists. split; [ reflexivity | ]. split; reflexivity.
Qed.

Lemma oversized_field_fails_witness :
  exists sink,
    parse LimitSamples.env (PyStr "wide.csv") = (Return None, sink) /\
    Spec.errors sink
    = [ mkRecord ERROR
          ("CSV parsing error in file " ++ "wide.csv"
           ++ ", line 1: field larger than field limit (131072)");
        Spec.failed "wide.csv" ] /\
    Spec.warnings sink = [].
Proof.
  apply (oversized_field_fails LimitSamples.env "wide.csv"
           (mkFile true Readable LimitSamples.wide)
           (List.repeat 97%N (N.to_nat 131073)) []).
  - discriminate.
  - reflexivity.
  - reflexivity.
  - reflexivity.
  - reflexivity.
  - rewrite app_nil_r. unfold LimitSamples.wide. cbn [data].
    rewrite decode_ascii; rewrite map_repeat; [ reflexivity | ].
    apply Forall_forall. intros b Hb. apply repeat_spec in Hb. now subst b.
  - generalize (N.to_nat 131073). intros n.
    induction n as [ | n IH ]; [ reflexivity | exact IH ].
  - rewrite repeat_length, N2Nat.id. reflexivity.
Defined.
